(** * layer_zero_bridger: chain_to_chain.py

    A shallow embedding of [src/chain_to_chain.py].  The two coroutines of the
    file, [chain_to_chain] and [main], are interaction trees: every call that
    leaves the file (a helper of [modules.*], the logger, the progress bar,
    [asyncio.sleep], [random.randint], [print], [sys.exit]) is an event, and
    the [while] loop is [ITree.iter].  A run is the execution of a tree
    against a world that answers the events, bounded by fuel, and yields the
    sequence of events performed. *)

From Stdlib Require Import ZArith List String Lia Bool Arith QArith.
From Stdlib Require Import DecimalString.
From ITree Require Import ITree Eq.Shallow.
Import ListNotations.
Import ITreeNotations.

Local Open Scope list_scope.
Local Open Scope string_scope.
Local Open Scope itree_scope.
Local Open Scope Z_scope.

(** ** Running an interaction tree *)

Module Exec.

(** How a run ends: the coroutine returned, an exception left it, or the
    fuel ran out while it was still running. *)
Variant outcome (X R : Type) : Type :=
| Returned (r : R)
| Raised (x : X)
| Timeout.
Arguments Returned {X R} r.
Arguments Raised {X R} x.
Arguments Timeout {X R}.

Record result (E : Type -> Type) (St X R : Type) : Type := Result {
  trace : list (sigT E);
  final : St;
  out : outcome X R;
  left : nat
}.
Arguments Result {E St X R}.
Arguments trace {E St X R}.
Arguments final {E St X R}.
Arguments out {E St X R}.
Arguments left {E St X R}.

Definition occ {E : Type -> Type} {T : Type} (e : E T) : sigT E := existT E T e.

Section Run.
Context {E : Type -> Type} {St X : Type}.

(** The world answers an event with a value, or with an exception that
    leaves the coroutine (nothing in the file catches one). *)
Variable handler : forall T, E T -> St -> St * (X + T).

(** One unit of fuel per event and per silent step. *)
Fixpoint run {R : Type} (fuel : nat) (t : itree E R) (s : St) : result E St X R :=
  match observe t with
  | RetF r => Result [] s (Returned r) fuel
  | TauF t' =>
      match fuel with
      | O => Result [] s Timeout O
      | S f => run f t' s
      end
  | VisF e k =>
      match fuel with
      | O => Result [] s Timeout O
      | S f =>
          let (s', a) := handler _ e s in
          match a with
          | inl x => Result [occ e] s' (Raised x) f
          | inr v =>
              let r := run f (k v) s' in
              Result (occ e :: trace r) (final r) (out r) (left r)
          end
      end
  end.

(** What [run] does after a first part has been run. *)
Definition and_then {R U : Type} (r1 : result E St X R)
    (k : R -> itree E U) : result E St X U :=
  match out r1 with
  | Returned r =>
      let r2 := run (left r1) (k r) (final r1) in
      Result (trace r1 ++ trace r2)%list (final r2) (out r2) (left r2)
  | Raised x => Result (trace r1) (final r1) (Raised x) (left r1)
  | Timeout => Result (trace r1) (final r1) Timeout (left r1)
  end.

End Run.

End Exec.
Import Exec.

(** ** Data of the file *)

(** Handles of the external client library, known by a label. *)
Definition AsyncContract := string.
Definition AsyncWeb3 := string.
Definition ChecksumAddress := string.

(** [str(n)] of an integer inside an f-string. *)
Definition str (n : Z) : string := NilZero.string_of_int (Z.to_int n).

(** A Python value as far as [while not balance] looks at it. *)
Variant pyval : Type :=
| PyNone
| PyBool (b : bool)
| PyInt (n : Z).

Definition truthy (v : pyval) : bool :=
  match v with
  | PyNone => false
  | PyBool b => b
  | PyInt n => negb (n =? 0)
  end.

(** An exception raised by a collaborator, known by the name of its class.
    [answer_main] takes every one for an ordinary exception (a subclass of
    [Exception]); [answer_loop] tells the exits ([SystemExit] and
    [KeyboardInterrupt]) from the others. *)
Variant error : Type :=
| Error (what : string).

(** What can leave [main]. *)
Variant exn : Type :=
| SystemExit (code : Z)
| KeyError (key : string)
| Failure (e : error).

(** [modules.chains]: one object per chain. *)
Module Chain.
Record t : Type := Make {
  name : string;
  w3 : AsyncWeb3;
  layer_zero_chain_id : Z;
  usdc_contract : AsyncContract;
  usdt_contract : AsyncContract;
  stargate_contract : AsyncContract;
  stargate_address : ChecksumAddress;
  explorer : string;
  gas : Z
}.
End Chain.

(** [modules.tokens]: one object per token. *)
Module Token.
Record t : Type := Make {
  name : string;
  stargate_pool_id : Z
}.
End Token.

(** The [transaction_info] dictionary literal of line 84. *)
Module Tx.
Record t : Type := Make {
  chain_id : Z;
  source_pool_id : Z;
  dest_pool_id : Z;
  refund_address : string;
  amount_in : Z;
  amount_out_min : Z;
  lz_tx_obj : Z * Z * string;
  to : string;
  data : string
}.
End Tx.

(** The keyword arguments of the call of [send_token_chain_to_chain]. *)
Module Send.
Record t : Type := Make {
  wallet : string;
  from_chain_w3 : AsyncWeb3;
  transaction_info : Tx.t;
  stargate_from_chain_contract : AsyncContract;
  stargate_from_chain_address : ChecksumAddress;
  token_from_chain_contract : AsyncContract;
  from_chain_name : string;
  token : string;
  amount_to_swap : Z;
  from_chain_explorer : string;
  gas : Z
}.
End Send.

(** The keyword arguments of a call of [chain_to_chain]: the coroutine object
    that [main] appends to [tasks]. *)
Module Args.
Record t : Type := Make {
  wallet : string;
  from_chain_name : string;
  token : string;
  token_from_chain_contract : AsyncContract;
  to_chain_name : string;
  from_chain_w3 : AsyncWeb3;
  destination_chain_id : Z;
  source_pool_id : Z;
  dest_pool_id : Z;
  stargate_from_chain_contract : AsyncContract;
  stargate_from_chain_address : ChecksumAddress;
  from_chain_explorer : string;
  gas : Z
}.
End Args.

Variant level : Type := INFO | SUCCESS.

(** ** Events of a wallet task *)

Variant taskE : Type -> Type :=
| wallet_public_address (wallet : string) : taskE string
| get_correct_amount_and_min_amount (token_contract : AsyncContract)
    (amount_to_swap : Q) : taskE (Z * Z)
| random_randint (a b : Z) : taskE Z
| logger (lvl : level) (msg : string) : taskE unit
| tqdm_enter (total : Z) (desc bar_format : string) : taskE unit
| pbar_update (n : Z) : taskE unit
| tqdm_exit : taskE unit
| asyncio_sleep (delay : Z) : taskE unit
| is_balance_updated (address token : string)
    (token_contract : AsyncContract) : taskE pyval
| get_token_decimals (token_contract : AsyncContract) : taskE Z
| true_divide (amount_to_swap decimals : Z) : taskE string
| send_token_chain_to_chain (call : Send.t) : taskE string.

(** [for x in l: body] *)
Fixpoint for_each {E : Type -> Type} {A : Type} (l : list A)
    (body : A -> itree E unit) : itree E unit :=
  match l with
  | [] => Ret tt
  | x :: l' => body x;; for_each l' body
  end.

(** [range(n)] *)
Definition range (n : Z) : list Z := map Z.of_nat (seq 0 (Z.to_nat n)).

(** The f-strings of the log records. *)
Definition msg_start_delay (address : string) (start_delay : Z) : string :=
  "START DELAY | " ++ address ++ " | Waiting for " ++ str start_delay ++ " seconds.".

Definition msg_waiting (address : string) : string :=
  "Waiting START DELAY | " ++ address.

Definition msg_balance (address from_chain_name token : string) : string :=
  "BALANCE | " ++ address ++ " | Checking " ++ from_chain_name ++ " " ++ token
    ++ " balance".

Definition msg_bridging (c : Args.t) (address shown : string) : string :=
  "BRIDGING | " ++ address ++ " | " ++ "Trying to bridge " ++ shown ++ " "
    ++ Args.token c ++ " from " ++ Args.from_chain_name c ++ " to "
    ++ Args.to_chain_name c.

Definition msg_transaction (c : Args.t) (address hash : string) : string :=
  Args.from_chain_name c ++ " | " ++ address ++ " | Transaction: https://"
    ++ Args.from_chain_explorer c ++ "/tx/" ++ hash.

Definition msg_layerzeroscan (address hash : string) : string :=
  "LAYERZEROSCAN | " ++ address
    ++ " | Transaction: https://layerzeroscan.com/tx/" ++ hash.

(** The arguments of the call of lines 81 to 107: the bridge request. *)
Definition bridge_request (c : Args.t) (address : string)
    (amount_to_swap min_amount : Z) : Send.t :=
  {| Send.wallet := Args.wallet c;
     Send.from_chain_w3 := Args.from_chain_w3 c;
     Send.transaction_info :=
       {| Tx.chain_id := Args.destination_chain_id c;
          Tx.source_pool_id := Args.source_pool_id c;
          Tx.dest_pool_id := Args.dest_pool_id c;
          Tx.refund_address := address;
          Tx.amount_in := amount_to_swap;
          Tx.amount_out_min := min_amount;
          Tx.lz_tx_obj := (0, 0, "0x0000000000000000000000000000000000000001");
          Tx.to := address;
          Tx.data := "0x" |};
     Send.stargate_from_chain_contract := Args.stargate_from_chain_contract c;
     Send.stargate_from_chain_address := Args.stargate_from_chain_address c;
     Send.token_from_chain_contract := Args.token_from_chain_contract c;
     Send.from_chain_name := Args.from_chain_name c;
     Send.token := Args.token c;
     Send.amount_to_swap := amount_to_swap;
     Send.from_chain_explorer := Args.from_chain_explorer c;
     Send.gas := Args.gas c |}.

(** Lines 76 to 111: what follows the loop.  The quotient
    [amount_to_swap / 10 ** decimals] of the log record is a float, computed
    and formatted by the interpreter ([true_divide]). *)
Definition submit (c : Args.t) (address : string) (amount_to_swap min_amount : Z)
    : itree taskE unit :=
  decimals <- ITree.trigger (get_token_decimals (Args.token_from_chain_contract c));;
  shown <- ITree.trigger (true_divide amount_to_swap decimals);;
  ITree.trigger (logger INFO (msg_bridging c address shown));;
  bridging_txn_hash <- ITree.trigger (send_token_chain_to_chain
    (bridge_request c address amount_to_swap min_amount));;
  ITree.trigger (logger SUCCESS (msg_transaction c address bridging_txn_hash));;
  ITree.trigger (logger SUCCESS (msg_layerzeroscan address bridging_txn_hash)).

(** One iteration of [while not balance] (lines 69 to 74): [inr] leaves the
    loop, [inl] carries [balance] and [logger_cntr] to the next test. *)
Definition wait_step (address from_chain_name token : string)
    (token_from_chain_contract : AsyncContract) (st : pyval * Z)
    : itree taskE (pyval * Z + unit) :=
  let '(balance, logger_cntr) := st in
  if negb (truthy balance) then
    ITree.trigger (asyncio_sleep 30);;
    (if logger_cntr mod 3 =? 0
     then ITree.trigger (logger INFO (msg_balance address from_chain_name token))
     else Ret tt);;
    balance <- ITree.trigger
                 (is_balance_updated address token token_from_chain_contract);;
    Ret (inl (balance, logger_cntr + 1))
  else Ret (inr tt).

(** Lines 67 to 111. *)
Definition wait_and_submit (c : Args.t) (address : string)
    (amount_to_swap min_amount : Z) : itree taskE unit :=
  ITree.iter (wait_step address (Args.from_chain_name c) (Args.token c)
                (Args.token_from_chain_contract c)) (PyNone, 0);;
  submit c address amount_to_swap min_amount.

(** Lines 58 to 111. *)
Definition delay_wait_and_submit (c : Args.t) (address : string)
    (amount_to_swap min_amount : Z) : itree taskE unit :=
  start_delay <- ITree.trigger (random_randint 1 200);;
  ITree.trigger (logger INFO (msg_start_delay address start_delay));;
  ITree.trigger (tqdm_enter start_delay (msg_waiting address)
                   "{l_bar}{bar}| {n_fmt}/{total_fmt}");;
  for_each (range start_delay)
    (fun _ => ITree.trigger (asyncio_sleep 1);; ITree.trigger (pbar_update 1));;
  ITree.trigger tqdm_exit;;
  wait_and_submit c address amount_to_swap min_amount.

(** [async def chain_to_chain(...)], lines 20 to 111.  [AMOUNT_TO_SWAP] is the
    constant of [config]. *)
Definition chain_to_chain (AMOUNT_TO_SWAP : Q) (c : Args.t) : itree taskE unit :=
  address <- ITree.trigger (wallet_public_address (Args.wallet c));;
  amounts <- ITree.trigger (get_correct_amount_and_min_amount
                              (Args.token_from_chain_contract c) AMOUNT_TO_SWAP);;
  let '(amount_to_swap, min_amount) := amounts in
  delay_wait_and_submit c address amount_to_swap min_amount.

(** ** The world of a wallet task *)

(** What the collaborators answer to one task.  The only state is how many
    balance queries have been answered. *)
Record world : Type := World {
  w_address : string -> error + string;
  w_amounts : error + Z * Z;
  w_entropy : Z;
  w_balance : nat -> error + pyval;
  w_decimals : error + Z;
  w_divide : Z -> Z -> error + string;
  w_send : Send.t -> error + string
}.

(** [random.randint(a, b)] is [a + randbelow(b - a + 1)], and raises
    [ValueError] on an empty range. *)
Definition randint (entropy a b : Z) : error + Z :=
  if b <? a then inl (Error "ValueError")
  else inr (a + entropy mod (b - a + 1)).

Definition answer (w : world) (T : Type) (e : taskE T) (queries : nat)
    : nat * (error + T) :=
  match e in taskE T return nat * (error + T) with
  | wallet_public_address wallet => (queries, w_address w wallet)
  | get_correct_amount_and_min_amount _ _ => (queries, w_amounts w)
  | random_randint a b => (queries, randint (w_entropy w) a b)
  | logger _ _ => (queries, inr tt)
  | tqdm_enter _ _ _ => (queries, inr tt)
  | pbar_update _ => (queries, inr tt)
  | tqdm_exit => (queries, inr tt)
  | asyncio_sleep _ => (queries, inr tt)
  | is_balance_updated _ _ _ => (S queries, w_balance w queries)
  | get_token_decimals _ => (queries, w_decimals w)
  | true_divide a d => (queries, w_divide w a d)
  | send_token_chain_to_chain call => (queries, w_send w call)
  end.

(** A run of one wallet task on its own. *)
Definition run_task (AMOUNT_TO_SWAP : Q) (w : world) (fuel : nat) (c : Args.t)
    : result taskE nat error unit :=
  run (answer w) fuel (chain_to_chain AMOUNT_TO_SWAP c) O.

(** ** Events of [main] *)

Variant stream : Type := stdout | stderr.

(** [main] prints, logs, raises, and awaits [asyncio.gather]: while it waits
    the event loop picks which task runs next ([resume]), and what a task
    does reaches the world under the task's position in [tasks]
    ([in_task]).  An exception of a task is an answer here, because the
    event loop catches it on the task's behalf. *)
Variant mainE : Type -> Type :=
| print (file : stream) (msg : string) : mainE unit
| raise (x : exn) : mainE void
| main_logger (lvl : level) (msg : string) : mainE unit
| resume (n : nat) : mainE nat
| in_task (i : nat) {T : Type} (e : taskE T) : mainE (error + T).

(** *** argparse *)

(** [args = parser.parse_args()] for the parser of lines 115 to 139, which
    has the single option [--mode] with [type=str], [choices] and no
    default.  The command line is taken as the value given to [--mode], if
    any.  A value outside [choices] makes argparse write its usage and
    error message (shortened here) to standard error and call
    [sys.exit(2)]. *)
Record Namespace : Type := { mode : option string }.

Definition parse_args (choices : list string) (given : option string)
    : itree mainE Namespace :=
  match given with
  | None => Ret {| mode := None |}
  | Some value =>
      if existsb (String.eqb value) choices
      then Ret {| mode := Some value |}
      else
        ITree.trigger (print stderr
          ("error: argument --mode: invalid choice: " ++ value));;
        v <- ITree.trigger (raise (SystemExit 2));;
        match v : void with end
  end.

(** *** asyncio.gather *)

(** A task given to [gather] is still running, or has ended with a result
    or with an exception. *)
Variant slot : Type :=
| Pending (t : itree taskE unit)
| Finished (r : error + unit).

Fixpoint results (pool : list slot) : option (list (error + unit)) :=
  match pool with
  | [] => Some []
  | Pending _ :: _ => None
  | Finished r :: pool' =>
      match results pool' with
      | Some rs => Some (r :: rs)
      | None => None
      end
  end.

Fixpoint update {A : Type} (l : list A) (i : nat) (x : A) : list A :=
  match l, i with
  | [], _ => []
  | _ :: l', O => x :: l'
  | y :: l', S i' => y :: update l' i' x
  end.

(** One turn of the event loop while [gather] waits: when every task has
    ended the results are returned in the order of the tasks, exceptions
    among them ([return_exceptions=True]); otherwise the loop resumes one
    task, which makes one step.  Resuming a task that has ended does
    nothing.  A task is resumed one event at a time, which allows every
    interleaving of the event loop and more. *)
Definition gather_step (pool : list slot)
    : itree mainE (list slot + list (error + unit)) :=
  match results pool with
  | Some rs => Ret (inr rs)
  | None =>
      i <- ITree.trigger (resume (List.length pool));;
      match nth_error pool i with
      | Some (Pending t) =>
          match observe t with
          | RetF r => Ret (inl (update pool i (Finished (inr r))))
          | TauF t' => Ret (inl (update pool i (Pending t')))
          | VisF e k =>
              a <- ITree.trigger (in_task i e);;
              match a with
              | inl err => Ret (inl (update pool i (Finished (inl err))))
              | inr v => Ret (inl (update pool i (Pending (k v))))
              end
          end
      | _ => Ret (inl pool)
      end
  end.

(** [await asyncio.gather] of the tasks with [return_exceptions=True]. *)
Definition gather (tasks : list (itree taskE unit))
    : itree mainE (list (error + unit)) :=
  ITree.iter gather_step (map Pending tasks).

(** ** [main] *)

(** The dictionary literal of lines 119 to 132, in source order. *)
Definition mode_mapping : list (string * string) :=
  [ ("pf", "polygon-fantom");
    ("pa", "polygon-avalanche");
    ("pb", "polygon-bsc");
    ("fp", "fantom-polygon");
    ("fa", "fantom-avalanche");
    ("fb", "fantom-bsc");
    ("ap", "avalanche-polygon");
    ("af", "avalanche-fantom");
    ("ab", "avalanche-bsc");
    ("bp", "bsc-polygon");
    ("bf", "bsc-fantom");
    ("ba", "bsc-avalanche") ].

(** [d.keys()] and [d[key]]. *)
Definition keys {A B : Type} (d : list (A * B)) : list A := map fst d.

Fixpoint getitem {B : Type} (d : list (string * B)) (key : string) : option B :=
  match d with
  | [] => None
  | (k, v) :: d' => if (k =? key)%string then Some v else getitem d' key
  end.

Variant chain : Type := Polygon | Avalanche | Bsc | Fantom.

Section Main.

(** The objects of [modules.chains], [modules.tokens] and [config]. *)
Variables polygon avalanche bsc fantom : Chain.t.
Variables usdc usdt : Token.t.
Variable PRIVATE_KEYS : list string.
Variable AMOUNT_TO_SWAP : Q.

(** The [match mode:] statement of lines 150 to 367 for one wallet: the
    coroutine object of the matching case is appended to [tasks]; there is
    no default case. *)
Definition append_task (mode : string) (wallet : string)
    (tasks : list Args.t) : list Args.t :=
  if (mode =? "polygon-fantom")%string then
    (tasks ++ [
      {| Args.wallet := wallet;
         Args.from_chain_name := Chain.name polygon;
         Args.token := Token.name usdc;
         Args.token_from_chain_contract := Chain.usdc_contract polygon;
         Args.to_chain_name := Chain.name fantom;
         Args.from_chain_w3 := Chain.w3 polygon;
         Args.destination_chain_id := Chain.layer_zero_chain_id fantom;
         Args.source_pool_id := Token.stargate_pool_id usdc;
         Args.dest_pool_id := Token.stargate_pool_id usdc;
         Args.stargate_from_chain_contract := Chain.stargate_contract polygon;
         Args.stargate_from_chain_address := Chain.stargate_address polygon;
         Args.from_chain_explorer := Chain.explorer polygon;
         Args.gas := Chain.gas polygon |}])%list
  else if (mode =? "polygon-avalanche")%string then
    (tasks ++ [
      {| Args.wallet := wallet;
         Args.from_chain_name := Chain.name polygon;
         Args.token := Token.name usdc;
         Args.token_from_chain_contract := Chain.usdc_contract polygon;
         Args.to_chain_name := Chain.name avalanche;
         Args.from_chain_w3 := Chain.w3 polygon;
         Args.destination_chain_id := Chain.layer_zero_chain_id avalanche;
         Args.source_pool_id := Token.stargate_pool_id usdc;
         Args.dest_pool_id := Token.stargate_pool_id usdc;
         Args.stargate_from_chain_contract := Chain.stargate_contract polygon;
         Args.stargate_from_chain_address := Chain.stargate_address polygon;
         Args.from_chain_explorer := Chain.explorer polygon;
         Args.gas := Chain.gas polygon |}])%list
  else if (mode =? "polygon-bsc")%string then
    (tasks ++ [
      {| Args.wallet := wallet;
         Args.from_chain_name := Chain.name polygon;
         Args.token := Token.name usdc;
         Args.token_from_chain_contract := Chain.usdc_contract polygon;
         Args.to_chain_name := Chain.name bsc;
         Args.from_chain_w3 := Chain.w3 polygon;
         Args.destination_chain_id := Chain.layer_zero_chain_id bsc;
         Args.source_pool_id := Token.stargate_pool_id usdc;
         Args.dest_pool_id := Token.stargate_pool_id usdt;
         Args.stargate_from_chain_contract := Chain.stargate_contract polygon;
         Args.stargate_from_chain_address := Chain.stargate_address polygon;
         Args.from_chain_explorer := Chain.explorer polygon;
         Args.gas := Chain.gas polygon |}])%list
  else if (mode =? "fantom-polygon")%string then
    (tasks ++ [
      {| Args.wallet := wallet;
         Args.from_chain_name := Chain.name fantom;
         Args.token := Token.name usdc;
         Args.token_from_chain_contract := Chain.usdc_contract fantom;
         Args.to_chain_name := Chain.name polygon;
         Args.from_chain_w3 := Chain.w3 fantom;
         Args.destination_chain_id := Chain.layer_zero_chain_id polygon;
         Args.source_pool_id := Token.stargate_pool_id usdc;
         Args.dest_pool_id := Token.stargate_pool_id usdc;
         Args.stargate_from_chain_contract := Chain.stargate_contract fantom;
         Args.stargate_from_chain_address := Chain.stargate_address fantom;
         Args.from_chain_explorer := Chain.explorer fantom;
         Args.gas := Chain.gas fantom |}])%list
  else if (mode =? "fantom-avalanche")%string then
    (tasks ++ [
      {| Args.wallet := wallet;
         Args.from_chain_name := Chain.name fantom;
         Args.token := Token.name usdc;
         Args.token_from_chain_contract := Chain.usdc_contract fantom;
         Args.to_chain_name := Chain.name avalanche;
         Args.from_chain_w3 := Chain.w3 fantom;
         Args.destination_chain_id := Chain.layer_zero_chain_id avalanche;
         Args.source_pool_id := Token.stargate_pool_id usdc;
         Args.dest_pool_id := Token.stargate_pool_id usdc;
         Args.stargate_from_chain_contract := Chain.stargate_contract fantom;
         Args.stargate_from_chain_address := Chain.stargate_address fantom;
         Args.from_chain_explorer := Chain.explorer fantom;
         Args.gas := Chain.gas fantom |}])%list
  else if (mode =? "fantom-bsc")%string then
    (tasks ++ [
      {| Args.wallet := wallet;
         Args.from_chain_name := Chain.name fantom;
         Args.token := Token.name usdc;
         Args.token_from_chain_contract := Chain.usdc_contract fantom;
         Args.to_chain_name := Chain.name bsc;
         Args.from_chain_w3 := Chain.w3 fantom;
         Args.destination_chain_id := Chain.layer_zero_chain_id bsc;
         Args.source_pool_id := Token.stargate_pool_id usdc;
         Args.dest_pool_id := Token.stargate_pool_id usdt;
         Args.stargate_from_chain_contract := Chain.stargate_contract fantom;
         Args.stargate_from_chain_address := Chain.stargate_address fantom;
         Args.from_chain_explorer := Chain.explorer fantom;
         Args.gas := Chain.gas fantom |}])%list
  else if (mode =? "avalanche-polygon")%string then
    (tasks ++ [
      {| Args.wallet := wallet;
         Args.from_chain_name := Chain.name avalanche;
         Args.token := Token.name usdc;
         Args.token_from_chain_contract := Chain.usdc_contract avalanche;
         Args.to_chain_name := Chain.name polygon;
         Args.from_chain_w3 := Chain.w3 avalanche;
         Args.destination_chain_id := Chain.layer_zero_chain_id polygon;
         Args.source_pool_id := Token.stargate_pool_id usdc;
         Args.dest_pool_id := Token.stargate_pool_id usdc;
         Args.stargate_from_chain_contract := Chain.stargate_contract avalanche;
         Args.stargate_from_chain_address := Chain.stargate_address avalanche;
         Args.from_chain_explorer := Chain.explorer avalanche;
         Args.gas := Chain.gas avalanche |}])%list
  else if (mode =? "avalanche-fantom")%string then
    (tasks ++ [
      {| Args.wallet := wallet;
         Args.from_chain_name := Chain.name avalanche;
         Args.token := Token.name usdc;
         Args.token_from_chain_contract := Chain.usdc_contract avalanche;
         Args.to_chain_name := Chain.name fantom;
         Args.from_chain_w3 := Chain.w3 avalanche;
         Args.destination_chain_id := Chain.layer_zero_chain_id fantom;
         Args.source_pool_id := Token.stargate_pool_id usdc;
         Args.dest_pool_id := Token.stargate_pool_id usdc;
         Args.stargate_from_chain_contract := Chain.stargate_contract avalanche;
         Args.stargate_from_chain_address := Chain.stargate_address avalanche;
         Args.from_chain_explorer := Chain.explorer avalanche;
         Args.gas := Chain.gas avalanche |}])%list
  else if (mode =? "avalanche-bsc")%string then
    (tasks ++ [
      {| Args.wallet := wallet;
         Args.from_chain_name := Chain.name avalanche;
         Args.token := Token.name usdc;
         Args.token_from_chain_contract := Chain.usdc_contract avalanche;
         Args.to_chain_name := Chain.name bsc;
         Args.from_chain_w3 := Chain.w3 avalanche;
         Args.destination_chain_id := Chain.layer_zero_chain_id bsc;
         Args.source_pool_id := Token.stargate_pool_id usdc;
         Args.dest_pool_id := Token.stargate_pool_id usdt;
         Args.stargate_from_chain_contract := Chain.stargate_contract avalanche;
         Args.stargate_from_chain_address := Chain.stargate_address avalanche;
         Args.from_chain_explorer := Chain.explorer avalanche;
         Args.gas := Chain.gas avalanche |}])%list
  else if (mode =? "bsc-polygon")%string then
    (tasks ++ [
      {| Args.wallet := wallet;
         Args.from_chain_name := Chain.name bsc;
         Args.token := Token.name usdt;
         Args.token_from_chain_contract := Chain.usdt_contract bsc;
         Args.to_chain_name := Chain.name polygon;
         Args.from_chain_w3 := Chain.w3 bsc;
         Args.destination_chain_id := Chain.layer_zero_chain_id polygon;
         Args.source_pool_id := Token.stargate_pool_id usdt;
         Args.dest_pool_id := Token.stargate_pool_id usdc;
         Args.stargate_from_chain_contract := Chain.stargate_contract bsc;
         Args.stargate_from_chain_address := Chain.stargate_address bsc;
         Args.from_chain_explorer := Chain.explorer bsc;
         Args.gas := Chain.gas bsc |}])%list
  else if (mode =? "bsc-fantom")%string then
    (tasks ++ [
      {| Args.wallet := wallet;
         Args.from_chain_name := Chain.name bsc;
         Args.token := Token.name usdt;
         Args.token_from_chain_contract := Chain.usdt_contract bsc;
         Args.to_chain_name := Chain.name fantom;
         Args.from_chain_w3 := Chain.w3 bsc;
         Args.destination_chain_id := Chain.layer_zero_chain_id fantom;
         Args.source_pool_id := Token.stargate_pool_id usdt;
         Args.dest_pool_id := Token.stargate_pool_id usdc;
         Args.stargate_from_chain_contract := Chain.stargate_contract bsc;
         Args.stargate_from_chain_address := Chain.stargate_address bsc;
         Args.from_chain_explorer := Chain.explorer bsc;
         Args.gas := Chain.gas bsc |}])%list
  else if (mode =? "bsc-avalanche")%string then
    (tasks ++ [
      {| Args.wallet := wallet;
         Args.from_chain_name := Chain.name bsc;
         Args.token := Token.name usdt;
         Args.token_from_chain_contract := Chain.usdt_contract bsc;
         Args.to_chain_name := Chain.name avalanche;
         Args.from_chain_w3 := Chain.w3 bsc;
         Args.destination_chain_id := Chain.layer_zero_chain_id avalanche;
         Args.source_pool_id := Token.stargate_pool_id usdt;
         Args.dest_pool_id := Token.stargate_pool_id usdc;
         Args.stargate_from_chain_contract := Chain.stargate_contract bsc;
         Args.stargate_from_chain_address := Chain.stargate_address bsc;
         Args.from_chain_explorer := Chain.explorer bsc;
         Args.gas := Chain.gas bsc |}])%list
  else tasks.

(** Lines 148 to 367. *)
Definition build_tasks (mode : string) : list Args.t :=
  fold_left (fun tasks wallet => append_task mode wallet tasks) PRIVATE_KEYS [].

(** [async def main()], lines 114 to 372. *)
Definition main (given : option string) : itree mainE unit :=
  args <- parse_args (keys mode_mapping) given;;
  match mode args with
  | None =>
      ITree.trigger (print stdout "Error: the --mode argument is required");;
      v <- ITree.trigger (raise (SystemExit 2));;
      match v : void with end
  | Some key =>
      match getitem mode_mapping key with
      | None =>
          v <- ITree.trigger (raise (KeyError key));;
          match v : void with end
      | Some mode =>
          let tasks := build_tasks mode in
          ITree.trigger (main_logger INFO ("Bridging " ++ mode ++ "."));;
          gather (map (chain_to_chain AMOUNT_TO_SWAP) tasks);;
          ITree.trigger (main_logger SUCCESS "*** FINISHED ***")
      end
  end.

(** The four chains, and the route the specification describes between
    two of them: every field of the source end is read from the source
    chain, the destination name and LayerZero identifier from the
    destination chain, and the token of an end is USDT on BSC and USDC
    elsewhere, its pool identifier being that token's. *)
Definition profile (i : chain) : Chain.t :=
  match i with
  | Polygon => polygon
  | Avalanche => avalanche
  | Bsc => bsc
  | Fantom => fantom
  end.

Definition token_on (i : chain) : Token.t :=
  match i with
  | Bsc => usdt
  | _ => usdc
  end.

Definition token_contract_on (i : chain) : AsyncContract :=
  match i with
  | Bsc => Chain.usdt_contract (profile i)
  | _ => Chain.usdc_contract (profile i)
  end.

(** The name of a mode: the two chains, lower case, with a dash. *)
Definition label (i : chain) : string :=
  match i with
  | Polygon => "polygon"
  | Avalanche => "avalanche"
  | Bsc => "bsc"
  | Fantom => "fantom"
  end.

Definition mode_name (src dst : chain) : string :=
  label src ++ "-" ++ label dst.

Definition route (src dst : chain) (wallet : string) : Args.t :=
  {| Args.wallet := wallet;
     Args.from_chain_name := Chain.name (profile src);
     Args.token := Token.name (token_on src);
     Args.token_from_chain_contract := token_contract_on src;
     Args.to_chain_name := Chain.name (profile dst);
     Args.from_chain_w3 := Chain.w3 (profile src);
     Args.destination_chain_id := Chain.layer_zero_chain_id (profile dst);
     Args.source_pool_id := Token.stargate_pool_id (token_on src);
     Args.dest_pool_id := Token.stargate_pool_id (token_on dst);
     Args.stargate_from_chain_contract := Chain.stargate_contract (profile src);
     Args.stargate_from_chain_address := Chain.stargate_address (profile src);
     Args.from_chain_explorer := Chain.explorer (profile src);
     Args.gas := Chain.gas (profile src) |}.

End Main.

(** ** The world of [main] *)

(** The event loop's choices and one world per task. *)
Record main_world : Type := MainWorld {
  w_resume : nat -> nat;
  w_task : nat -> world
}.

(** How many choices the event loop has made, and each task's state. *)
Record main_state : Type := MainState {
  turns : nat;
  queries : nat -> nat
}.

Definition initial : main_state := MainState O (fun _ => O).

Definition set_queries (s : main_state) (i q : nat) : main_state :=
  MainState (turns s) (fun j => if Nat.eqb j i then q else queries s j).

(** The world of [main] when the exceptions of its tasks are ordinary ones:
    the event loop keeps each of them for [gather]. *)
Definition answer_main (mw : main_world) (T : Type) (e : mainE T)
    (s : main_state) : main_state * (exn + T) :=
  match e in mainE T return main_state * (exn + T) with
  | print _ _ => (s, inr tt)
  | raise x => (s, inl x)
  | main_logger _ _ => (s, inr tt)
  | resume _ => (MainState (S (turns s)) (queries s), inr (w_resume mw (turns s)))
  | in_task i e =>
      let (q, a) := answer (w_task mw i) _ e (queries s i) in
      (set_queries s i q, inr a)
  end.


(** A run of [main] from its first line. *)
Definition run_main (polygon avalanche bsc fantom : Chain.t) (usdc usdt : Token.t)
    (PRIVATE_KEYS : list string) (AMOUNT_TO_SWAP : Q) (mw : main_world)
    (fuel : nat) (given : option string) : result mainE main_state exn unit :=
  run (answer_main mw) fuel
    (main polygon avalanche bsc fantom usdc usdt PRIVATE_KEYS AMOUNT_TO_SWAP given)
    initial.

(** ** Reading a trace *)

Definition prefix {A : Type} (l full : list A) : Prop :=
  exists rest, full = (l ++ rest)%list.

Definition count {A : Type} (p : A -> bool) (l : list A) : nat :=
  List.length (filter p l).

(** The request of a submission, the delay of a sleep. *)
Definition sent (x : sigT taskE) : option Send.t :=
  match x with
  | existT _ _ (send_token_chain_to_chain call) => Some call
  | _ => None
  end.

Definition slept (x : sigT taskE) : option Z :=
  match x with
  | existT _ _ (asyncio_sleep delay) => Some delay
  | _ => None
  end.

Definition is_send (x : sigT taskE) : bool :=
  match sent x with Some _ => true | None => false end.

Definition is_sleep (delay : Z) (x : sigT taskE) : bool :=
  match slept x with Some d => d =? delay | None => false end.

Definition is_query (x : sigT taskE) : bool :=
  match x with
  | existT _ _ (is_balance_updated _ _ _) => true
  | _ => false
  end.

Definition is_tqdm_exit (x : sigT taskE) : bool :=
  match x with
  | existT _ _ tqdm_exit => true
  | _ => false
  end.

(** A query is guarded in a trace when the sleep of 30 of its iteration
    comes right before it, or right before the balance record that
    precedes it. *)
Definition guarded (pre : list (sigT taskE)) : Prop :=
  exists before,
    pre = (before ++ [occ (asyncio_sleep 30)])%list \/
    exists msg,
      pre = (before ++ [occ (asyncio_sleep 30); occ (logger INFO msg)])%list.

(** The sum of the delays slept in a trace. *)
Definition total_sleep (l : list (sigT taskE)) : Z :=
  fold_right (fun x acc => match slept x with Some d => d + acc | None => acc end) 0 l.

(** [random.randint(a, b)] draws [randbelow(b - a + 1)], one of the integers
    from 0 to [b - a], each as likely as the others ([range] lists them):
    the number of these outcomes for which [randint] answers [d]. *)
Definition chances (a b d : Z) : nat :=
  count (fun r => match randint r a b with
                  | inr x => x =? d
                  | inl _ => false
                  end)
    (range (b - a + 1)).

(** The steps of a wallet task that the overview of the specification
    orders: (a) the startup sleeps, (b) the balance polls, (c) the
    computation of the amounts, (d) the submission, (e) the two success
    records. *)
Variant step : Type := StepDelay | StepPoll | StepAmounts | StepSubmit | StepReport.

Definition step_of (x : sigT taskE) : option step :=
  match x with
  | existT _ _ (asyncio_sleep delay) =>
      if delay =? 30 then Some StepPoll else Some StepDelay
  | existT _ _ (is_balance_updated _ _ _) => Some StepPoll
  | existT _ _ (get_correct_amount_and_min_amount _ _) => Some StepAmounts
  | existT _ _ (send_token_chain_to_chain _) => Some StepSubmit
  | existT _ _ (logger SUCCESS _) => Some StepReport
  | _ => None
  end.

Fixpoint steps_of (l : list (sigT taskE)) : list step :=
  match l with
  | [] => []
  | x :: l' =>
      match step_of x with
      | Some p => p :: steps_of l'
      | None => steps_of l'
      end
  end.

(** A success record of lines 108 to 111. *)
Definition is_report (x : sigT taskE) : bool :=
  match step_of x with
  | Some StepReport => true
  | _ => false
  end.

(** The position of a step in the order the specification's overview gives,
    (a) (b) (c) (d) (e), and in the order of the source lines. *)
Definition stated_rank (p : step) : nat :=
  match p with
  | StepDelay => 0 | StepPoll => 1 | StepAmounts => 2 | StepSubmit => 3
  | StepReport => 4
  end.

Definition source_rank (p : step) : nat :=
  match p with
  | StepAmounts => 0 | StepDelay => 1 | StepPoll => 2 | StepSubmit => 3
  | StepReport => 4
  end.

Fixpoint ascending (rank : step -> nat) (l : list step) : bool :=
  match l with
  | [] => true
  | p :: l' =>
      match l' with
      | [] => true
      | p' :: _ => (rank p <=? rank p')%nat && ascending rank l'
      end
  end.

(** What task [i] does inside a trace of [main]. *)
Definition of_task (i : nat) (x : sigT mainE) : list (sigT taskE) :=
  match x with
  | existT _ _ (in_task j e) => if Nat.eqb j i then [occ e] else []
  | _ => []
  end.

Definition project (i : nat) (l : list (sigT mainE)) : list (sigT taskE) :=
  flat_map (of_task i) l.

Definition is_in_task (x : sigT mainE) : bool :=
  match x with
  | existT _ _ (in_task _ _) => true
  | _ => false
  end.

Definition printed (x : sigT mainE) : option (stream * string) :=
  match x with
  | existT _ _ (print file msg) => Some (file, msg)
  | _ => None
  end.

Definition is_print_to (file : stream) (x : sigT mainE) : bool :=
  match printed x with
  | Some (stdout, _) => match file with stdout => true | stderr => false end
  | Some (stderr, _) => match file with stdout => false | stderr => true end
  | None => false
  end.

Definition is_resume (x : sigT mainE) : bool :=
  match x with
  | existT _ _ (resume _) => true
  | _ => false
  end.

Definition is_finished_record (x : sigT mainE) : bool :=
  match x with
  | existT _ _ (main_logger SUCCESS msg) => (msg =? "*** FINISHED ***")%string
  | _ => false
  end.

(** ** The events a wallet task is due to perform in a given world *)

Section Due.

Variable AMOUNT_TO_SWAP : Q.
Variable w : world.
Variable c : Args.t.

Definition submit_events (address : string) (amount_to_swap min_amount : Z)
    : list (sigT taskE) :=
  occ (get_token_decimals (Args.token_from_chain_contract c)) ::
  match w_decimals w with
  | inl _ => []
  | inr decimals =>
      occ (true_divide amount_to_swap decimals) ::
      match w_divide w amount_to_swap decimals with
      | inl _ => []
      | inr shown =>
          occ (logger INFO (msg_bridging c address shown)) ::
          occ (send_token_chain_to_chain
                 (bridge_request c address amount_to_swap min_amount)) ::
          match w_send w (bridge_request c address amount_to_swap min_amount) with
          | inl _ => []
          | inr hash =>
              [ occ (logger SUCCESS (msg_transaction c address hash));
                occ (logger SUCCESS (msg_layerzeroscan address hash)) ]
          end
      end
  end.

(** One poll: the sleep, the record every third time, the query. *)
Definition poll_events (address : string) (q : nat) : list (sigT taskE) :=
  (occ (asyncio_sleep 30) ::
   (if Z.of_nat q mod 3 =? 0
    then [occ (logger INFO
                 (msg_balance address (Args.from_chain_name c) (Args.token c)))]
    else []) ++
   [occ (is_balance_updated address (Args.token c)
           (Args.token_from_chain_contract c))])%list.

(** At most [k] polls from the [q]-th on, and what follows the loop. *)
Fixpoint wait_events (address : string) (amount_to_swap min_amount : Z)
    (k q : nat) : list (sigT taskE) :=
  match k with
  | O => []
  | S k' =>
      (poll_events address q ++
       match w_balance w q with
       | inl _ => []
       | inr v =>
           if truthy v then submit_events address amount_to_swap min_amount
           else wait_events address amount_to_swap min_amount k' (S q)
       end)%list
  end.

Definition start_delay_of : Z := 1 + w_entropy w mod 200.

Definition delay_events (address : string) : list (sigT taskE) :=
  (occ (random_randint 1 200) ::
   occ (logger INFO (msg_start_delay address start_delay_of)) ::
   occ (tqdm_enter start_delay_of (msg_waiting address)
          "{l_bar}{bar}| {n_fmt}/{total_fmt}") ::
   flat_map (fun _ : Z => [occ (asyncio_sleep 1); occ (pbar_update 1)])
     (range start_delay_of) ++
   [occ tqdm_exit])%list.

Definition task_events (k : nat) : list (sigT taskE) :=
  occ (wallet_public_address (Args.wallet c)) ::
  match w_address w (Args.wallet c) with
  | inl _ => []
  | inr address =>
      occ (get_correct_amount_and_min_amount
             (Args.token_from_chain_contract c) AMOUNT_TO_SWAP) ::
      match w_amounts w with
      | inl _ => []
      | inr (amount_to_swap, min_amount) =>
          (delay_events address ++
           wait_events address amount_to_swap min_amount k O)%list
      end
  end.

(** The head of a task: the two calls before the startup delay, and the
    delay. *)
Definition head_events (address : string) : list (sigT taskE) :=
  (occ (wallet_public_address (Args.wallet c)) ::
   occ (get_correct_amount_and_min_amount (Args.token_from_chain_contract c)
          AMOUNT_TO_SWAP) ::
   delay_events address)%list.

(** The first [n] polls from the [q]-th on. *)
Definition polls (address : string) (q n : nat) : list (sigT taskE) :=
  List.concat (map (poll_events address) (seq q n)).

(** The loop of lines 69 to 74 entered with a given [balance] and
    [logger_cntr], and what follows it. *)
Definition waiting (address : string) (amount_to_swap min_amount : Z)
    (balance : pyval) (logger_cntr : Z) : itree taskE unit :=
  ITree.bind
    (ITree.iter (wait_step address (Args.from_chain_name c) (Args.token c)
                   (Args.token_from_chain_contract c)) (balance, logger_cntr))
    (fun _ => submit c address amount_to_swap min_amount).

(** The query of index [q + n] is the first that does not return a falsy
    value. *)
Definition stops_at (q n : nat) : Prop :=
  (forall i, (i < n)%nat ->
     exists v, w_balance w (q + i) = inr v /\ truthy v = false) /\
  (forall v, w_balance w (q + n) = inr v -> truthy v = true).

End Due.

(** A run follows a list of due events when it has performed a prefix of
    it, and all of it once it has ended. *)
Definition follows {E : Type -> Type} {St X R : Type}
    (r : result E St X R) (due : list (sigT E)) : Prop :=
  match out r with
  | Timeout => prefix (trace r) due
  | _ => trace r = due
  end.

(** ** The routes *)

Section Resolves.

Variables polygon avalanche bsc fantom : Chain.t.
Variables usdc usdt : Token.t.
Variable PRIVATE_KEYS : list string.

(** A mode code resolves to the route between the two different chains
    that its mode names. *)
Definition resolves (key : string) : Prop :=
  exists mode src dst,
    getitem mode_mapping key = Some mode /\
    mode = mode_name src dst /\
    src <> dst /\
    (forall wallet tasks,
       append_task polygon avalanche bsc fantom usdc usdt mode wallet tasks
       = (tasks ++ [route polygon avalanche bsc fantom usdc usdt src dst wallet])%list) /\
    build_tasks polygon avalanche bsc fantom usdc usdt PRIVATE_KEYS mode
    = map (route polygon avalanche bsc fantom usdc usdt src dst) PRIVATE_KEYS.

End Resolves.

(** ** The event loop, one turn at a time *)

(** The events of one turn of the event loop on a pool in which some task
    is still running, and the pool and state it leaves. *)
Definition turn (mw : main_world) (pool : list slot) (s : main_state)
    : list (sigT mainE) * list slot * main_state :=
  let i := w_resume mw (turns s) in
  let s1 := MainState (S (turns s)) (queries s) in
  match nth_error pool i with
  | Some (Pending t) =>
      match observe t with
      | RetF r =>
          ([occ (resume (List.length pool))], update pool i (Finished (inr r)), s1)
      | TauF t' =>
          ([occ (resume (List.length pool))], update pool i (Pending t'), s1)
      | VisF e k =>
          let (q, a) := answer (w_task mw i) _ e (queries s i) in
          ([occ (resume (List.length pool)); occ (in_task i e)],
           update pool i
             match a with
             | inl err => Finished (inl err)
             | inr v => Pending (k v)
             end,
           set_queries s1 i q)
      end
  | _ => ([occ (resume (List.length pool))], pool, s1)
  end.

(** A run that starts with given events. *)
Definition after {E : Type -> Type} {St X R : Type} (events : list (sigT E))
    (r : result E St X R) : result E St X R :=
  Result (events ++ trace r)%list (final r) (out r) (left r).

(** What follows [gather] in [main]. *)
Definition finish (_ : list (error + unit)) : itree mainE unit :=
  ITree.trigger (main_logger SUCCESS "*** FINISHED ***").

(** [gather] on a pool, and what follows it. *)
Definition gathering (pool : list slot) : itree mainE unit :=
  ITree.bind (ITree.iter gather_step pool) finish.

(** The run of the task of a slot on its own, from where the slot stands. *)
Definition slot_run (mw : main_world) (g : nat) (sl : option slot) (i : nat)
    (s : main_state) : option (result taskE nat error unit) :=
  match sl with
  | Some (Pending t) => Some (run (answer (w_task mw i)) g t (queries s i))
  | _ => None
  end.

Definition slot_trace (mw : main_world) (g : nat) (sl : option slot) (i : nat)
    (s : main_state) : list (sigT taskE) :=
  match slot_run mw g sl i s with
  | Some r => trace r
  | None => []
  end.

Definition slot_ended (mw : main_world) (g : nat) (sl : option slot) (i : nat)
    (s : main_state) : Prop :=
  match slot_run mw g sl i s with
  | Some r => out r <> Timeout
  | None => True
  end.





(** The pool that [main] hands to [gather]. *)
Definition pool_of (AMOUNT_TO_SWAP : Q) (tasks : list Args.t) : list slot :=
  map Pending (map (chain_to_chain AMOUNT_TO_SWAP) tasks).

(** ** A sample configuration *)

Module Sample.

Definition polygon : Chain.t :=
  Chain.Make "Polygon" "w3-polygon" 109 "usdc@polygon" "usdt@polygon"
    "router@polygon" "0xRouterPolygon" "polygonscan.com" 500000.
Definition avalanche : Chain.t :=
  Chain.Make "Avalanche" "w3-avalanche" 106 "usdc@avalanche" "usdt@avalanche"
    "router@avalanche" "0xRouterAvalanche" "snowtrace.io" 500000.
Definition bsc : Chain.t :=
  Chain.Make "BSC" "w3-bsc" 102 "usdc@bsc" "usdt@bsc"
    "router@bsc" "0xRouterBsc" "bscscan.com" 500000.
Definition fantom : Chain.t :=
  Chain.Make "Fantom" "w3-fantom" 112 "usdc@fantom" "usdt@fantom"
    "router@fantom" "0xRouterFantom" "ftmscan.com" 800000.
Definition usdc : Token.t := Token.Make "USDC" 1.
Definition usdt : Token.t := Token.Make "USDT" 2.
Definition AMOUNT_TO_SWAP : Q := 10%Q.

(** The arguments of the polygon to fantom task of one wallet. *)
Definition args : Args.t :=
  Args.Make "key1" (Chain.name polygon) (Token.name usdc)
    (Chain.usdc_contract polygon) (Chain.name fantom) (Chain.w3 polygon)
    (Chain.layer_zero_chain_id fantom) (Token.stargate_pool_id usdc)
    (Token.stargate_pool_id usdc) (Chain.stargate_contract polygon)
    (Chain.stargate_address polygon) (Chain.explorer polygon)
    (Chain.gas polygon).

(** A world in which every collaborator returns and the balance is seen
    on the query of index [ready]. *)
Definition funded_at (ready : nat) : world :=
  World (fun wallet => inr ("0x" ++ wallet)) (inr (10000000, 9950000)) 2
    (fun n => inr (PyBool (ready <=? n)%nat)) (inr 6)
    (fun _ _ => inr "10.0") (fun _ => inr "0xhash").

(** A world in which the balance is never seen. *)
Definition never_funded : world :=
  World (fun wallet => inr ("0x" ++ wallet)) (inr (10000000, 9950000)) 2
    (fun _ => inr (PyInt 0)) (inr 6)
    (fun _ _ => inr "10.0") (fun _ => inr "0xhash").

(** A world in which the submission raises. *)
Definition failing_send : world :=
  World (fun wallet => inr ("0x" ++ wallet)) (inr (10000000, 9950000)) 0
    (fun _ => inr (PyBool true)) (inr 6)
    (fun _ _ => inr "10.0") (fun _ => inl (Error "revert")).

(** Three wallets, the second of which fails; the event loop resumes the
    tasks in turn. *)
Definition PRIVATE_KEYS : list string := ["key1"; "key2"; "key3"].

Definition three : main_world :=
  MainWorld (fun n => Nat.modulo n 3)
    (fun i => if Nat.eqb i 1 then failing_send else funded_at 0).

Definition run_main := run_main polygon avalanche bsc fantom usdc usdt
  PRIVATE_KEYS AMOUNT_TO_SWAP.

Definition tasks (name : string) : list Args.t :=
  build_tasks polygon avalanche bsc fantom usdc usdt PRIVATE_KEYS name.

End Sample.

(** ** Further readings of a trace *)

Definition is_decimals (x : sigT taskE) : bool :=
  match x with
  | existT _ _ (get_token_decimals _) => true
  | _ => false
  end.

(** The arguments of a balance query. *)
Definition queried (x : sigT taskE) : option (string * string * AsyncContract) :=
  match x with
  | existT _ _ (is_balance_updated address token token_contract) =>
      Some (address, token, token_contract)
  | _ => None
  end.

(** The token contract that a call of a helper of [modules.utils] or
    [modules.bridger] is given by keyword. *)
Definition contract_of (x : sigT taskE) : option AsyncContract :=
  match x with
  | existT _ _ (get_correct_amount_and_min_amount token_contract _) =>
      Some token_contract
  | existT _ _ (is_balance_updated _ _ token_contract) => Some token_contract
  | existT _ _ (get_token_decimals token_contract) => Some token_contract
  | existT _ _ (send_token_chain_to_chain call) =>
      Some (Send.token_from_chain_contract call)
  | _ => None
  end.

(** What a call of a helper is about: the address of the wallet of the task
    and the token contract of its source chain. *)
Definition about (w : world) (c : Args.t) (x : sigT taskE) : Prop :=
  (forall address token token_contract,
     queried x = Some (address, token, token_contract) ->
     w_address w (Args.wallet c) = inr address /\ token = Args.token c) /\
  (forall token_contract,
     contract_of x = Some token_contract ->
     token_contract = Args.token_from_chain_contract c).

(** The record of line 72. *)
Definition is_balance_record (x : sigT taskE) : bool :=
  match x with
  | existT _ _ (logger INFO msg) => String.prefix "BALANCE | " msg
  | _ => false
  end.

(** How many of the polls of index [q] to [q + m - 1] write the record of
    line 72: those whose [logger_cntr] is a multiple of 3. *)
Definition records_due (q m : nat) : nat :=
  count (fun i => Z.of_nat i mod 3 =? 0) (seq q m).

(** What the event loop does while [gather] waits. *)
Definition is_loop_event (x : sigT mainE) : bool :=
  is_resume x || is_in_task x.

(** ** How a wallet task is due to end in a given world *)

Section Outcome.

Variable w : world.
Variable c : Args.t.

(** Lines 76 to 111. *)
Definition submit_outcome (address : string) (amount_to_swap min_amount : Z)
    : outcome error unit :=
  match w_decimals w with
  | inl err => Raised err
  | inr decimals =>
      match w_divide w amount_to_swap decimals with
      | inl err => Raised err
      | inr _ =>
          match w_send w (bridge_request c address amount_to_swap min_amount) with
          | inl err => Raised err
          | inr _ => Returned tt
          end
      end
  end.

(** The loop left at the query of index [stop]. *)
Definition wait_outcome (address : string) (amount_to_swap min_amount : Z)
    (stop : nat) : outcome error unit :=
  match w_balance w stop with
  | inl err => Raised err
  | inr _ => submit_outcome address amount_to_swap min_amount
  end.

Definition task_outcome (stop : nat) : outcome error unit :=
  match w_address w (Args.wallet c) with
  | inl err => Raised err
  | inr address =>
      match w_amounts w with
      | inl err => Raised err
      | inr (amount_to_swap, min_amount) =>
          wait_outcome address amount_to_swap min_amount stop
      end
  end.

End Outcome.

(** ** Worlds in which a collaborator raises *)

Module Cases.

(** The private key is not one. *)
Definition bad_key : world :=
  World (fun _ => inl (Error "invalid key")) (inr (10000000, 9950000)) 2
    (fun _ => inr (PyBool true)) (inr 6)
    (fun _ _ => inr "10.0") (fun _ => inr "0xhash").

(** The balance query of index [n] raises, the ones before return zero. *)
Definition failing_query (n : nat) : world :=
  World (fun wallet => inr ("0x" ++ wallet)) (inr (10000000, 9950000)) 2
    (fun i => if (i <? n)%nat then inr (PyInt 0) else inl (Error "rpc"))
    (inr 6) (fun _ _ => inr "10.0") (fun _ => inr "0xhash").

(** The decimals of the token cannot be read. *)
Definition no_decimals : world :=
  World (fun wallet => inr ("0x" ++ wallet)) (inr (10000000, 9950000)) 2
    (fun _ => inr (PyBool true)) (inl (Error "decimals"))
    (fun _ _ => inr "10.0") (fun _ => inr "0xhash").

(** No wallet is configured. *)
Definition run_main_empty :=
  run_main Sample.polygon Sample.avalanche Sample.bsc Sample.fantom Sample.usdc
    Sample.usdt [] Sample.AMOUNT_TO_SWAP.



End Cases.

(** ** The program, its command line and the event loop *)

(** [SystemExit] and [KeyboardInterrupt] are not subclasses of [Exception].
    A task that raises one of them is not left to [gather]: the event loop
    lets the exception through, [asyncio.run] stops, and [main] goes no
    further. *)
Definition is_exit (e : error) : bool :=
  match e with
  | Error what =>
      (String.eqb what "SystemExit" || String.eqb what "KeyboardInterrupt")%bool
  end.

(** The world of [main] when its tasks may raise any exception: what
    [answer_main] answers, but for the exceptions of a task that the event
    loop lets through. *)
Definition answer_loop (mw : main_world) (T : Type) (e : mainE T)
    (s : main_state) : main_state * (exn + T) :=
  match e in mainE T return main_state * (exn + T) with
  | print _ _ => (s, inr tt)
  | raise x => (s, inl x)
  | main_logger _ _ => (s, inr tt)
  | resume _ => (MainState (S (turns s)) (queries s), inr (w_resume mw (turns s)))
  | in_task i e =>
      let (q, a) := answer (w_task mw i) _ e (queries s i) in
      match a with
      | inl err =>
          if is_exit err
          then (set_queries s i q, inl (Failure err))
          else (set_queries s i q, inr (inl err))
      | inr v => (set_queries s i q, inr (inr v))
      end
  end.

(** What the parser of lines 115 to 139 makes of the command line: there is
    no argument; or [--mode] and its value; or the parser meets [-h] or
    [--help], which it has by default; or it meets arguments that it does
    not know (such as a word alone), which it names in its error. *)
Variant invocation : Type :=
| Bare
| WithMode (value : string)
| Help
| Unrecognized (words : string).

(** [args = parser.parse_args()] on such a command line.  For help argparse
    writes the usage and the options (shortened here) to standard output
    and calls [sys.exit(0)]; for unknown arguments it writes its usage and
    error message (shortened here) to standard error and calls
    [sys.exit(2)]. *)
Definition parse_invocation (choices : list string) (inv : invocation)
    : itree mainE Namespace :=
  match inv with
  | Bare => parse_args choices None
  | WithMode value => parse_args choices (Some value)
  | Help =>
      ITree.trigger (print stdout "usage: [-h] [--mode MODE]");;
      v <- ITree.trigger (raise (SystemExit 0));;
      match v : void with end
  | Unrecognized words =>
      ITree.trigger (print stderr ("error: unrecognized arguments: " ++ words));;
      v <- ITree.trigger (raise (SystemExit 2));;
      match v : void with end
  end.

Section Program.

Variables polygon avalanche bsc fantom : Chain.t.
Variables usdc usdt : Token.t.
Variable PRIVATE_KEYS : list string.
Variable AMOUNT_TO_SWAP : Q.

(** Lines 142 to 372 of [main]: what follows [parse_args]. *)
Definition after_parse_args (args : Namespace) : itree mainE unit :=
  match mode args with
  | None =>
      ITree.trigger (print stdout "Error: the --mode argument is required");;
      v <- ITree.trigger (raise (SystemExit 2));;
      match v : void with end
  | Some key =>
      match getitem mode_mapping key with
      | None =>
          v <- ITree.trigger (raise (KeyError key));;
          match v : void with end
      | Some mode =>
          let tasks :=
            build_tasks polygon avalanche bsc fantom usdc usdt PRIVATE_KEYS mode in
          ITree.trigger (main_logger INFO ("Bridging " ++ mode ++ "."));;
          gather (map (chain_to_chain AMOUNT_TO_SWAP) tasks);;
          ITree.trigger (main_logger SUCCESS "*** FINISHED ***")
      end
  end.

(** [main] on a command line. *)
Definition main_on (inv : invocation) : itree mainE unit :=
  args <- parse_invocation (keys mode_mapping) inv;;
  after_parse_args args.

End Program.

(** A run of the program: [asyncio.run(main())] of line 376. *)
Definition run_program (polygon avalanche bsc fantom : Chain.t)
    (usdc usdt : Token.t) (PRIVATE_KEYS : list string) (AMOUNT_TO_SWAP : Q)
    (mw : main_world) (fuel : nat) (inv : invocation)
    : result mainE main_state exn unit :=
  run (answer_loop mw) fuel
    (main_on polygon avalanche bsc fantom usdc usdt PRIVATE_KEYS AMOUNT_TO_SWAP inv)
    initial.



(** The sample configuration as a program, and three wallets the second of
    which calls [sys.exit] in its submission. *)
Module Program.

Definition run_program := run_program Sample.polygon Sample.avalanche Sample.bsc
  Sample.fantom Sample.usdc Sample.usdt Sample.PRIVATE_KEYS Sample.AMOUNT_TO_SWAP.



End Program.

(** ** The request as an object *)

(** The dictionary of lines 84 to 98 and the list of lines 91 to 95 are
    objects: [send_token_chain_to_chain] is handed the dictionary itself, not
    a copy of it, and so could write to it.  The other keyword arguments are
    strings, integers and handles of the configuration. *)
Module Obj.

Variant value : Type :=
| Int (n : Z)
| Str (s : string)
| Ref (place : nat).

Variant t : Type :=
| Dict (items : list (string * value))
| List (items : list value).

End Obj.

(** The objects that a task has made so far, by place. *)
Definition heap : Type := list Obj.t.

Definition alloc (h : heap) (o : Obj.t) : heap * nat :=
  ((h ++ [o])%list, List.length h).

(** The list display of lines 91 to 95. *)
Definition lz_tx_obj_display (tx : Tx.t) : Obj.t :=
  let '(a, b, c) := Tx.lz_tx_obj tx in
  Obj.List [Obj.Int a; Obj.Int b; Obj.Str c].

(** The dictionary display of lines 84 to 98, its list being at place [l]. *)
Definition transaction_info_display (tx : Tx.t) (l : nat) : Obj.t :=
  Obj.Dict
    [ ("chain_id", Obj.Int (Tx.chain_id tx));
      ("source_pool_id", Obj.Int (Tx.source_pool_id tx));
      ("dest_pool_id", Obj.Int (Tx.dest_pool_id tx));
      ("refund_address", Obj.Str (Tx.refund_address tx));
      ("amount_in", Obj.Int (Tx.amount_in tx));
      ("amount_out_min", Obj.Int (Tx.amount_out_min tx));
      ("lz_tx_obj", Obj.Ref l);
      ("to", Obj.Str (Tx.to tx));
      ("data", Obj.Str (Tx.data tx)) ].

(** The argument [transaction_info={...}] of the call of line 81 is
    evaluated: the list is made, then the dictionary that holds it. *)
Definition new_transaction_info (tx : Tx.t) (h : heap) : heap * nat :=
  let (h1, l) := alloc h (lz_tx_obj_display tx) in
  alloc h1 (transaction_info_display tx l).

(** The places that an object refers to. *)
Definition refs (o : Obj.t) : list nat :=
  match o with
  | Obj.Dict items =>
      flat_map (fun kv => match snd kv with
                          | Obj.Ref p => [p]
                          | _ => []
                          end) items
  | Obj.List items =>
      flat_map (fun v => match v with
                         | Obj.Ref p => [p]
                         | _ => []
                         end) items
  end.

(** What the object at a place holds, and what the objects it refers to
    hold. *)
Definition snapshot (h : heap) (place : nat)
    : option (Obj.t * list (option Obj.t)) :=
  match nth_error h place with
  | Some o => Some (o, map (nth_error h) (refs o))
  | None => None
  end.

(** The world of a task whose request is an object: the collaborators of
    [world], and what [send_token_chain_to_chain] does to the objects when
    it is handed the dictionary at a place. *)
Record object_world : Type := ObjectWorld {
  o_world : world;
  o_send_writes : Send.t -> nat -> heap -> heap
}.

(** What a call of the task does to the objects: only the call of line 81
    makes objects, and only [send_token_chain_to_chain] is handed one. *)
Definition heap_after (ow : object_world) (x : sigT taskE) (h : heap) : heap :=
  match sent x with
  | Some call =>
      let (h1, d) := new_transaction_info (Send.transaction_info call) h in
      o_send_writes ow call d h1
  | None => h
  end.


Definition answer_objects (ow : object_world) (T : Type) (e : taskE T)
    (s : nat * heap) : (nat * heap) * (error + T) :=
  let (q, a) := answer (o_world ow) T e (fst s) in
  ((q, heap_after ow (occ e) (snd s)), a).

(** A run of one wallet task on its own, with its objects. *)
Definition run_task_objects (AMOUNT_TO_SWAP : Q) (ow : object_world)
    (fuel : nat) (c : Args.t) : result taskE (nat * heap) error unit :=
  run (answer_objects ow) fuel (chain_to_chain AMOUNT_TO_SWAP c) (O, []).



(** A [send_token_chain_to_chain] that would not be as the spec has it: it
    empties the dictionary that it is handed. *)
Definition clears_request : Send.t -> nat -> heap -> heap :=
  fun _ d h => update h d (Obj.Dict []).

(** * Facts *)

(** ** Lists *)

Lemma prefix_nil {A : Type} (l : list A) : prefix [] l.
Proof. now exists l. Qed.

Lemma prefix_refl {A : Type} (l : list A) : prefix l l.
Proof. exists []. now rewrite app_nil_r. Qed.

Lemma prefix_cons {A : Type} (x : A) (l full : list A) :
  prefix l full -> prefix (x :: l) (x :: full).
Proof. intros [rest ->]. now exists rest. Qed.

Lemma prefix_In {A : Type} (l full : list A) (x : A) :
  prefix l full -> In x l -> In x full.
Proof. intros [rest ->] H. apply in_or_app. now left. Qed.

Lemma count_app {A : Type} (p : A -> bool) (l1 l2 : list A) :
  count p (l1 ++ l2) = (count p l1 + count p l2)%nat.
Proof. unfold count. now rewrite filter_app, length_app. Qed.

Lemma count_prefix {A : Type} (p : A -> bool) (l full : list A) :
  prefix l full -> (count p l <= count p full)%nat.
Proof. intros [rest ->]. rewrite count_app. lia. Qed.

(** ** Runs *)

Section RunFacts.

Context {E : Type -> Type} {St X : Type}.
Variable handler : forall T, E T -> St -> St * (X + T).

Lemma run_unfold {R : Type} (fuel : nat) (t : itree E R) (s : St) :
  run handler fuel t s =
  match observe t with
  | RetF r => Result [] s (Returned r) fuel
  | TauF t' =>
      match fuel with
      | O => Result [] s Timeout O
      | S f => run handler f t' s
      end
  | VisF e k =>
      match fuel with
      | O => Result [] s Timeout O
      | S f =>
          let (s', a) := handler _ e s in
          match a with
          | inl x => Result [occ e] s' (Raised x) f
          | inr v =>
              let r := run handler f (k v) s' in
              Result (occ e :: trace r) (final r) (out r) (left r)
          end
      end
  end.
Proof. destruct fuel; reflexivity. Qed.

Lemma run_observe {R : Type} (fuel : nat) (t1 t2 : itree E R) (s : St) :
  observe t1 = observe t2 -> run handler fuel t1 s = run handler fuel t2 s.
Proof.
  intros H. rewrite (run_unfold fuel t1), (run_unfold fuel t2), H. reflexivity.
Qed.

Lemma result_eta {R : Type} (r : result E St X R) :
  Result (trace r) (final r) (out r) (left r) = r.
Proof. destruct r; reflexivity. Qed.

(** Running [t >>= k] is running [t] and then [k] on what is left. *)
Lemma run_bind {R U : Type} (k : R -> itree E U) :
  forall fuel (t : itree E R) s,
    run handler fuel (ITree.bind t k) s = and_then handler (run handler fuel t s) k.
Proof.
  induction fuel as [|f IH]; intros t s.
  - rewrite (run_unfold 0 (ITree.bind t k)), (run_unfold 0 t), observe_bind.
    destruct (observe t) as [r|t'|T e h]; cbn; try reflexivity.
    unfold and_then; cbn. rewrite <- (run_unfold 0 (k r)). now rewrite result_eta.
  - rewrite (run_unfold (S f) (ITree.bind t k)), (run_unfold (S f) t), observe_bind.
    destruct (observe t) as [r|t'|T e h]; cbn.
    + unfold and_then; cbn. rewrite <- (run_unfold (S f) (k r)).
      now rewrite result_eta.
    + apply IH.
    + destruct (handler T e s) as [s' [x|v]]; [reflexivity|].
      rewrite IH. unfold and_then; cbn.
      destruct (out (run handler f (h v) s')); reflexivity.
Qed.

Lemma run_bind_bind {R U V : Type} (t : itree E R) (k1 : R -> itree E U)
    (k2 : U -> itree E V) fuel s :
  run handler fuel (ITree.bind (ITree.bind t k1) k2) s =
  run handler fuel (ITree.bind t (fun x => ITree.bind (k1 x) k2)) s.
Proof.
  rewrite !run_bind. unfold and_then at 2 3.
  destruct (out (run handler fuel t s)) as [r| |] eqn:Ho; cbn.
  - rewrite run_bind. unfold and_then; cbn.
    destruct (out (run handler (left (run handler fuel t s)) (k1 r)
                     (final (run handler fuel t s)))); cbn;
      now rewrite ?app_assoc.
  - reflexivity.
  - reflexivity.
Qed.

Lemma run_ret_bind {R U : Type} (r : R) (k : R -> itree E U) fuel s :
  run handler fuel (ITree.bind (Ret r) k) s = run handler fuel (k r) s.
Proof. apply run_observe. reflexivity. Qed.

Lemma run_tau_bind {R U : Type} (t : itree E R) (k : R -> itree E U) fuel s :
  run handler (S fuel) (ITree.bind (Tau t) k) s = run handler fuel (ITree.bind t k) s.
Proof. reflexivity. Qed.

Lemma run_trigger_bind {T U : Type} (e : E T) (k : T -> itree E U) fuel s :
  run handler (S fuel) (ITree.bind (ITree.trigger e) k) s =
  let (s', a) := handler _ e s in
  match a with
  | inl x => Result [occ e] s' (Raised x) fuel
  | inr v =>
      let r := run handler fuel (k v) s' in
      Result (occ e :: trace r) (final r) (out r) (left r)
  end.
Proof.
  cbn. destruct (handler T e s) as [s' [x|v]]; [reflexivity|].
  change (ITree.subst k (Ret v)) with (ITree.bind (Ret v) k).
  now rewrite run_ret_bind.
Qed.

Lemma run_trigger {T : Type} (e : E T) fuel s :
  run handler (S fuel) (ITree.trigger e) s =
  let (s', a) := handler _ e s in
  match a with
  | inl x => Result [occ e] s' (Raised x) fuel
  | inr v => Result [occ e] s' (Returned v) fuel
  end.
Proof.
  cbn. destruct (handler T e s) as [s' [x|v]]; [reflexivity|].
  rewrite run_unfold. reflexivity.
Qed.

Lemma run_zero_trigger_bind {T U : Type} (e : E T) (k : T -> itree E U) s :
  run handler 0 (ITree.bind (ITree.trigger e) k) s = Result [] s Timeout O.
Proof. reflexivity. Qed.

(** One turn of a loop. *)
Lemma run_iter_bind {I R U : Type} (body : I -> itree E (I + R)) (i : I)
    (k : R -> itree E U) fuel s :
  run handler fuel (ITree.bind (ITree.iter body i) k) s =
  run handler fuel
    (ITree.bind (body i)
       (fun lr => match lr with
                  | inl l => ITree.bind (Tau (ITree.iter body l)) k
                  | inr r => k r
                  end)) s.
Proof.
  transitivity (run handler fuel
    (ITree.bind (ITree.bind (body i)
       (fun lr => match lr with
                  | inl l => Tau (ITree.iter body l)
                  | inr r => Ret r
                  end)) k) s).
  - apply run_observe. rewrite !observe_bind.
    f_equal.
  - rewrite run_bind_bind. rewrite !run_bind. unfold and_then.
    destruct (out (run handler fuel (body i) s)) as [[l|r]| |]; try reflexivity.
    cbn. now rewrite run_ret_bind.
Qed.


(** With more fuel a run performs the same events and then more. *)
Lemma run_prefix {R : Type} : forall fuel (t : itree E R) s extra,
  prefix (trace (run handler fuel t s)) (trace (run handler (fuel + extra) t s)).
Proof.
  induction fuel as [|f IH]; intros t s extra;
    rewrite (run_unfold _ t s), (run_unfold (_ + extra) t s);
    destruct (observe t) as [r|t'|T e h]; cbn.
  - apply prefix_refl.
  - apply prefix_nil.
  - apply prefix_nil.
  - apply prefix_refl.
  - apply IH.
  - destruct (handler T e s) as [s' [x|v]]; cbn; [apply prefix_refl|].
    apply prefix_cons, IH.
Qed.

End RunFacts.

(** ** A wallet task performs the events it is due to perform *)

Lemma follows_start {E : Type -> Type} {St X R : Type} (s : St)
    (due : list (sigT E)) :
  follows (Result (X := X) (R := R) [] s Timeout O) due.
Proof. apply prefix_nil. Qed.

Lemma follows_cons {E : Type -> Type} {St X R : Type}
    (r : result E St X R) (x : sigT E) (due : list (sigT E)) :
  follows r due ->
  follows (Result (x :: trace r) (final r) (out r) (left r)) (x :: due).
Proof.
  unfold follows; cbn. destruct (out r); intros H.
  - now rewrite H.
  - now rewrite H.
  - now apply prefix_cons.
Qed.

Lemma follows_prefix {E : Type -> Type} {St X R : Type}
    (r : result E St X R) (due : list (sigT E)) :
  follows r due -> prefix (trace r) due.
Proof.
  unfold follows. destruct (out r); intros H; try (rewrite H; apply prefix_refl).
  exact H.
Qed.

Lemma follows_ended {E : Type -> Type} {St X R : Type}
    (r : result E St X R) (due : list (sigT E)) :
  follows r due -> out r <> Timeout -> trace r = due.
Proof. unfold follows. destruct (out r); intros H Ho; congruence. Qed.

Lemma randint_1_200 (entropy : Z) : randint entropy 1 200 = inr (1 + entropy mod 200).
Proof. reflexivity. Qed.

Lemma start_delay_range (w : world) : 1 <= start_delay_of w <= 200.
Proof.
  unfold start_delay_of. pose proof (Z.mod_pos_bound (w_entropy w) 200). lia.
Qed.

(** Reassociate the binds at the head of the tree that is run. *)
Ltac assoc :=
  match goal with
  | |- context [run ?h ?f (ITree.bind (ITree.bind ?a ?b) ?d) ?s] =>
      rewrite (run_bind_bind h a b d f s)
  end.

(** One awaited call: out of fuel before it, or the call is made and
    answered. *)
Ltac call fuel :=
  destruct fuel as [|fuel];
  [ apply follows_start
  | rewrite run_trigger_bind; cbn [answer] ].

Section TaskFollows.

Variable AMOUNT_TO_SWAP : Q.
Variable w : world.
Variable c : Args.t.

Lemma submit_follows (address : string) (amount_to_swap min_amount : Z) :
  forall fuel q,
    follows (run (answer w) fuel (submit c address amount_to_swap min_amount) q)
      (submit_events w c address amount_to_swap min_amount).
Proof.
  intros fuel q. unfold submit, submit_events.
  call fuel. destruct (w_decimals w) as [err|decimals]; [reflexivity|].
  apply follows_cons.
  call fuel. destruct (w_divide w amount_to_swap decimals) as [err|shown];
    [reflexivity|].
  apply follows_cons.
  call fuel. apply follows_cons.
  call fuel.
  destruct (w_send w (bridge_request c address amount_to_swap min_amount))
    as [err|hash]; [reflexivity|].
  apply follows_cons.
  call fuel. apply follows_cons.
  destruct fuel as [|fuel]; [apply follows_start|].
  rewrite run_trigger; cbn [answer]. reflexivity.
Qed.

Lemma waiting_ready (address : string) (amount_to_swap min_amount : Z)
    (balance : pyval) (logger_cntr : Z) fuel q :
  truthy balance = true ->
  run (answer w) fuel (waiting c address amount_to_swap min_amount balance logger_cntr) q
  = run (answer w) fuel (submit c address amount_to_swap min_amount) q.
Proof.
  intros Hv. unfold waiting. rewrite run_iter_bind. unfold wait_step.
  rewrite Hv. cbn [negb]. now rewrite run_ret_bind.
Qed.

Lemma wait_follows (address : string) (amount_to_swap min_amount : Z) :
  forall k fuel q balance,
    (fuel <= k)%nat ->
    truthy balance = false ->
    follows
      (run (answer w) fuel
         (waiting c address amount_to_swap min_amount balance (Z.of_nat q)) q)
      (wait_events w c address amount_to_swap min_amount k q).
Proof.
  induction k as [|k IH]; intros fuel q balance Hk Hv; unfold waiting;
    rewrite run_iter_bind; unfold wait_step; rewrite Hv; cbn [negb];
    assoc.
  - assert (fuel = O) by lia. subst fuel. apply follows_start.
  - cbn [wait_events]. unfold poll_events.
    call fuel. apply follows_cons. assoc.
    assert (Hquery : forall fuel', (fuel' <= k)%nat ->
      follows
        (run (answer w) fuel'
           (ITree.bind
              (ITree.trigger (is_balance_updated address (Args.token c)
                                (Args.token_from_chain_contract c)))
              (fun x =>
                 ITree.bind (Ret (inl (x, Z.of_nat q + 1)))
                   (fun lr : pyval * Z + unit =>
                      match lr with
                      | inl l =>
                          ITree.bind
                            (Tau (ITree.iter
                                    (wait_step address (Args.from_chain_name c)
                                       (Args.token c)
                                       (Args.token_from_chain_contract c)) l))
                            (fun _ => submit c address amount_to_swap min_amount)
                      | inr _ => submit c address amount_to_swap min_amount
                      end))) q)
        (occ (is_balance_updated address (Args.token c)
                (Args.token_from_chain_contract c)) ::
         match w_balance w q with
         | inl _ => []
         | inr v =>
             if truthy v
             then submit_events w c address amount_to_swap min_amount
             else wait_events w c address amount_to_swap min_amount k (S q)
         end)).
    { intros fuel' Hf. call fuel'.
      destruct (w_balance w q) as [err|v]; [reflexivity|].
      apply follows_cons. rewrite run_ret_bind.
      destruct fuel' as [|fuel']; [apply follows_start|].
      rewrite run_tau_bind.
      replace (Z.of_nat q + 1) with (Z.of_nat (S q)) by lia.
      fold (waiting c address amount_to_swap min_amount v (Z.of_nat (S q))).
      destruct (truthy v) eqn:Hready.
      - rewrite waiting_ready by exact Hready. apply submit_follows.
      - apply IH; [lia|exact Hready]. }
    destruct (Z.of_nat q mod 3 =? 0).
    + call fuel. apply follows_cons. assoc.
      cbn [app]. apply Hquery. lia.
    + rewrite run_ret_bind. assoc. cbn [app]. apply Hquery. lia.
Qed.

Lemma delay_follows (address : string) (amount_to_swap min_amount : Z) :
  forall k fuel,
    (fuel <= k)%nat ->
    follows
      (run (answer w) fuel
         (delay_wait_and_submit c address amount_to_swap min_amount) O)
      (delay_events w address ++
       wait_events w c address amount_to_swap min_amount k O)%list.
Proof.
  intros k fuel Hk. unfold delay_wait_and_submit, delay_events.
  call fuel. rewrite randint_1_200. fold (start_delay_of w).
  cbn [app]. apply follows_cons.
  call fuel. apply follows_cons.
  call fuel. apply follows_cons.
  destruct (Nat.le_gt_cases fuel k) as [Hle|Hgt]; [|lia].
  clear Hk. revert fuel Hle.
  assert (Hrest : forall fuel, (fuel <= k)%nat ->
    follows
      (run (answer w) fuel
         (ITree.trigger tqdm_exit;;
          wait_and_submit c address amount_to_swap min_amount) O)
      (occ tqdm_exit :: wait_events w c address amount_to_swap min_amount k O)).
  { intros fuel Hle. call fuel. apply follows_cons.
    apply (wait_follows address amount_to_swap min_amount k fuel O PyNone);
      [lia|reflexivity]. }
  intros fuel Hle. rewrite <- app_assoc. cbn [app].
  generalize (range (start_delay_of w)) as l.
  induction l as [|x l IH] in fuel, Hle |- *; cbn [for_each flat_map app].
  - rewrite run_ret_bind. now apply Hrest.
  - repeat assoc.
    call fuel. apply follows_cons.
    call fuel. apply follows_cons. apply IH. lia.
Qed.

(** Whatever the fuel, the run of a wallet task performs a prefix of the
    events it is due to perform, and all of them once it has ended. *)
Lemma task_follows :
  forall k fuel,
    (fuel <= k)%nat ->
    follows (run_task AMOUNT_TO_SWAP w fuel c) (task_events AMOUNT_TO_SWAP w c k).
Proof.
  intros k fuel Hk. unfold run_task, chain_to_chain, task_events.
  call fuel. destruct (w_address w (Args.wallet c)) as [err|address];
    [reflexivity|].
  apply follows_cons.
  call fuel. destruct (w_amounts w) as [err|[amount_to_swap min_amount]];
    [reflexivity|].
  apply follows_cons.
  apply delay_follows. lia.
Qed.

End TaskFollows.

(** ** A wallet task ends once the balance is seen *)

(** One awaited call with fuel to spare. *)
Ltac call_with fuel :=
  destruct fuel as [|fuel]; [exfalso; lia|];
  rewrite run_trigger_bind; cbn [answer out].

Section TaskEnds.

Variable AMOUNT_TO_SWAP : Q.
Variable w : world.
Variable c : Args.t.

Lemma submit_ends (address : string) (amount_to_swap min_amount : Z) :
  forall fuel q,
    (6 <= fuel)%nat ->
    out (run (answer w) fuel (submit c address amount_to_swap min_amount) q)
    <> Timeout.
Proof.
  intros fuel q Hf. unfold submit.
  call_with fuel. destruct (w_decimals w) as [err|decimals]; [discriminate|].
  cbn [out].
  call_with fuel. destruct (w_divide w amount_to_swap decimals) as [err|shown];
    [discriminate|].
  cbn [out].
  call_with fuel.
  call_with fuel.
  destruct (w_send w (bridge_request c address amount_to_swap min_amount))
    as [err|hash]; [discriminate|].
  cbn [out].
  call_with fuel.
  destruct fuel as [|fuel]; [exfalso; lia|].
  rewrite run_trigger; cbn [answer out]. discriminate.
Qed.

Lemma stops_at_next (q n : nat) :
  stops_at w q (S n) -> stops_at w (S q) n.
Proof.
  intros [Hbefore Hstop]. split.
  - intros i Hi. destruct (Hbefore (S i)) as [v' Hv']; [lia|].
    exists v'. rewrite Nat.add_succ_comm. exact Hv'.
  - intros v'. rewrite Nat.add_succ_comm. apply Hstop.
Qed.

Lemma wait_ends (address : string) (amount_to_swap min_amount : Z) :
  forall n q balance fuel,
    truthy balance = false ->
    stops_at w q n ->
    (4 * n + 10 <= fuel)%nat ->
    out (run (answer w) fuel
           (waiting c address amount_to_swap min_amount balance (Z.of_nat q)) q)
    <> Timeout.
Proof.
  induction n as [|n IH]; intros q balance fuel Hv Hstop Hf; unfold waiting;
    rewrite run_iter_bind; unfold wait_step; rewrite Hv; cbn [negb]; assoc;
    call_with fuel; assoc.
  - assert (Hquery : forall fuel', (8 <= fuel')%nat ->
      out (run (answer w) fuel'
             (ITree.bind
                (ITree.trigger (is_balance_updated address (Args.token c)
                                  (Args.token_from_chain_contract c)))
                (fun x =>
                   ITree.bind (Ret (inl (x, Z.of_nat q + 1)))
                     (fun lr : pyval * Z + unit =>
                        match lr with
                        | inl l =>
                            ITree.bind
                              (Tau (ITree.iter
                                      (wait_step address (Args.from_chain_name c)
                                         (Args.token c)
                                         (Args.token_from_chain_contract c)) l))
                              (fun _ => submit c address amount_to_swap min_amount)
                        | inr _ => submit c address amount_to_swap min_amount
                        end))) q) <> Timeout).
    { intros fuel' Hf'. call_with fuel'.
      destruct Hstop as [_ Hstop]. rewrite Nat.add_0_r in Hstop.
      destruct (w_balance w q) as [err|v]; [discriminate|].
      cbn [out]. rewrite run_ret_bind.
      destruct fuel' as [|fuel']; [exfalso; lia|].
      rewrite run_tau_bind.
      fold (waiting c address amount_to_swap min_amount v (Z.of_nat q + 1)).
      rewrite waiting_ready by (now apply Hstop).
      apply submit_ends. lia. }
    destruct (Z.of_nat q mod 3 =? 0).
    + call_with fuel. assoc. apply Hquery. lia.
    + rewrite run_ret_bind. assoc. apply Hquery. lia.
  - assert (Hquery : forall fuel', (4 * n + 12 <= fuel')%nat ->
      out (run (answer w) fuel'
             (ITree.bind
                (ITree.trigger (is_balance_updated address (Args.token c)
                                  (Args.token_from_chain_contract c)))
                (fun x =>
                   ITree.bind (Ret (inl (x, Z.of_nat q + 1)))
                     (fun lr : pyval * Z + unit =>
                        match lr with
                        | inl l =>
                            ITree.bind
                              (Tau (ITree.iter
                                      (wait_step address (Args.from_chain_name c)
                                         (Args.token c)
                                         (Args.token_from_chain_contract c)) l))
                              (fun _ => submit c address amount_to_swap min_amount)
                        | inr _ => submit c address amount_to_swap min_amount
                        end))) q) <> Timeout).
    { intros fuel' Hf'. call_with fuel'.
      destruct (proj1 Hstop O) as [v [Hq Hfalse]]; [lia|].
      rewrite Nat.add_0_r in Hq. rewrite Hq.
      cbn [out]. rewrite run_ret_bind.
      destruct fuel' as [|fuel']; [exfalso; lia|].
      rewrite run_tau_bind.
      replace (Z.of_nat q + 1) with (Z.of_nat (S q)) by lia.
      fold (waiting c address amount_to_swap min_amount v (Z.of_nat (S q))).
      apply IH; [exact Hfalse| |lia].
      now apply stops_at_next. }
    destruct (Z.of_nat q mod 3 =? 0).
    + call_with fuel. assoc. apply Hquery. lia.
    + rewrite run_ret_bind. assoc. apply Hquery. lia.
Qed.

Lemma range_length (n : Z) : List.length (range n) = Z.to_nat n.
Proof. unfold range. now rewrite length_map, length_seq. Qed.

Lemma delay_ends (address : string) (amount_to_swap min_amount : Z) :
  forall n fuel,
    stops_at w O n ->
    (4 * n + 414 <= fuel)%nat ->
    out (run (answer w) fuel
           (delay_wait_and_submit c address amount_to_swap min_amount) O)
    <> Timeout.
Proof.
  intros n fuel Hstop Hf. unfold delay_wait_and_submit.
  call_with fuel. rewrite randint_1_200. fold (start_delay_of w). cbn [out].
  call_with fuel. call_with fuel.
  pose proof (start_delay_range w) as Hd.
  assert (Hlen : (List.length (range (start_delay_of w)) <= 200)%nat)
    by (rewrite range_length; lia).
  revert Hlen. generalize (range (start_delay_of w)) as l.
  intros l Hlen.
  assert (Hgo : (2 * List.length l + 4 * n + 11 <= fuel)%nat) by lia.
  clear Hf Hlen. revert fuel Hgo.
  induction l as [|x l IH]; intros fuel Hgo; cbn [for_each List.length] in *.
  - rewrite run_ret_bind. call_with fuel.
    apply (wait_ends address amount_to_swap min_amount n O PyNone);
      [reflexivity|exact Hstop|lia].
  - repeat assoc. call_with fuel. call_with fuel. apply IH. lia.
Qed.

Lemma task_ends :
  forall n fuel,
    stops_at w O n ->
    (4 * n + 416 <= fuel)%nat ->
    out (run_task AMOUNT_TO_SWAP w fuel c) <> Timeout.
Proof.
  intros n fuel Hstop Hf. unfold run_task, chain_to_chain.
  call_with fuel. destruct (w_address w (Args.wallet c)) as [err|address];
    [discriminate|].
  cbn [out].
  call_with fuel. destruct (w_amounts w) as [err|[amount_to_swap min_amount]];
    [discriminate|].
  cbn [out]. apply (delay_ends address amount_to_swap min_amount n); [exact Hstop|lia].
Qed.

End TaskEnds.

(** ** What the due events contain *)

Lemma count_cons {A : Type} (p : A -> bool) (x : A) (l : list A) :
  count p (x :: l) = ((if p x then 1 else 0) + count p l)%nat.
Proof. unfold count; cbn. now destruct (p x). Qed.

Section DueFacts.

Variable AMOUNT_TO_SWAP : Q.
Variable w : world.
Variable c : Args.t.

Lemma poll_queries (address : string) (q : nat) :
  count is_query (poll_events c address q) = 1%nat.
Proof. unfold poll_events. now destruct (Z.of_nat q mod 3 =? 0). Qed.

Lemma poll_sends (address : string) (q : nat) :
  count is_send (poll_events c address q) = O.
Proof. unfold poll_events. now destruct (Z.of_nat q mod 3 =? 0). Qed.

Lemma polls_queries (address : string) (n q : nat) :
  count is_query (polls c address q n) = n.
Proof.
  unfold polls. revert q. induction n as [|n IH]; intros q; [reflexivity|].
  cbn [seq map List.concat]. now rewrite count_app, poll_queries, IH.
Qed.

Lemma polls_sends (address : string) (n q : nat) :
  count is_send (polls c address q n) = O.
Proof.
  unfold polls. revert q. induction n as [|n IH]; intros q; [reflexivity|].
  cbn [seq map List.concat]. now rewrite count_app, poll_sends, IH.
Qed.

Lemma delay_sleeps_count (p : sigT taskE -> bool) (l : list Z) :
  p (occ (asyncio_sleep 1)) = false ->
  p (occ (pbar_update 1)) = false ->
  count p
    (flat_map (fun _ : Z => [occ (asyncio_sleep 1); occ (pbar_update 1)]) l) = O.
Proof.
  intros H1 H2. induction l as [|x l IH]; [reflexivity|].
  cbn [flat_map app]. now rewrite !count_cons, H1, H2, IH.
Qed.

Lemma delay_queries (address : string) :
  count is_query (delay_events w address) = O.
Proof.
  unfold delay_events. rewrite !count_cons, count_app, delay_sleeps_count;
    reflexivity.
Qed.

Lemma delay_sends (address : string) :
  count is_send (delay_events w address) = O.
Proof.
  unfold delay_events. rewrite !count_cons, count_app, delay_sleeps_count;
    reflexivity.
Qed.

Lemma submit_queries (address : string) (amount_to_swap min_amount : Z) :
  count is_query (submit_events w c address amount_to_swap min_amount) = O.
Proof.
  unfold submit_events.
  destruct (w_decimals w) as [?|decimals]; [reflexivity|].
  destruct (w_divide w amount_to_swap decimals); [reflexivity|].
  destruct (w_send w _); reflexivity.
Qed.

Lemma submit_sends (address : string) (amount_to_swap min_amount : Z) :
  (count is_send (submit_events w c address amount_to_swap min_amount) <= 1)%nat.
Proof.
  unfold submit_events.
  destruct (w_decimals w) as [?|decimals]; [cbn; lia|].
  destruct (w_divide w amount_to_swap decimals); [cbn; lia|].
  destruct (w_send w _); cbn; lia.
Qed.

Lemma submit_sends_once (address : string) (amount_to_swap min_amount : Z)
    (decimals : Z) (shown : string) :
  w_decimals w = inr decimals ->
  w_divide w amount_to_swap decimals = inr shown ->
  count is_send (submit_events w c address amount_to_swap min_amount) = 1%nat.
Proof.
  intros Hd Hs. unfold submit_events. rewrite Hd, Hs.
  destruct (w_send w _); reflexivity.
Qed.

(** The polls of a world in which the balance is seen on the query of
    index [q + n]. *)
Lemma wait_events_seen (address : string) (amount_to_swap min_amount : Z) :
  forall n k q,
    (n < k)%nat ->
    (forall i, (i < n)%nat ->
       exists v, w_balance w (q + i) = inr v /\ truthy v = false) ->
    (exists v, w_balance w (q + n) = inr v /\ truthy v = true) ->
    wait_events w c address amount_to_swap min_amount k q =
    (polls c address q (S n) ++
     submit_events w c address amount_to_swap min_amount)%list.
Proof.
  unfold polls.
  induction n as [|n IH]; intros k q Hk Hfalse Htrue;
    (destruct k as [|k]; [lia|]); cbn [wait_events seq map List.concat].
  - destruct Htrue as [v [Hq Hv]]. rewrite Nat.add_0_r in Hq.
    rewrite Hq, Hv. now rewrite app_nil_r.
  - destruct (Hfalse O) as [v [Hq Hv]]; [lia|]. rewrite Nat.add_0_r in Hq.
    rewrite Hq, Hv. rewrite <- app_assoc. f_equal.
    apply IH; [lia| |].
    + intros i Hi. rewrite Nat.add_succ_comm. apply Hfalse. lia.
    + rewrite Nat.add_succ_comm. exact Htrue.
Qed.

(** The polls of a world in which the balance is not seen before the
    query of index [q + n]. *)
Lemma wait_events_unseen (address : string) (amount_to_swap min_amount : Z) :
  forall n k q,
    (n <= k)%nat ->
    (forall i, (i < n)%nat ->
       exists v, w_balance w (q + i) = inr v /\ truthy v = false) ->
    wait_events w c address amount_to_swap min_amount k q =
    (polls c address q n ++
     wait_events w c address amount_to_swap min_amount (k - n) (q + n))%list.
Proof.
  unfold polls.
  induction n as [|n IH]; intros k q Hk Hfalse.
  - cbn [seq map List.concat app]. now rewrite Nat.sub_0_r, Nat.add_0_r.
  - destruct k as [|k]; [lia|]. cbn [wait_events seq map List.concat].
    destruct (Hfalse O) as [v [Hq Hv]]; [lia|]. rewrite Nat.add_0_r in Hq.
    rewrite Hq, Hv. rewrite <- app_assoc. f_equal.
    rewrite <- Nat.add_succ_comm. cbn [Nat.sub].
    apply IH; [lia|].
    intros i Hi. rewrite Nat.add_succ_comm. apply Hfalse. lia.
Qed.

End DueFacts.

(** * The claims *)

(** ** The balance-wait loop *)

Lemma stops_at_seen (w : world) (n : nat) :
  (forall i, (i < n)%nat -> exists v, w_balance w i = inr v /\ truthy v = false) ->
  (exists v, w_balance w n = inr v /\ truthy v = true) ->
  stops_at w O n.
Proof.
  intros Hfalse [v [Hn Hv]]. split.
  - intros i Hi. apply Hfalse, Hi.
  - cbn. intros v' Hv'. congruence.
Qed.

(** What a wallet task is due to perform when its collaborators return and
    the balance is seen on the query of index [n]. *)
Lemma task_events_seen (AMOUNT_TO_SWAP : Q) (w : world) (c : Args.t)
    (n k : nat) (address : string) (amount_to_swap min_amount : Z) :
  w_address w (Args.wallet c) = inr address ->
  w_amounts w = inr (amount_to_swap, min_amount) ->
  (forall i, (i < n)%nat -> exists v, w_balance w i = inr v /\ truthy v = false) ->
  (exists v, w_balance w n = inr v /\ truthy v = true) ->
  (n < k)%nat ->
  task_events AMOUNT_TO_SWAP w c k =
  (occ (wallet_public_address (Args.wallet c)) ::
   occ (get_correct_amount_and_min_amount (Args.token_from_chain_contract c)
          AMOUNT_TO_SWAP) ::
   delay_events w address ++ polls c address O (S n) ++
   submit_events w c address amount_to_swap min_amount)%list.
Proof.
  intros Ha Hm Hfalse Htrue Hk. unfold task_events. rewrite Ha, Hm.
  do 3 f_equal.
  now apply wait_events_seen.
Qed.

(** C1.  In a run of [chain_to_chain] whose collaborators return, if the
    balance query returns a falsy value on its first [n] calls and a truthy
    value on the next one, then with enough fuel the run ends, having made
    exactly [n + 1] balance queries, the last of them followed at once by
    what comes after the loop, and exactly one call of
    [send_token_chain_to_chain]; and no run, whatever its fuel, makes a
    further balance query.  The claim is the case [n = 2]. *)
Theorem C1_balance_wait_loop (AMOUNT_TO_SWAP : Q) (w : world) (c : Args.t)
    (n : nat) (address : string) (amount_to_swap min_amount decimals : Z)
    (shown : string) :
  w_address w (Args.wallet c) = inr address ->
  w_amounts w = inr (amount_to_swap, min_amount) ->
  (forall i, (i < n)%nat -> exists v, w_balance w i = inr v /\ truthy v = false) ->
  (exists v, w_balance w n = inr v /\ truthy v = true) ->
  w_decimals w = inr decimals ->
  w_divide w amount_to_swap decimals = inr shown ->
  (forall fuel, (4 * n + 416 <= fuel)%nat ->
     out (run_task AMOUNT_TO_SWAP w fuel c) <> Timeout /\
     trace (run_task AMOUNT_TO_SWAP w fuel c) =
       (occ (wallet_public_address (Args.wallet c)) ::
        occ (get_correct_amount_and_min_amount
               (Args.token_from_chain_contract c) AMOUNT_TO_SWAP) ::
        delay_events w address ++ polls c address O (S n) ++
        submit_events w c address amount_to_swap min_amount)%list /\
     count is_query (trace (run_task AMOUNT_TO_SWAP w fuel c)) = S n /\
     count is_send (trace (run_task AMOUNT_TO_SWAP w fuel c)) = 1%nat) /\
  (forall fuel,
     (count is_query (trace (run_task AMOUNT_TO_SWAP w fuel c)) <= S n)%nat).
Proof.
  intros Ha Hm Hfalse Htrue Hd Hs.
  assert (Hcount_q : forall k, (n < k)%nat ->
            count is_query (task_events AMOUNT_TO_SWAP w c k) = S n).
  { intros k Hk.
    rewrite (task_events_seen AMOUNT_TO_SWAP w c n k address amount_to_swap
               min_amount Ha Hm Hfalse Htrue Hk).
    rewrite !count_cons, !count_app, delay_queries, polls_queries, submit_queries.
    cbn. lia. }
  assert (Hcount_s : forall k, (n < k)%nat ->
            count is_send (task_events AMOUNT_TO_SWAP w c k) = 1%nat).
  { intros k Hk.
    rewrite (task_events_seen AMOUNT_TO_SWAP w c n k address amount_to_swap
               min_amount Ha Hm Hfalse Htrue Hk).
    rewrite !count_cons, !count_app, delay_sends, polls_sends.
    rewrite (submit_sends_once w c address amount_to_swap min_amount decimals
               shown Hd Hs).
    cbn. lia. }
  split.
  - intros fuel Hfuel.
    pose proof (task_ends AMOUNT_TO_SWAP w c n fuel
                  (stops_at_seen w n Hfalse Htrue) Hfuel) as Hends.
    pose proof (task_follows AMOUNT_TO_SWAP w c fuel fuel (Nat.le_refl fuel))
      as Hfollows.
    apply follows_ended in Hfollows; [|exact Hends].
    rewrite Hfollows.
    repeat split.
    + exact Hends.
    + apply task_events_seen; trivial. lia.
    + apply Hcount_q. lia.
    + apply Hcount_s. lia.
  - intros fuel.
    pose proof (task_follows AMOUNT_TO_SWAP w c (fuel + S n) fuel) as Hfollows.
    apply follows_prefix in Hfollows; [|lia].
    apply (count_prefix is_query) in Hfollows.
    rewrite Hcount_q in Hfollows by lia. exact Hfollows.
Qed.

(** C1 at the world [Sample.funded_at 2]: two falsy answers, then a truthy
    one. *)
Lemma C1_balance_wait_loop_witness :
  (forall fuel, (4 * 2 + 416 <= fuel)%nat ->
     out (run_task Sample.AMOUNT_TO_SWAP (Sample.funded_at 2) fuel Sample.args)
       <> Timeout /\
     trace (run_task Sample.AMOUNT_TO_SWAP (Sample.funded_at 2) fuel Sample.args) =
       (occ (wallet_public_address (Args.wallet Sample.args)) ::
        occ (get_correct_amount_and_min_amount
               (Args.token_from_chain_contract Sample.args)
               Sample.AMOUNT_TO_SWAP) ::
        delay_events (Sample.funded_at 2) "0xkey1" ++
        polls Sample.args "0xkey1" O 3 ++
        submit_events (Sample.funded_at 2) Sample.args "0xkey1" 10000000 9950000)%list /\
     count is_query
       (trace (run_task Sample.AMOUNT_TO_SWAP (Sample.funded_at 2) fuel Sample.args))
       = 3%nat /\
     count is_send
       (trace (run_task Sample.AMOUNT_TO_SWAP (Sample.funded_at 2) fuel Sample.args))
       = 1%nat) /\
  (forall fuel,
     (count is_query
        (trace (run_task Sample.AMOUNT_TO_SWAP (Sample.funded_at 2) fuel Sample.args))
      <= 3)%nat).
Proof.
  apply (C1_balance_wait_loop Sample.AMOUNT_TO_SWAP (Sample.funded_at 2)
           Sample.args 2 "0xkey1" 10000000 9950000 6 "10.0").
  - reflexivity.
  - reflexivity.
  - intros i Hi. exists (PyBool false).
    destruct i as [|[|i]]; [split; reflexivity|split; reflexivity|lia].
  - exists (PyBool true). split; reflexivity.
  - reflexivity.
  - reflexivity.
Defined.

(** ** A balance that is never seen *)

Lemma count_cons_le {A : Type} (p : A -> bool) (x : A) (l : list A) (n : nat) :
  (n <= count p l)%nat -> (n <= count p (x :: l))%nat.
Proof. rewrite count_cons. lia. Qed.

Lemma count_cons_hit {A : Type} (p : A -> bool) (x : A) (l : list A) (n : nat) :
  p x = true -> (n <= count p l)%nat -> (S n <= count p (x :: l))%nat.
Proof. intros Hx. rewrite count_cons, Hx. lia. Qed.

(** One awaited call, at least [n] queries being owed by what follows. *)
Ltac call_counting fuel :=
  destruct fuel as [|fuel]; [exfalso; lia|];
  rewrite run_trigger_bind; cbn [answer trace].

Section NeverSeen.

Variable AMOUNT_TO_SWAP : Q.
Variable w : world.
Variable c : Args.t.

Hypothesis never :
  forall i, exists v, w_balance w i = inr v /\ truthy v = false.

Lemma wait_polls_on (address : string) (amount_to_swap min_amount : Z) :
  forall n q balance fuel,
    truthy balance = false ->
    (4 * n <= fuel)%nat ->
    (n <= count is_query
            (trace (run (answer w) fuel
                      (waiting c address amount_to_swap min_amount balance
                         (Z.of_nat q)) q)))%nat.
Proof.
  induction n as [|n IH]; intros q balance fuel Hv Hf; [lia|].
  unfold waiting; rewrite run_iter_bind; unfold wait_step; rewrite Hv;
    cbn [negb]; assoc.
  call_counting fuel. apply count_cons_le. assoc.
  assert (Hquery : forall fuel', (4 * n + 2 <= fuel')%nat ->
    le (S n) (count is_query
      (trace (run (answer w) fuel'
             (ITree.bind
                (ITree.trigger (is_balance_updated address (Args.token c)
                                  (Args.token_from_chain_contract c)))
                (fun x =>
                   ITree.bind (Ret (inl (x, Z.of_nat q + 1)))
                     (fun lr : pyval * Z + unit =>
                        match lr with
                        | inl l =>
                            ITree.bind
                              (Tau (ITree.iter
                                      (wait_step address (Args.from_chain_name c)
                                         (Args.token c)
                                         (Args.token_from_chain_contract c)) l))
                              (fun _ => submit c address amount_to_swap min_amount)
                        | inr _ => submit c address amount_to_swap min_amount
                        end))) q)))).
  { intros fuel' Hf'. call_counting fuel'.
    destruct (never q) as [v [Hq Hfalse]]. rewrite Hq. cbn [trace].
    apply count_cons_hit; [reflexivity|].
    rewrite run_ret_bind.
    destruct fuel' as [|fuel']; [exfalso; lia|].
    rewrite run_tau_bind.
    replace (Z.of_nat q + 1) with (Z.of_nat (S q)) by lia.
    fold (waiting c address amount_to_swap min_amount v (Z.of_nat (S q))).
    apply IH; [exact Hfalse|lia]. }
  destruct (Z.of_nat q mod 3 =? 0).
  - call_counting fuel. apply count_cons_le. assoc. apply Hquery. lia.
  - rewrite run_ret_bind. assoc. apply Hquery. lia.
Qed.

Lemma task_polls_on (address : string) (amounts : Z * Z) :
  w_address w (Args.wallet c) = inr address ->
  w_amounts w = inr amounts ->
  forall n fuel,
    (4 * n + 406 <= fuel)%nat ->
    (n <= count is_query (trace (run_task AMOUNT_TO_SWAP w fuel c)))%nat.
Proof.
  intros Ha Hm n fuel Hf. unfold run_task, chain_to_chain.
  call_counting fuel. rewrite Ha. cbn [trace]. apply count_cons_le.
  call_counting fuel. rewrite Hm. cbn [trace]. apply count_cons_le.
  destruct amounts as [amount_to_swap min_amount].
  unfold delay_wait_and_submit.
  call_counting fuel. rewrite randint_1_200. fold (start_delay_of w).
  cbn [trace]. apply count_cons_le.
  call_counting fuel. apply count_cons_le.
  call_counting fuel. apply count_cons_le.
  pose proof (start_delay_range w) as Hd.
  assert (Hlen : (List.length (range (start_delay_of w)) <= 200)%nat)
    by (rewrite range_length; lia).
  revert Hlen. generalize (range (start_delay_of w)) as l.
  intros l Hlen.
  assert (Hgo : (2 * List.length l + 4 * n + 1 <= fuel)%nat) by lia.
  clear Hf Hlen. revert fuel Hgo.
  induction l as [|x l IH]; intros fuel Hgo; cbn [for_each List.length] in *.
  - rewrite run_ret_bind. call_counting fuel. apply count_cons_le.
    apply (wait_polls_on address amount_to_swap min_amount n O PyNone);
      [reflexivity|lia].
  - repeat assoc. call_counting fuel. apply count_cons_le.
    call_counting fuel. apply count_cons_le. apply IH. lia.
Qed.

Lemma task_events_unseen (k : nat) (address : string) (amounts : Z * Z) :
  w_address w (Args.wallet c) = inr address ->
  w_amounts w = inr amounts ->
  task_events AMOUNT_TO_SWAP w c k =
  (occ (wallet_public_address (Args.wallet c)) ::
   occ (get_correct_amount_and_min_amount (Args.token_from_chain_contract c)
          AMOUNT_TO_SWAP) ::
   delay_events w address ++ polls c address O k)%list.
Proof.
  intros Ha Hm. unfold task_events. rewrite Ha, Hm.
  destruct amounts as [amount_to_swap min_amount]. do 3 f_equal.
  rewrite (wait_events_unseen w c address amount_to_swap min_amount k k O);
    [|lia|intros i _; apply never].
  rewrite Nat.sub_diag. cbn [wait_events]. now rewrite app_nil_r.
Qed.

Lemma task_events_no_send (k : nat) :
  count is_send (task_events AMOUNT_TO_SWAP w c k) = O.
Proof.
  destruct (w_address w (Args.wallet c)) as [err|address] eqn:Ha;
    [unfold task_events; now rewrite Ha|].
  destruct (w_amounts w) as [err|amounts] eqn:Hm;
    [unfold task_events; now rewrite Ha, Hm|].
  rewrite (task_events_unseen k address amounts Ha Hm).
  now rewrite !count_cons, count_app, delay_sends, polls_sends.
Qed.

End NeverSeen.

(** C2.  If every balance query of a wallet returns a falsy value, no run
    of its task, whatever the fuel, contains a call of
    [send_token_chain_to_chain]; once the two calls before the loop have
    returned, no run ends (the loop has no exit but a truthy balance), and
    the number of balance queries grows without bound. *)
Theorem C2_never_seen_never_submits (AMOUNT_TO_SWAP : Q) (w : world) (c : Args.t) :
  (forall i, exists v, w_balance w i = inr v /\ truthy v = false) ->
  (forall fuel,
     count is_send (trace (run_task AMOUNT_TO_SWAP w fuel c)) = O) /\
  (forall address amounts,
     w_address w (Args.wallet c) = inr address ->
     w_amounts w = inr amounts ->
     (forall fuel, out (run_task AMOUNT_TO_SWAP w fuel c) = Timeout) /\
     (forall n, exists fuel,
        (n <= count is_query (trace (run_task AMOUNT_TO_SWAP w fuel c)))%nat)).
Proof.
  intros Hnever. split.
  - intros fuel.
    pose proof (task_follows AMOUNT_TO_SWAP w c fuel fuel (Nat.le_refl fuel))
      as Hfollows.
    apply follows_prefix, (count_prefix is_send) in Hfollows.
    rewrite (task_events_no_send AMOUNT_TO_SWAP w c Hnever) in Hfollows. lia.
  - intros address amounts Ha Hm. split.
    + intros fuel.
      destruct (out (run_task AMOUNT_TO_SWAP w fuel c)) as [r|x|] eqn:Hout;
        [exfalso|exfalso|reflexivity].
      * pose proof (task_follows AMOUNT_TO_SWAP w c fuel fuel (Nat.le_refl fuel)) as H1.
        pose proof (task_follows AMOUNT_TO_SWAP w c (S fuel) fuel (Nat.le_succ_diag_r fuel)) as H2.
        apply follows_ended in H1; [|congruence].
        apply follows_ended in H2; [|congruence].
        rewrite H1 in H2.
        apply (f_equal (count is_query)) in H2.
        rewrite !(task_events_unseen AMOUNT_TO_SWAP w c Hnever _ address amounts Ha Hm)
          in H2.
        rewrite !count_cons, !count_app, !polls_queries in H2. lia.
      * pose proof (task_follows AMOUNT_TO_SWAP w c fuel fuel (Nat.le_refl fuel)) as H1.
        pose proof (task_follows AMOUNT_TO_SWAP w c (S fuel) fuel (Nat.le_succ_diag_r fuel)) as H2.
        apply follows_ended in H1; [|congruence].
        apply follows_ended in H2; [|congruence].
        rewrite H1 in H2.
        apply (f_equal (count is_query)) in H2.
        rewrite !(task_events_unseen AMOUNT_TO_SWAP w c Hnever _ address amounts Ha Hm)
          in H2.
        rewrite !count_cons, !count_app, !polls_queries in H2. lia.
    + intros n. exists (4 * n + 406)%nat.
      apply (task_polls_on AMOUNT_TO_SWAP w c Hnever address amounts Ha Hm).
      lia.
Qed.

(** C2 at the world [Sample.never_funded]. *)
Lemma C2_never_seen_never_submits_witness :
  (forall fuel,
     count is_send
       (trace (run_task Sample.AMOUNT_TO_SWAP Sample.never_funded fuel Sample.args))
     = O) /\
  (forall address amounts,
     w_address Sample.never_funded (Args.wallet Sample.args) = inr address ->
     w_amounts Sample.never_funded = inr amounts ->
     (forall fuel,
        out (run_task Sample.AMOUNT_TO_SWAP Sample.never_funded fuel Sample.args)
        = Timeout) /\
     (forall n, exists fuel,
        (n <= count is_query
                (trace (run_task Sample.AMOUNT_TO_SWAP Sample.never_funded fuel
                          Sample.args)))%nat)).
Proof.
  apply (C2_never_seen_never_submits Sample.AMOUNT_TO_SWAP Sample.never_funded
           Sample.args).
  intros i. exists (PyInt 0). split; reflexivity.
Defined.

(** ** Splitting a list at an element *)

Lemma app_split {A : Type} (l1 l2 pre post : list A) (x : A) :
  (l1 ++ l2 = pre ++ x :: post)%list ->
  (exists mid, l1 = pre ++ x :: mid /\ post = mid ++ l2)%list \/
  (exists pre', pre = l1 ++ pre' /\ l2 = pre' ++ x :: post)%list.
Proof.
  revert pre. induction l1 as [|y l1 IH]; intros pre H.
  - right. exists pre. split; [reflexivity|exact H].
  - destruct pre as [|p pre]; cbn in H; injection H as Hy H.
    + left. exists l1. subst. split; reflexivity.
    + destruct (IH pre H) as [[mid [H1 H2]]|[pre' [H1 H2]]].
      * left. exists mid. subst. split; reflexivity.
      * right. exists pre'. subst. split; reflexivity.
Qed.

(** An element with property [p] lies beyond a first part that has none. *)
Lemma split_skip {A : Type} (p : A -> bool) (l1 l2 pre post : list A) (x : A) :
  (forall y, In y l1 -> p y = false) ->
  (l1 ++ l2 = pre ++ x :: post)%list ->
  p x = true ->
  exists pre', (pre = l1 ++ pre' /\ l2 = pre' ++ x :: post)%list.
Proof.
  intros Hnone H Hx. destruct (app_split l1 l2 pre post x H)
    as [[mid [H1 _]]|Hr]; [|exact Hr].
  exfalso. assert (Hin : In x l1) by (rewrite H1; apply in_elt).
  apply Hnone in Hin. congruence.
Qed.

Lemma prefix_split {A : Type} (l full pre post : list A) (x : A) :
  prefix l full -> (l = pre ++ x :: post)%list ->
  exists post', (full = pre ++ x :: post')%list.
Proof.
  intros [rest ->] ->. exists (post ++ rest)%list.
  now rewrite <- app_assoc.
Qed.

(** ** The bridge request *)

Section RequestFacts.

Variable AMOUNT_TO_SWAP : Q.
Variable w : world.
Variable c : Args.t.

Lemma poll_sent (address : string) (q : nat) (x : sigT taskE) :
  In x (poll_events c address q) -> sent x = None.
Proof.
  unfold poll_events. destruct (Z.of_nat q mod 3 =? 0); cbn;
    intros H; repeat (destruct H as [<-|H]; [reflexivity|]); contradiction.
Qed.

Lemma delay_sent (address : string) (x : sigT taskE) :
  In x (delay_events w address) -> sent x = None.
Proof.
  unfold delay_events. intros H.
  do 3 (destruct H as [<-|H]; [reflexivity|]).
  apply in_app_or in H. destruct H as [H|H].
  - apply in_flat_map in H. destruct H as [_ [_ H]].
    repeat (destruct H as [<-|H]; [reflexivity|]). contradiction.
  - destruct H as [<-|H]; [reflexivity|contradiction].
Qed.

Lemma submit_sent (address : string) (amount_to_swap min_amount : Z)
    (x : sigT taskE) (call : Send.t) :
  In x (submit_events w c address amount_to_swap min_amount) ->
  sent x = Some call ->
  call = bridge_request c address amount_to_swap min_amount.
Proof.
  unfold submit_events. intros H Hx.
  destruct H as [<-|H]; [discriminate|].
  destruct (w_decimals w) as [?|decimals]; [contradiction|].
  destruct H as [<-|H]; [discriminate|].
  destruct (w_divide w amount_to_swap decimals) as [?|shown]; [contradiction|].
  destruct H as [<-|H]; [discriminate|].
  destruct H as [<-|H]; [cbn in Hx; congruence|].
  destruct (w_send w _) as [?|hash]; [contradiction|].
  repeat (destruct H as [<-|H]; [discriminate|]). contradiction.
Qed.

Lemma wait_sent (address : string) (amount_to_swap min_amount : Z)
    (x : sigT taskE) (call : Send.t) :
  forall k q,
    In x (wait_events w c address amount_to_swap min_amount k q) ->
    sent x = Some call ->
    call = bridge_request c address amount_to_swap min_amount.
Proof.
  induction k as [|k IH]; intros q H Hx; [contradiction|].
  cbn [wait_events] in H. apply in_app_or in H. destruct H as [H|H].
  - apply poll_sent in H. congruence.
  - destruct (w_balance w q) as [?|v]; [contradiction|].
    destruct (truthy v).
    + now apply (submit_sent address amount_to_swap min_amount x).
    + now apply (IH (S q)).
Qed.

Lemma wait_sends (address : string) (amount_to_swap min_amount : Z) :
  forall k q,
    (count is_send (wait_events w c address amount_to_swap min_amount k q) <= 1)%nat.
Proof.
  induction k as [|k IH]; intros q; [cbn; lia|].
  cbn [wait_events]. rewrite count_app, poll_sends.
  destruct (w_balance w q) as [?|v]; [cbn; lia|].
  destruct (truthy v); [apply submit_sends|apply IH].
Qed.

Lemma task_sends (k : nat) :
  (count is_send (task_events AMOUNT_TO_SWAP w c k) <= 1)%nat.
Proof.
  unfold task_events. rewrite count_cons.
  destruct (w_address w (Args.wallet c)) as [?|address]; [cbn; lia|].
  rewrite count_cons.
  destruct (w_amounts w) as [?|[amount_to_swap min_amount]]; [cbn; lia|].
  rewrite count_app, delay_sends.
  pose proof (wait_sends address amount_to_swap min_amount k O). cbn. lia.
Qed.

Lemma task_sent (k : nat) (x : sigT taskE) (call : Send.t) :
  In x (task_events AMOUNT_TO_SWAP w c k) ->
  sent x = Some call ->
  exists address amount_to_swap min_amount,
    w_address w (Args.wallet c) = inr address /\
    w_amounts w = inr (amount_to_swap, min_amount) /\
    call = bridge_request c address amount_to_swap min_amount.
Proof.
  unfold task_events. intros H Hx.
  destruct H as [<-|H]; [discriminate|].
  destruct (w_address w (Args.wallet c)) as [?|address]; [contradiction|].
  destruct H as [<-|H]; [discriminate|].
  destruct (w_amounts w) as [?|[amount_to_swap min_amount]]; [contradiction|].
  exists address, amount_to_swap, min_amount. repeat split.
  apply in_app_or in H. destruct H as [H|H].
  - apply delay_sent in H. congruence.
  - now apply (wait_sent address amount_to_swap min_amount x call k O).
Qed.

End RequestFacts.

(** ** The request as an object, in a run *)

Section Objects.

Variable ow : object_world.




End Objects.




(** Were [send_token_chain_to_chain] to write to the dictionary, the run
    would show it: with one that empties the dictionary, the request of the
    sample task is not, at the end, what the call has made. *)
Example a_write_is_seen :
  snapshot
    (snd (final (run_task_objects Sample.AMOUNT_TO_SWAP
                   (ObjectWorld (Sample.funded_at 0) clears_request) 424
                   Sample.args)))
    1
  = Some (Obj.Dict [], []).
Proof. vm_compute. reflexivity. Qed.



(** ** The sleep before each balance query *)

Lemma guarded_app (l pre : list (sigT taskE)) : guarded pre -> guarded (l ++ pre).
Proof.
  intros [before [H|[msg H]]]; exists (l ++ before)%list; subst pre.
  - left. now rewrite app_assoc.
  - right. exists msg. now rewrite app_assoc.
Qed.

Section GuardFacts.

Variable AMOUNT_TO_SWAP : Q.
Variable w : world.
Variable c : Args.t.

Lemma submit_not_query (address : string) (amount_to_swap min_amount : Z)
    (x : sigT taskE) :
  In x (submit_events w c address amount_to_swap min_amount) -> is_query x = false.
Proof.
  unfold submit_events. intros H.
  destruct H as [<-|H]; [reflexivity|].
  destruct (w_decimals w) as [?|decimals]; [contradiction|].
  destruct H as [<-|H]; [reflexivity|].
  destruct (w_divide w amount_to_swap decimals) as [?|shown]; [contradiction|].
  do 2 (destruct H as [<-|H]; [reflexivity|]).
  destruct (w_send w _) as [?|hash]; [contradiction|].
  repeat (destruct H as [<-|H]; [reflexivity|]). contradiction.
Qed.

Lemma delay_not_query (address : string) (x : sigT taskE) :
  In x (delay_events w address) -> is_query x = false.
Proof.
  unfold delay_events. intros H.
  do 3 (destruct H as [<-|H]; [reflexivity|]).
  apply in_app_or in H. destruct H as [H|H].
  - apply in_flat_map in H. destruct H as [_ [_ H]].
    repeat (destruct H as [<-|H]; [reflexivity|]). contradiction.
  - destruct H as [<-|H]; [reflexivity|contradiction].
Qed.

Lemma poll_guarded (address : string) (q : nat)
    (pre mid : list (sigT taskE)) (x : sigT taskE) :
  poll_events c address q = (pre ++ x :: mid)%list ->
  is_query x = true -> guarded pre.
Proof.
  unfold poll_events. destruct (Z.of_nat q mod 3 =? 0); cbn [app]; intros H Hx.
  - destruct pre as [|p0 [|p1 [|p2 pre]]]; cbn in H; injection H as; subst;
      try discriminate.
    + exists []. right. eexists. reflexivity.
    + destruct pre; discriminate.
  - destruct pre as [|p0 [|p1 pre]]; cbn in H; injection H as; subst;
      try discriminate.
    + exists []. left. reflexivity.
    + destruct pre; discriminate.
Qed.

Lemma wait_guarded (address : string) (amount_to_swap min_amount : Z) :
  forall k q pre x post,
    wait_events w c address amount_to_swap min_amount k q = (pre ++ x :: post)%list ->
    is_query x = true -> guarded pre.
Proof.
  induction k as [|k IH]; intros q pre x post H Hx; cbn [wait_events] in H.
  - destruct pre; discriminate.
  - apply app_split in H. destruct H as [[mid [H _]]|[pre' [-> H]]].
    + now apply (poll_guarded address q pre mid x).
    + apply guarded_app.
      destruct (w_balance w q) as [?|v]; [destruct pre'; discriminate|].
      destruct (truthy v).
      * exfalso.
        assert (Hin : In x (submit_events w c address amount_to_swap min_amount))
          by (rewrite H; apply in_elt).
        apply submit_not_query in Hin. congruence.
      * now apply (IH (S q) pre' x post).
Qed.

Lemma task_events_cases (k : nat) :
  task_events AMOUNT_TO_SWAP w c k = [occ (wallet_public_address (Args.wallet c))] \/
  task_events AMOUNT_TO_SWAP w c k =
    [occ (wallet_public_address (Args.wallet c));
     occ (get_correct_amount_and_min_amount (Args.token_from_chain_contract c)
            AMOUNT_TO_SWAP)] \/
  exists address amount_to_swap min_amount,
    w_address w (Args.wallet c) = inr address /\
    w_amounts w = inr (amount_to_swap, min_amount) /\
    task_events AMOUNT_TO_SWAP w c k =
      (head_events AMOUNT_TO_SWAP w c address ++
       wait_events w c address amount_to_swap min_amount k O)%list.
Proof.
  unfold task_events, head_events.
  destruct (w_address w (Args.wallet c)) as [?|address]; [now left|].
  destruct (w_amounts w) as [?|[amount_to_swap min_amount]]; [right; now left|].
  right; right. exists address, amount_to_swap, min_amount.
  repeat split.
Qed.

Lemma head_not_query (address : string) (x : sigT taskE) :
  In x (head_events AMOUNT_TO_SWAP w c address) -> is_query x = false.
Proof.
  unfold head_events. intros H.
  do 2 (destruct H as [<-|H]; [reflexivity|]).
  now apply (delay_not_query address).
Qed.

Lemma head_not_send (address : string) (x : sigT taskE) :
  In x (head_events AMOUNT_TO_SWAP w c address) -> is_send x = false.
Proof.
  unfold head_events. intros H.
  do 2 (destruct H as [<-|H]; [reflexivity|]).
  apply delay_sent in H. unfold is_send. now rewrite H.
Qed.

Lemma task_guarded (k : nat) (pre post : list (sigT taskE)) (x : sigT taskE) :
  task_events AMOUNT_TO_SWAP w c k = (pre ++ x :: post)%list ->
  is_query x = true -> guarded pre.
Proof.
  intros H Hx.
  destruct (task_events_cases k)
    as [Hk|[Hk|[address [amount_to_swap [min_amount [_ [_ Hk]]]]]]];
    rewrite Hk in H.
  - exfalso. assert (Hin : In x [occ (wallet_public_address (Args.wallet c))])
      by (rewrite H; apply in_elt).
    destruct Hin as [<-|[]]. discriminate.
  - exfalso.
    assert (Hin : In x [occ (wallet_public_address (Args.wallet c));
                        occ (get_correct_amount_and_min_amount
                               (Args.token_from_chain_contract c) AMOUNT_TO_SWAP)])
      by (rewrite H; apply in_elt).
    destruct Hin as [<-|[<-|[]]]; discriminate.
  - apply (split_skip is_query) in H;
      [|intros y Hy; now apply (head_not_query address)|exact Hx].
    destruct H as [pre' [-> H]].
    apply guarded_app.
    now apply (wait_guarded address amount_to_swap min_amount k O pre' x post).
Qed.

Lemma wait_not_exit (address : string) (amount_to_swap min_amount : Z)
    (x : sigT taskE) :
  forall k q,
    In x (wait_events w c address amount_to_swap min_amount k q) ->
    is_tqdm_exit x = false.
Proof.
  induction k as [|k IH]; intros q H; [contradiction|].
  cbn [wait_events] in H. apply in_app_or in H. destruct H as [H|H].
  - unfold poll_events in H. destruct (Z.of_nat q mod 3 =? 0); cbn in H;
      repeat (destruct H as [<-|H]; [reflexivity|]); contradiction.
  - destruct (w_balance w q) as [?|v]; [contradiction|].
    destruct (truthy v); [|now apply (IH (S q))].
    unfold submit_events in H.
    destruct H as [<-|H]; [reflexivity|].
    destruct (w_decimals w) as [?|decimals]; [contradiction|].
    destruct H as [<-|H]; [reflexivity|].
    destruct (w_divide w amount_to_swap decimals) as [?|shown]; [contradiction|].
    do 2 (destruct H as [<-|H]; [reflexivity|]).
    destruct (w_send w _) as [?|hash]; [contradiction|].
    repeat (destruct H as [<-|H]; [reflexivity|]). contradiction.
Qed.

(** A submission comes after the end of the startup delay and a sleep of
    30. *)
Lemma task_waits (k : nat) (pre post : list (sigT taskE)) (x : sigT taskE) :
  task_events AMOUNT_TO_SWAP w c k = (pre ++ x :: post)%list ->
  is_send x = true ->
  exists p1 p2,
    pre = (p1 ++ occ tqdm_exit :: occ (asyncio_sleep 30) :: p2)%list.
Proof.
  intros H Hx.
  destruct (task_events_cases k)
    as [Hk|[Hk|[address [amount_to_swap [min_amount [_ [_ Hk]]]]]]];
    rewrite Hk in H.
  - exfalso. assert (Hin : In x [occ (wallet_public_address (Args.wallet c))])
      by (rewrite H; apply in_elt).
    destruct Hin as [<-|[]]. discriminate.
  - exfalso.
    assert (Hin : In x [occ (wallet_public_address (Args.wallet c));
                        occ (get_correct_amount_and_min_amount
                               (Args.token_from_chain_contract c) AMOUNT_TO_SWAP)])
      by (rewrite H; apply in_elt).
    destruct Hin as [<-|[<-|[]]]; discriminate.
  - apply (split_skip is_send) in H;
      [|intros y Hy; now apply (head_not_send address)|exact Hx].
    destruct H as [pre' [-> H]].
    destruct k as [|k]; cbn [wait_events] in H; [destruct pre'; discriminate|].
    unfold poll_events in H. rewrite <- !app_comm_cons in H.
    destruct pre' as [|p2 pre']; rewrite <- ?app_comm_cons in H;
      injection H as H2 H; [subst x; discriminate|].
    subst p2. unfold head_events, delay_events.
    exists (occ (wallet_public_address (Args.wallet c))
            :: occ (get_correct_amount_and_min_amount
                      (Args.token_from_chain_contract c) AMOUNT_TO_SWAP)
            :: occ (random_randint 1 200)
            :: occ (logger INFO (msg_start_delay address (start_delay_of w)))
            :: occ (tqdm_enter (start_delay_of w) (msg_waiting address)
                      "{l_bar}{bar}| {n_fmt}/{total_fmt}")
            :: flat_map (fun _ : Z => [occ (asyncio_sleep 1); occ (pbar_update 1)])
                 (range (start_delay_of w)))%list, pre'.
    rewrite <- !app_comm_cons. do 5 f_equal. now rewrite <- app_assoc.
Qed.

End GuardFacts.

(** C10.  In every run of [chain_to_chain], a balance query, the first
    included, comes right after the sleep of 30 of its iteration (with at
    most the balance record in between); and a call of
    [send_token_chain_to_chain] is preceded by the end of the startup delay
    followed by a sleep of 30, so that a wallet whose balance is seen at
    once still waits 30 time units after the startup delay. *)
Theorem C10_sleep_before_every_query (AMOUNT_TO_SWAP : Q) (w : world)
    (c : Args.t) (fuel : nat) :
  (forall pre x post,
     trace (run_task AMOUNT_TO_SWAP w fuel c) = (pre ++ x :: post)%list ->
     is_query x = true ->
     guarded pre) /\
  (forall pre x post,
     trace (run_task AMOUNT_TO_SWAP w fuel c) = (pre ++ x :: post)%list ->
     is_send x = true ->
     exists p1 p2,
       pre = (p1 ++ occ tqdm_exit :: occ (asyncio_sleep 30) :: p2)%list).
Proof.
  pose proof (task_follows AMOUNT_TO_SWAP w c fuel fuel (Nat.le_refl fuel))
    as Hfollows.
  apply follows_prefix in Hfollows. split; intros pre x post H Hx.
  - destruct (prefix_split _ _ pre post x Hfollows H) as [post' Hdue].
    now apply (task_guarded AMOUNT_TO_SWAP w c fuel pre post' x).
  - destruct (prefix_split _ _ pre post x Hfollows H) as [post' Hdue].
    now apply (task_waits AMOUNT_TO_SWAP w c fuel pre post' x).
Qed.

(** ** The startup delay *)

Lemma total_sleep_app (l1 l2 : list (sigT taskE)) :
  total_sleep (l1 ++ l2) = total_sleep l1 + total_sleep l2.
Proof.
  induction l1 as [|x l1 IH]; [reflexivity|].
  cbn [app total_sleep fold_right]. fold (total_sleep (l1 ++ l2)).
  fold (total_sleep l1). rewrite IH. destruct (slept x); lia.
Qed.

Lemma delay_sleeps_total (l : list Z) :
  total_sleep
    (flat_map (fun _ : Z => [occ (asyncio_sleep 1); occ (pbar_update 1)]) l)
  = Z.of_nat (List.length l).
Proof.
  induction l as [|x l IH]; [reflexivity|].
  cbn [flat_map List.length]. rewrite total_sleep_app, IH, Nat2Z.inj_succ.
  cbn [total_sleep fold_right slept occ]. lia.
Qed.

Lemma delay_sleeps_number (l : list Z) :
  count (is_sleep 1)
    (flat_map (fun _ : Z => [occ (asyncio_sleep 1); occ (pbar_update 1)]) l)
  = List.length l.
Proof.
  induction l as [|x l IH]; [reflexivity|].
  cbn [flat_map List.length]. rewrite count_app, IH. reflexivity.
Qed.

Section DelayFacts.

Variable AMOUNT_TO_SWAP : Q.
Variable w : world.
Variable c : Args.t.

(** What comes before the end of the startup delay. *)
Lemma head_before_exit (address : string) (pre mid : list (sigT taskE))
    (x : sigT taskE) :
  head_events AMOUNT_TO_SWAP w c address = (pre ++ x :: mid)%list ->
  is_tqdm_exit x = true ->
  pre =
  (occ (wallet_public_address (Args.wallet c)) ::
   occ (get_correct_amount_and_min_amount (Args.token_from_chain_contract c)
          AMOUNT_TO_SWAP) ::
   occ (random_randint 1 200) ::
   occ (logger INFO (msg_start_delay address (start_delay_of w))) ::
   occ (tqdm_enter (start_delay_of w) (msg_waiting address)
          "{l_bar}{bar}| {n_fmt}/{total_fmt}") ::
   flat_map (fun _ : Z => [occ (asyncio_sleep 1); occ (pbar_update 1)])
     (range (start_delay_of w)))%list.
Proof.
  unfold head_events, delay_events. intros H Hx.
  rewrite !app_comm_cons in H.
  apply (split_skip is_tqdm_exit) in H; [|intros y Hy|exact Hx].
  - destruct H as [pre' [-> H]].
    destruct pre' as [|p pre']; [now rewrite app_nil_r|].
    rewrite <- app_comm_cons in H. injection H as _ H.
    destruct pre'; discriminate.
  - do 5 (destruct Hy as [<-|Hy]; [reflexivity|]).
    apply in_flat_map in Hy. destruct Hy as [_ [_ Hy]].
    repeat (destruct Hy as [<-|Hy]; [reflexivity|]). contradiction.
Qed.

Lemma task_before_exit (k : nat) (pre post : list (sigT taskE)) (x : sigT taskE) :
  task_events AMOUNT_TO_SWAP w c k = (pre ++ x :: post)%list ->
  is_tqdm_exit x = true ->
  total_sleep pre = start_delay_of w /\
  count (is_sleep 1) pre = Z.to_nat (start_delay_of w) /\
  count (is_sleep 30) pre = O.
Proof.
  intros H Hx.
  destruct (task_events_cases AMOUNT_TO_SWAP w c k)
    as [Hk|[Hk|[address [amount_to_swap [min_amount [_ [_ Hk]]]]]]];
    rewrite Hk in H.
  - exfalso. assert (Hin : In x [occ (wallet_public_address (Args.wallet c))])
      by (rewrite H; apply in_elt).
    destruct Hin as [<-|[]]. discriminate.
  - exfalso.
    assert (Hin : In x [occ (wallet_public_address (Args.wallet c));
                        occ (get_correct_amount_and_min_amount
                               (Args.token_from_chain_contract c) AMOUNT_TO_SWAP)])
      by (rewrite H; apply in_elt).
    destruct Hin as [<-|[<-|[]]]; discriminate.
  - apply app_split in H. destruct H as [[mid [H _]]|[pre' [_ H]]].
    + rewrite (head_before_exit address pre mid x H Hx).
      pose proof (start_delay_range w) as Hd.
      repeat split.
      * cbn [total_sleep fold_right slept occ].
        fold (total_sleep
                (flat_map (fun _ : Z => [occ (asyncio_sleep 1); occ (pbar_update 1)])
                   (range (start_delay_of w)))).
        rewrite delay_sleeps_total, range_length. lia.
      * rewrite !count_cons, delay_sleeps_number, range_length. reflexivity.
      * rewrite !count_cons, delay_sleeps_count; reflexivity.
    + exfalso.
      assert (Hin : In x (wait_events w c address amount_to_swap min_amount k O))
        by (rewrite H; apply in_elt).
      apply wait_not_exit in Hin. congruence.
Qed.

(** The startup delay is over within 406 units of fuel. *)
Lemma task_delay_over (address : string) (amounts : Z * Z) :
  w_address w (Args.wallet c) = inr address ->
  w_amounts w = inr amounts ->
  forall fuel,
    (406 <= fuel)%nat ->
    (1 <= count is_tqdm_exit (trace (run_task AMOUNT_TO_SWAP w fuel c)))%nat.
Proof.
  intros Ha Hm fuel Hf. unfold run_task, chain_to_chain.
  call_counting fuel. rewrite Ha. cbn [trace]. apply count_cons_le.
  call_counting fuel. rewrite Hm. cbn [trace]. apply count_cons_le.
  destruct amounts as [amount_to_swap min_amount].
  unfold delay_wait_and_submit.
  call_counting fuel. rewrite randint_1_200. fold (start_delay_of w).
  cbn [trace]. apply count_cons_le.
  call_counting fuel. apply count_cons_le.
  call_counting fuel. apply count_cons_le.
  pose proof (start_delay_range w) as Hd.
  assert (Hlen : (List.length (range (start_delay_of w)) <= 200)%nat)
    by (rewrite range_length; lia).
  revert Hlen. generalize (range (start_delay_of w)) as l.
  intros l Hlen.
  assert (Hgo : (2 * List.length l + 1 <= fuel)%nat) by lia.
  clear Hf Hlen. revert fuel Hgo.
  induction l as [|x l IH]; intros fuel Hgo; cbn [for_each List.length] in *.
  - rewrite run_ret_bind. call_counting fuel.
    apply count_cons_hit; [reflexivity|lia].
  - repeat assoc. call_counting fuel. apply count_cons_le.
    call_counting fuel. apply count_cons_le. apply IH. lia.
Qed.

End DelayFacts.

Lemma chances_below (n : nat) (d : Z) :
  (n <= 200)%nat ->
  count (fun r => match randint r 1 200 with
                  | inr x => x =? d
                  | inl _ => false
                  end)
    (map Z.of_nat (seq 0 n))
  = if (1 <=? d) && (d <=? Z.of_nat n) then 1%nat else O.
Proof.
  induction n as [|n IH]; intros Hn.
  - cbn [seq map Z.of_nat]. change (count _ []) with O.
    destruct (Z.leb_spec 1 d), (Z.leb_spec d 0); cbn [andb]; trivial. lia.
  - rewrite seq_S, map_app, count_app, IH by lia.
    cbn [Nat.add map]. rewrite count_cons, randint_1_200.
    change (count _ []) with O.
    rewrite (Z.mod_small (Z.of_nat n)) by lia.
    destruct (Z.leb_spec 1 d), (Z.leb_spec d (Z.of_nat n)),
      (Z.leb_spec d (Z.of_nat (S n))), (Z.eqb_spec (1 + Z.of_nat n) d);
      cbn [andb Nat.add]; lia.
Qed.

(** C9.  The startup delay of a wallet task is what [random.randint(1, 200)]
    answers, that is 1 plus the outcome of [randbelow(200)]: an integer
    between 1 and 200, drawn uniformly, since each of the 200 equally likely
    outcomes of [randbelow(200)] gives a different delay: every delay from 1
    to 200 has exactly one outcome out of the 200, and no other value has
    any.  In every run the sleeps performed before the progress bar is
    closed are that many sleeps of one time unit, that is the delay in
    total, none of them a poll; the bar is closed within 406 units of fuel
    once the two calls before the delay have returned. *)
Theorem C9_startup_delay (AMOUNT_TO_SWAP : Q) (w : world) (c : Args.t) :
  randint (w_entropy w) 1 200 = inr (start_delay_of w) /\
  1 <= start_delay_of w <= 200 /\
  (forall d, 1 <= d <= 200 -> exists entropy, randint entropy 1 200 = inr d) /\
  List.length (range (200 - 1 + 1)) = 200%nat /\
  (forall d, 1 <= d <= 200 -> chances 1 200 d = 1%nat) /\
  (forall d, ~ 1 <= d <= 200 -> chances 1 200 d = O) /\
  (forall d r r',
     0 <= r < 200 -> 0 <= r' < 200 ->
     randint r 1 200 = inr d -> randint r' 1 200 = inr d -> r = r') /\
  (forall fuel pre x post,
     trace (run_task AMOUNT_TO_SWAP w fuel c) = (pre ++ x :: post)%list ->
     is_tqdm_exit x = true ->
     total_sleep pre = start_delay_of w /\
     count (is_sleep 1) pre = Z.to_nat (start_delay_of w) /\
     count (is_sleep 30) pre = O) /\
  (forall address amounts fuel,
     w_address w (Args.wallet c) = inr address ->
     w_amounts w = inr amounts ->
     (406 <= fuel)%nat ->
     (1 <= count is_tqdm_exit (trace (run_task AMOUNT_TO_SWAP w fuel c)))%nat).
Proof.
  split; [apply randint_1_200|].
  split; [apply start_delay_range|].
  split.
  - intros d Hd. exists (d - 1). rewrite randint_1_200. f_equal.
    rewrite Z.mod_small; lia.
  - split; [reflexivity|].
    split.
    { intros d Hd. unfold chances, range.
      change (Z.to_nat (200 - 1 + 1)) with 200%nat.
      rewrite chances_below by lia.
      destruct (Z.leb_spec 1 d), (Z.leb_spec d (Z.of_nat 200));
        cbn [andb]; trivial; lia. }
    split.
    { intros d Hd. unfold chances, range.
      change (Z.to_nat (200 - 1 + 1)) with 200%nat.
      rewrite chances_below by lia.
      destruct (Z.leb_spec 1 d), (Z.leb_spec d (Z.of_nat 200));
        cbn [andb]; trivial; lia. }
    split.
    { intros d r r' Hr Hr' H H'. rewrite randint_1_200 in H, H'.
      rewrite <- H' in H.
      apply (f_equal (fun a : error + Z => match a with
                                           | inr x => x
                                           | inl _ => 0
                                           end)) in H.
      cbv beta iota in H.
      rewrite (Z.mod_small r), (Z.mod_small r') in H by lia. lia. }
    split.
    + intros fuel pre x post H Hx.
      pose proof (task_follows AMOUNT_TO_SWAP w c fuel fuel (Nat.le_refl fuel))
        as Hfollows.
      apply follows_prefix in Hfollows.
      destruct (prefix_split _ _ pre post x Hfollows H) as [post' Hdue].
      now apply (task_before_exit AMOUNT_TO_SWAP w c fuel pre post' x).
    + intros address amounts fuel Ha Hm Hf.
      now apply (task_delay_over AMOUNT_TO_SWAP w c address amounts).
Qed.

(** ** The order of the steps *)

Lemma steps_of_app (l1 l2 : list (sigT taskE)) :
  steps_of (l1 ++ l2) = (steps_of l1 ++ steps_of l2)%list.
Proof.
  induction l1 as [|x l1 IH]; [reflexivity|].
  cbn [app steps_of]. rewrite IH. now destruct (step_of x).
Qed.

Lemma in_steps_of (l : list (sigT taskE)) (p : step) :
  In p (steps_of l) -> exists x, In x l /\ step_of x = Some p.
Proof.
  induction l as [|y l IH]; [contradiction|].
  cbn [steps_of]. destruct (step_of y) as [p'|] eqn:Hy.
  - intros [<-|H].
    + exists y. split; [now left|exact Hy].
    + destruct (IH H) as [x [Hin Hx]]. exists x. split; [now right|exact Hx].
  - intros H. destruct (IH H) as [x [Hin Hx]]. exists x. split; [now right|exact Hx].
Qed.

Lemma ascending_cons (rank : step -> nat) (p : step) (l : list step) :
  ascending rank l = true ->
  (forall p', In p' l -> (rank p <= rank p')%nat) ->
  ascending rank (p :: l) = true.
Proof.
  intros Hl Hp. destruct l as [|p' l]; [reflexivity|].
  cbn [ascending]. cbn [ascending] in Hl. rewrite Hl, andb_true_r.
  apply Nat.leb_le, Hp. now left.
Qed.

Lemma ascending_app (rank : step -> nat) (l1 l2 : list step) :
  ascending rank l1 = true ->
  ascending rank l2 = true ->
  (forall p p', In p l1 -> In p' l2 -> (rank p <= rank p')%nat) ->
  ascending rank (l1 ++ l2) = true.
Proof.
  induction l1 as [|p [|p1 l1] IH]; intros H1 H2 Hle.
  - exact H2.
  - cbn [app]. apply ascending_cons; [exact H2|].
    intros p' Hp'. apply Hle; [now left|exact Hp'].
  - cbn [ascending] in H1. apply andb_true_iff in H1. destruct H1 as [Hp H1].
    change ((p :: p1 :: l1) ++ l2)%list with (p :: (p1 :: l1) ++ l2)%list.
    change ((p1 :: l1) ++ l2)%list with (p1 :: l1 ++ l2)%list.
    cbn [ascending]. rewrite Hp. cbn [andb].
    change (p1 :: l1 ++ l2)%list with ((p1 :: l1) ++ l2)%list.
    apply IH; [exact H1|exact H2|].
    intros q q' Hq Hq'. apply Hle; [now right|exact Hq'].
Qed.

Lemma ascending_prefix (rank : step -> nat) (l1 l2 : list step) :
  ascending rank (l1 ++ l2) = true -> ascending rank l1 = true.
Proof.
  induction l1 as [|p [|p1 l1] IH]; intros H; try reflexivity.
  change ((p :: p1 :: l1) ++ l2)%list with (p :: p1 :: l1 ++ l2)%list in H.
  cbn [ascending] in H. apply andb_true_iff in H. destruct H as [Hp H].
  cbn [ascending]. rewrite Hp. cbn [andb]. apply IH. exact H.
Qed.

Lemma ascending_same (rank : step -> nat) (r : nat) (l : list step) :
  (forall p, In p l -> rank p = r) -> ascending rank l = true.
Proof.
  induction l as [|p l IH]; intros H; [reflexivity|].
  apply ascending_cons.
  - apply IH. intros p' Hp'. apply H. now right.
  - intros p' Hp'. rewrite (H p (or_introl eq_refl)), (H p' (or_intror Hp')). lia.
Qed.

Section OrderFacts.

Variable AMOUNT_TO_SWAP : Q.
Variable w : world.
Variable c : Args.t.

Lemma delay_steps (address : string) (p : step) :
  In p (steps_of (delay_events w address)) -> p = StepDelay.
Proof.
  intros H. apply in_steps_of in H. destruct H as [x [Hin Hx]].
  unfold delay_events in Hin.
  do 3 (destruct Hin as [<-|Hin]; [discriminate|]).
  apply in_app_or in Hin. destruct Hin as [Hin|Hin].
  - apply in_flat_map in Hin. destruct Hin as [_ [_ Hin]].
    destruct Hin as [<-|[<-|[]]]; cbn in Hx; congruence.
  - destruct Hin as [<-|[]]. discriminate.
Qed.

Lemma poll_steps (address : string) (q : nat) (p : step) :
  In p (steps_of (poll_events c address q)) -> p = StepPoll.
Proof.
  intros H. apply in_steps_of in H. destruct H as [x [Hin Hx]].
  unfold poll_events in Hin. destruct (Z.of_nat q mod 3 =? 0); cbn [app] in Hin;
    repeat (destruct Hin as [<-|Hin]; [cbn in Hx; congruence|]); contradiction.
Qed.

Lemma submit_steps (address : string) (amount_to_swap min_amount : Z) :
  ascending source_rank
    (steps_of (submit_events w c address amount_to_swap min_amount)) = true /\
  (forall p,
     In p (steps_of (submit_events w c address amount_to_swap min_amount)) ->
     (3 <= source_rank p)%nat).
Proof.
  unfold submit_events.
  destruct (w_decimals w) as [?|decimals]; [split; [reflexivity|intros p []]|].
  destruct (w_divide w amount_to_swap decimals) as [?|shown];
    [split; [reflexivity|intros p []]|].
  destruct (w_send w _) as [?|hash]; (split; [reflexivity|]); cbn; intros p H;
    repeat (destruct H as [<-|H]; [cbn; lia|]); contradiction.
Qed.

Lemma wait_steps (address : string) (amount_to_swap min_amount : Z) :
  forall k q,
    ascending source_rank
      (steps_of (wait_events w c address amount_to_swap min_amount k q)) = true /\
    (forall p,
       In p (steps_of (wait_events w c address amount_to_swap min_amount k q)) ->
       (2 <= source_rank p)%nat).
Proof.
  induction k as [|k IH]; intros q; [split; [reflexivity|intros p []]|].
  cbn [wait_events]. rewrite steps_of_app.
  assert (Hrest :
    ascending source_rank
      (steps_of
         match w_balance w q with
         | inl _ => []
         | inr v =>
             if truthy v
             then submit_events w c address amount_to_swap min_amount
             else wait_events w c address amount_to_swap min_amount k (S q)
         end) = true /\
    (forall p,
       In p (steps_of
               match w_balance w q with
               | inl _ => []
               | inr v =>
                   if truthy v
                   then submit_events w c address amount_to_swap min_amount
                   else wait_events w c address amount_to_swap min_amount k (S q)
               end) ->
       (2 <= source_rank p)%nat)).
  { destruct (w_balance w q) as [?|v]; [split; [reflexivity|intros p []]|].
    destruct (truthy v); [|apply IH].
    destruct (submit_steps address amount_to_swap min_amount) as [Ha Hb].
    split; [exact Ha|]. intros p Hp. apply Hb in Hp. lia. }
  destruct Hrest as [Ha Hb]. split.
  - apply ascending_app; [|exact Ha|].
    + apply (ascending_same source_rank 2). intros p Hp.
      now rewrite (poll_steps address q p Hp).
    + intros p p' Hp Hp'. rewrite (poll_steps address q p Hp).
      apply Hb in Hp'. exact Hp'.
  - intros p Hp. apply in_app_or in Hp. destruct Hp as [Hp|Hp].
    + rewrite (poll_steps address q p Hp). cbn. lia.
    + now apply Hb.
Qed.

Lemma task_steps (k : nat) :
  ascending source_rank (steps_of (task_events AMOUNT_TO_SWAP w c k)) = true.
Proof.
  destruct (task_events_cases AMOUNT_TO_SWAP w c k)
    as [Hk|[Hk|[address [amount_to_swap [min_amount [_ [_ Hk]]]]]]];
    rewrite Hk; try reflexivity.
  unfold head_events. rewrite steps_of_app.
  destruct (wait_steps address amount_to_swap min_amount k O) as [Ha Hb].
  change (steps_of
            (occ (wallet_public_address (Args.wallet c))
             :: occ (get_correct_amount_and_min_amount
                       (Args.token_from_chain_contract c) AMOUNT_TO_SWAP)
             :: delay_events w address))
    with (StepAmounts :: steps_of (delay_events w address)).
  apply ascending_app; [|exact Ha|].
  - apply ascending_cons.
    + apply (ascending_same source_rank 1). intros p Hp.
      now rewrite (delay_steps address p Hp).
    + intros p Hp. rewrite (delay_steps address p Hp). cbn. lia.
  - intros p p' Hp Hp'. apply Hb in Hp'. destruct Hp as [<-|Hp]; [cbn; lia|].
    rewrite (delay_steps address p Hp). cbn. lia.
Qed.

End OrderFacts.

(** C6, as the code has it.  In every run of [chain_to_chain] the steps come
    in the order of the source lines: the computation of the amounts (line
    55), then the sleeps of the startup delay, then the balance polls, then
    the submission, then the two success records. *)
Theorem C6_steps_in_source_order (AMOUNT_TO_SWAP : Q) (w : world) (c : Args.t)
    (fuel : nat) :
  ascending source_rank (steps_of (trace (run_task AMOUNT_TO_SWAP w fuel c))) = true.
Proof.
  pose proof (task_follows AMOUNT_TO_SWAP w c fuel fuel (Nat.le_refl fuel))
    as Hfollows.
  apply follows_prefix in Hfollows. destruct Hfollows as [rest Hdue].
  pose proof (task_steps AMOUNT_TO_SWAP w c fuel) as H.
  rewrite Hdue, steps_of_app in H.
  now apply ascending_prefix in H.
Qed.

(** C6, as stated, fails: in the run of the sample task whose balance is
    seen at once, the amounts are computed before the first sleep of the
    startup delay, not after the polls. *)
Lemma C6_stated_order_fails :
  ascending stated_rank
    (steps_of
       (trace (run_task Sample.AMOUNT_TO_SWAP (Sample.funded_at 0) 500 Sample.args)))
  = false /\
  firstn 3
    (steps_of
       (trace (run_task Sample.AMOUNT_TO_SWAP (Sample.funded_at 0) 500 Sample.args)))
  = [StepAmounts; StepDelay; StepDelay].
Proof. split; vm_compute; reflexivity. Qed.

(** ** The command line *)

Lemma not_a_choice (value : string) (choices : list string) :
  ~ In value choices -> existsb (String.eqb value) choices = false.
Proof.
  intros H. apply not_true_is_false. intros Hex.
  apply existsb_exists in Hex. destruct Hex as [k [Hin Hk]].
  apply String.eqb_eq in Hk. now subst k.
Qed.

(** C8.  A value of [--mode] outside the twelve codes is rejected by the
    argument parser: the run consists of the parser's message on standard
    error and of [sys.exit(2)]; no task is built or resumed and no call of a
    task reaches the world. *)
Theorem C8_unknown_mode_rejected (polygon avalanche bsc fantom : Chain.t)
    (usdc usdt : Token.t) (PRIVATE_KEYS : list string) (AMOUNT_TO_SWAP : Q)
    (mw : main_world) (fuel : nat) (value : string) :
  ~ In value (keys mode_mapping) ->
  trace (run_main polygon avalanche bsc fantom usdc usdt PRIVATE_KEYS
           AMOUNT_TO_SWAP mw (S (S fuel)) (Some value))
  = [occ (print stderr ("error: argument --mode: invalid choice: " ++ value));
     occ (raise (SystemExit 2))] /\
  out (run_main polygon avalanche bsc fantom usdc usdt PRIVATE_KEYS
         AMOUNT_TO_SWAP mw (S (S fuel)) (Some value))
  = Raised (SystemExit 2) /\
  count is_in_task
    (trace (run_main polygon avalanche bsc fantom usdc usdt PRIVATE_KEYS
              AMOUNT_TO_SWAP mw (S (S fuel)) (Some value))) = O /\
  count is_resume
    (trace (run_main polygon avalanche bsc fantom usdc usdt PRIVATE_KEYS
              AMOUNT_TO_SWAP mw (S (S fuel)) (Some value))) = O.
Proof.
  intros Hvalue. unfold run_main, main, parse_args.
  rewrite (not_a_choice value _ Hvalue).
  assoc. rewrite run_trigger_bind. cbn [answer_main].
  assoc. rewrite run_trigger_bind. cbn [answer_main].
  repeat split; reflexivity.
Qed.

(** C8 at the value [xx]. *)
Lemma C8_unknown_mode_rejected_witness :
  trace (Sample.run_main Sample.three 2 (Some "xx"))
  = [occ (print stderr ("error: argument --mode: invalid choice: " ++ "xx"));
     occ (raise (SystemExit 2))] /\
  out (Sample.run_main Sample.three 2 (Some "xx")) = Raised (SystemExit 2) /\
  count is_in_task (trace (Sample.run_main Sample.three 2 (Some "xx"))) = O /\
  count is_resume (trace (Sample.run_main Sample.three 2 (Some "xx"))) = O.
Proof.
  apply (C8_unknown_mode_rejected Sample.polygon Sample.avalanche Sample.bsc
           Sample.fantom Sample.usdc Sample.usdt Sample.PRIVATE_KEYS
           Sample.AMOUNT_TO_SWAP Sample.three 0 "xx").
  intros H. cbn in H.
  repeat (destruct H as [H|H]; [discriminate|]). exact H.
Defined.

(** ** The routes *)

Section RouteFacts.

Variables polygon avalanche bsc fantom : Chain.t.
Variables usdc usdt : Token.t.
Variable PRIVATE_KEYS : list string.

(** What the [for] loop of lines 149 to 367 builds when every wallet gets
    the same one task. *)
Lemma build_tasks_map (mode : string) (task : string -> Args.t) :
  (forall wallet tasks,
     append_task polygon avalanche bsc fantom usdc usdt mode wallet tasks
     = (tasks ++ [task wallet])%list) ->
  build_tasks polygon avalanche bsc fantom usdc usdt PRIVATE_KEYS mode
  = map task PRIVATE_KEYS.
Proof.
  intros H. unfold build_tasks.
  assert (Hfold : forall l acc,
    fold_left
      (fun tasks wallet =>
         append_task polygon avalanche bsc fantom usdc usdt mode wallet tasks)
      l acc = (acc ++ map task l)%list).
  { induction l as [|wallet l IH]; intros acc; cbn [fold_left map].
    - now rewrite app_nil_r.
    - rewrite IH, H, <- app_assoc. reflexivity. }
  apply (Hfold PRIVATE_KEYS []).
Qed.

Lemma resolves_intro (key mode : string) (src dst : chain) :
  getitem mode_mapping key = Some mode ->
  mode = mode_name src dst ->
  src <> dst ->
  (forall wallet tasks,
     append_task polygon avalanche bsc fantom usdc usdt mode wallet tasks
     = (tasks ++ [route polygon avalanche bsc fantom usdc usdt src dst wallet])%list) ->
  resolves polygon avalanche bsc fantom usdc usdt PRIVATE_KEYS key.
Proof.
  intros Hk Hm Hd Ha. exists mode, src, dst. repeat split; trivial.
  now apply build_tasks_map.
Qed.

End RouteFacts.

(** C4.  The mode mapping has twelve distinct codes, and for each of them
    [main] builds, for every wallet, the route between the two different
    chains that the mode names: the source fields are those of the source chain, the
    destination name and identifier those of the destination chain, the
    token and its contract are USDT on BSC and USDC elsewhere at the source,
    and the two pool identifiers are those of the token of each end (USDT
    towards USDC from BSC, USDC towards USDT to BSC, USDC on both ends
    otherwise). *)
Theorem C4_routes (polygon avalanche bsc fantom : Chain.t)
    (usdc usdt : Token.t) (PRIVATE_KEYS : list string) :
  List.length (keys mode_mapping) = 12%nat /\
  NoDup (keys mode_mapping) /\
  Forall (resolves polygon avalanche bsc fantom usdc usdt PRIVATE_KEYS)
    (keys mode_mapping).
Proof.
  split; [reflexivity|]. split.
  - cbn. repeat (constructor; [cbn; intros H;
      repeat (destruct H as [H|H]; [discriminate|]); exact H|]).
    constructor.
  - cbn [keys mode_mapping map fst].
    repeat constructor.
    + apply (resolves_intro _ _ _ _ _ _ _ "pf" "polygon-fantom" Polygon Fantom);
        [reflexivity|reflexivity|discriminate|reflexivity].
    + apply (resolves_intro _ _ _ _ _ _ _ "pa" "polygon-avalanche" Polygon Avalanche);
        [reflexivity|reflexivity|discriminate|reflexivity].
    + apply (resolves_intro _ _ _ _ _ _ _ "pb" "polygon-bsc" Polygon Bsc);
        [reflexivity|reflexivity|discriminate|reflexivity].
    + apply (resolves_intro _ _ _ _ _ _ _ "fp" "fantom-polygon" Fantom Polygon);
        [reflexivity|reflexivity|discriminate|reflexivity].
    + apply (resolves_intro _ _ _ _ _ _ _ "fa" "fantom-avalanche" Fantom Avalanche);
        [reflexivity|reflexivity|discriminate|reflexivity].
    + apply (resolves_intro _ _ _ _ _ _ _ "fb" "fantom-bsc" Fantom Bsc);
        [reflexivity|reflexivity|discriminate|reflexivity].
    + apply (resolves_intro _ _ _ _ _ _ _ "ap" "avalanche-polygon" Avalanche Polygon);
        [reflexivity|reflexivity|discriminate|reflexivity].
    + apply (resolves_intro _ _ _ _ _ _ _ "af" "avalanche-fantom" Avalanche Fantom);
        [reflexivity|reflexivity|discriminate|reflexivity].
    + apply (resolves_intro _ _ _ _ _ _ _ "ab" "avalanche-bsc" Avalanche Bsc);
        [reflexivity|reflexivity|discriminate|reflexivity].
    + apply (resolves_intro _ _ _ _ _ _ _ "bp" "bsc-polygon" Bsc Polygon);
        [reflexivity|reflexivity|discriminate|reflexivity].
    + apply (resolves_intro _ _ _ _ _ _ _ "bf" "bsc-fantom" Bsc Fantom);
        [reflexivity|reflexivity|discriminate|reflexivity].
    + apply (resolves_intro _ _ _ _ _ _ _ "ba" "bsc-avalanche" Bsc Avalanche);
        [reflexivity|reflexivity|discriminate|reflexivity].
Qed.

(** ** The event loop, one turn at a time *)

Section Turns.

Variable mw : main_world.

Lemma gathering_done (pool : list slot) (rs : list (error + unit)) fuel s :
  results pool = Some rs ->
  run (answer_main mw) fuel (gathering pool) s
  = run (answer_main mw) fuel (finish rs) s.
Proof.
  intros H. unfold gathering. rewrite run_iter_bind. unfold gather_step.
  rewrite H. now rewrite run_ret_bind.
Qed.

Lemma gathering_turn (pool : list slot) fuel s :
  results pool = None ->
  run (answer_main mw) (S (List.length (fst (fst (turn mw pool s)))) + fuel)
    (gathering pool) s
  = after (fst (fst (turn mw pool s)))
      (run (answer_main mw) fuel (gathering (snd (fst (turn mw pool s))))
         (snd (turn mw pool s))).
Proof.
  intros H. unfold gathering at 1. rewrite run_iter_bind.
  unfold gather_step at 1. rewrite H. assoc. unfold turn.
  destruct (nth_error pool (w_resume mw (turns s))) as [[t|r]|] eqn:Hslot.
  - destruct (observe t) as [r|t'|T e k] eqn:Ht.
    + cbn [fst snd List.length Nat.add].
      rewrite run_trigger_bind. cbn [answer_main]. rewrite Hslot, Ht.
      rewrite run_ret_bind, run_tau_bind. reflexivity.
    + cbn [fst snd List.length Nat.add].
      rewrite run_trigger_bind. cbn [answer_main]. rewrite Hslot, Ht.
      rewrite run_ret_bind, run_tau_bind. reflexivity.
    + destruct (answer (w_task mw (w_resume mw (turns s))) T e
                  (queries s (w_resume mw (turns s)))) as [q a] eqn:Ha.
      cbn [fst snd List.length Nat.add].
      rewrite run_trigger_bind. cbn [answer_main]. rewrite Hslot, Ht.
      assoc. rewrite run_trigger_bind. cbn [answer_main queries]. rewrite Ha.
      destruct a as [err|v]; rewrite run_ret_bind, run_tau_bind; reflexivity.
  - cbn [fst snd List.length Nat.add].
    rewrite run_trigger_bind. cbn [answer_main]. rewrite Hslot.
    rewrite run_ret_bind, run_tau_bind. reflexivity.
  - cbn [fst snd List.length Nat.add].
    rewrite run_trigger_bind. cbn [answer_main]. rewrite Hslot.
    rewrite run_ret_bind, run_tau_bind. reflexivity.
Qed.

Lemma gathering_short (pool : list slot) fuel s :
  results pool = None ->
  (fuel <= List.length (fst (fst (turn mw pool s))))%nat ->
  exists s' l,
    run (answer_main mw) fuel (gathering pool) s
    = Result (firstn fuel (fst (fst (turn mw pool s)))) s' Timeout l.
Proof.
  intros H. unfold gathering. rewrite run_iter_bind.
  unfold gather_step at 1. rewrite H. assoc. unfold turn.
  destruct fuel as [|fuel];
    [intros _; rewrite run_zero_trigger_bind; eexists; eexists; reflexivity|].
  rewrite run_trigger_bind. cbn [answer_main].
  destruct (nth_error pool (w_resume mw (turns s))) as [[t|r]|] eqn:Hslot.
  - destruct (observe t) as [r|t'|T e k] eqn:Ht.
    + cbn [fst snd List.length]. intros Hf. assert (fuel = O) by lia. subst fuel.
      rewrite run_ret_bind. eexists; eexists; reflexivity.
    + cbn [fst snd List.length]. intros Hf. assert (fuel = O) by lia. subst fuel.
      rewrite run_ret_bind. eexists; eexists; reflexivity.
    + destruct (answer (w_task mw (w_resume mw (turns s))) T e
                  (queries s (w_resume mw (turns s)))) as [q a] eqn:Ha.
      cbn [fst snd List.length]. intros Hf. assoc.
      destruct fuel as [|fuel];
        [rewrite run_zero_trigger_bind; eexists; eexists; reflexivity|].
      assert (fuel = O) by lia. subst fuel.
      rewrite run_trigger_bind. cbn [answer_main queries]. rewrite Ha.
      destruct a as [err|v]; rewrite run_ret_bind; eexists; eexists; reflexivity.
  - cbn [fst snd List.length]. intros Hf. assert (fuel = O) by lia. subst fuel.
    rewrite run_ret_bind. eexists; eexists; reflexivity.
  - cbn [fst snd List.length]. intros Hf. assert (fuel = O) by lia. subst fuel.
    rewrite run_ret_bind. eexists; eexists; reflexivity.
Qed.

End Turns.

(** ** A task inside the pool and the same task alone *)


Lemma update_same {A : Type} (l : list A) (i : nat) (x y : A) :
  nth_error l i = Some y -> nth_error (update l i x) i = Some x.
Proof.
  revert i. induction l as [|z l IH]; intros [|i]; cbn; try discriminate.
  - reflexivity.
  - apply IH.
Qed.

Lemma update_other {A : Type} (l : list A) (i j : nat) (x : A) :
  i <> j -> nth_error (update l j x) i = nth_error l i.
Proof.
  revert i j. induction l as [|z l IH]; intros [|i] [|j] H; cbn;
    try reflexivity; try congruence.
  apply IH. congruence.
Qed.

Lemma project_app (i : nat) (l1 l2 : list (sigT mainE)) :
  project i (l1 ++ l2) = (project i l1 ++ project i l2)%list.
Proof. apply flat_map_app. Qed.

Section Slots.

Variable mw : main_world.

(** What a turn does to a slot is a step of the run of its task alone. *)
Lemma turn_slot (i : nat) (pool : list slot) (s : main_state) (g' : nat) :
  exists g,
    (project i (fst (fst (turn mw pool s))) ++
     slot_trace mw g' (nth_error (snd (fst (turn mw pool s))) i) i
       (snd (turn mw pool s)))%list
    = slot_trace mw g (nth_error pool i) i s /\
    (slot_ended mw g' (nth_error (snd (fst (turn mw pool s))) i) i
       (snd (turn mw pool s)) ->
     slot_ended mw g (nth_error pool i) i s).
Proof.
  unfold turn.
  destruct (nth_error pool (w_resume mw (turns s))) as [[t|r]|] eqn:Hslot;
    [|exists g'; split; [reflexivity|trivial]..].
  destruct (Nat.eq_dec i (w_resume mw (turns s))) as [Hi|Hi].
  - subst i. rewrite Hslot.
    destruct (observe t) as [r|t'|T e k] eqn:Ht; cbn [fst snd].
    + exists O. rewrite (update_same _ _ _ _ Hslot).
      unfold slot_trace, slot_ended, slot_run. rewrite run_unfold, Ht.
      split; [reflexivity|intros _; discriminate].
    + exists (S g'). rewrite (update_same _ _ _ _ Hslot).
      unfold slot_trace, slot_ended, slot_run. cbn [queries].
      rewrite (run_unfold _ (S g') t), Ht.
      split; [reflexivity|trivial].
    + destruct (answer (w_task mw (w_resume mw (turns s))) T e
                  (queries s (w_resume mw (turns s)))) as [q a] eqn:Ha.
      cbn [fst snd]. rewrite (update_same _ _ _ _ Hslot).
      unfold slot_trace, slot_ended, slot_run, project.
      cbn [flat_map of_task occ app]. rewrite Nat.eqb_refl.
      exists (S g'). rewrite (run_unfold _ (S g') t), Ht, Ha.
      destruct a as [err|v].
      * split; [reflexivity|intros _; discriminate].
      * cbn [set_queries queries]. rewrite Nat.eqb_refl.
        split; [reflexivity|trivial].
  - exists g'.
    destruct (observe t) as [r|t'|T e k] eqn:Ht; cbn [fst snd].
    + rewrite (update_other _ _ _ _ Hi). split; [reflexivity|trivial].
    + rewrite (update_other _ _ _ _ Hi). split; [reflexivity|trivial].
    + destruct (answer (w_task mw (w_resume mw (turns s))) T e
                  (queries s (w_resume mw (turns s)))) as [q a] eqn:Ha.
      cbn [fst snd]. rewrite (update_other _ _ _ _ Hi).
      unfold slot_trace, slot_ended, slot_run, project.
      cbn [flat_map of_task occ app set_queries queries].
      assert (Hji : Nat.eqb (w_resume mw (turns s)) i = false)
        by (apply Nat.eqb_neq; congruence).
      assert (Hij : Nat.eqb i (w_resume mw (turns s)) = false)
        by (apply Nat.eqb_neq; congruence).
      rewrite Hji, Hij. split; [reflexivity|trivial].
Qed.

End Slots.

(** ** What [gather] lets happen *)

Section Gathering.

Variable mw : main_world.

Lemma turn_events (pool : list slot) (s : main_state) :
  fst (fst (turn mw pool s)) = [occ (resume (List.length pool))] \/
  exists (j : nat) (T : Type) (e : taskE T),
    fst (fst (turn mw pool s))
    = [occ (resume (List.length pool)); occ (in_task j e)].
Proof.
  unfold turn.
  destruct (nth_error pool (w_resume mw (turns s))) as [[t|r]|];
    [|now left..].
  destruct (observe t) as [r|t'|T e k]; [now left..|].
  destruct (answer (w_task mw (w_resume mw (turns s))) T e
              (queries s (w_resume mw (turns s)))) as [q a].
  right. now exists (w_resume mw (turns s)), T, e.
Qed.

Lemma turn_events_quiet (pool : list slot) (s : main_state) (n : nat) :
  count is_finished_record (firstn n (fst (fst (turn mw pool s)))) = O.
Proof.
  destruct (turn_events pool s) as [H|[j [T [e H]]]]; rewrite H;
    destruct n as [|[|[|n]]]; reflexivity.
Qed.

Lemma run_zero_trace {E : Type -> Type} {St X R : Type}
    (h : forall T, E T -> St -> St * (X + T)) (t : itree E R) (s : St) :
  trace (run h 0 t s) = [].
Proof. rewrite run_unfold. now destruct (observe t). Qed.

Lemma results_no_pending (pool : list slot) (rs : list (error + unit)) :
  results pool = Some rs ->
  forall i t, nth_error pool i <> Some (Pending t).
Proof.
  revert rs. induction pool as [|[t0|r0] pool IH]; intros rs H i t.
  - now destruct i.
  - discriminate.
  - cbn in H. destruct (results pool) as [rs'|] eqn:Hr; [|discriminate].
    destruct i as [|i]; [discriminate|]. cbn. now apply (IH rs').
Qed.

(** No exception leaves [gather], and the final record is written exactly
    when the run returns. *)
Lemma gathering_outcome :
  forall fuel pool s,
    (forall x, out (run (answer_main mw) fuel (gathering pool) s) <> Raised x) /\
    count is_finished_record
      (trace (run (answer_main mw) fuel (gathering pool) s))
    = match out (run (answer_main mw) fuel (gathering pool) s) with
      | Returned _ => 1%nat
      | _ => O
      end /\
    (out (run (answer_main mw) fuel (gathering pool) s) <> Timeout ->
     exists before,
       trace (run (answer_main mw) fuel (gathering pool) s)
       = (before ++ [occ (main_logger SUCCESS "*** FINISHED ***")])%list).
Proof.
  induction fuel as [fuel IH] using lt_wf_ind. intros pool s.
  destruct (results pool) as [rs|] eqn:Hr.
  - rewrite (gathering_done mw pool rs fuel s Hr). unfold finish.
    destruct fuel as [|fuel].
    + rewrite run_unfold. cbn. repeat split; try discriminate. congruence.
    + rewrite run_trigger. cbn [answer_main]. cbn.
      repeat split; try discriminate. intros _. now exists [].
  - destruct (Nat.le_gt_cases fuel (List.length (fst (fst (turn mw pool s)))))
      as [Hshort|Hlong].
    + destruct (gathering_short mw pool fuel s Hr Hshort) as [s' [l Hrun]].
      rewrite Hrun. cbn [out trace]. rewrite turn_events_quiet.
      repeat split; try discriminate. congruence.
    + replace fuel
        with (S (List.length (fst (fst (turn mw pool s))))
              + (fuel - S (List.length (fst (fst (turn mw pool s))))))%nat
        by lia.
      rewrite (gathering_turn mw pool _ s Hr).
      destruct (IH (fuel - S (List.length (fst (fst (turn mw pool s)))))%nat
                  ltac:(lia) (snd (fst (turn mw pool s))) (snd (turn mw pool s)))
        as [Hx [Hcount Hlast]].
      unfold after. cbn [out trace]. repeat split.
      * exact Hx.
      * rewrite count_app, Hcount.
        rewrite <- (firstn_all (fst (fst (turn mw pool s)))) at 1.
        now rewrite turn_events_quiet.
      * intros Hout. destruct (Hlast Hout) as [before Hb].
        exists (fst (fst (turn mw pool s)) ++ before)%list.
        now rewrite Hb, app_assoc.
Qed.

(** Inside [gather] a task performs what it performs alone, whatever the
    other tasks do; and when [gather] is over the task has ended. *)
Lemma gathering_alone (i : nat) :
  forall fuel pool s,
    exists g,
      project i (trace (run (answer_main mw) fuel (gathering pool) s))
      = slot_trace mw g (nth_error pool i) i s /\
      (out (run (answer_main mw) fuel (gathering pool) s) <> Timeout ->
       slot_ended mw g (nth_error pool i) i s).
Proof.
  induction fuel as [fuel IH] using lt_wf_ind. intros pool s.
  destruct (results pool) as [rs|] eqn:Hr.
  - exists O. rewrite (gathering_done mw pool rs fuel s Hr). unfold finish.
    pose proof (results_no_pending pool rs Hr i) as Hnone.
    assert (Hslot : slot_run mw 0 (nth_error pool i) i s = None).
    { unfold slot_run. destruct (nth_error pool i) as [[t|r]|]; trivial.
      now destruct (Hnone t). }
    unfold slot_trace, slot_ended. rewrite Hslot.
    destruct fuel as [|fuel].
    + rewrite run_unfold. cbn. split; trivial.
    + rewrite run_trigger. cbn [answer_main]. cbn. split; trivial.
  - destruct (Nat.le_gt_cases fuel (List.length (fst (fst (turn mw pool s)))))
      as [Hshort|Hlong].
    + destruct (gathering_short mw pool fuel s Hr Hshort) as [s' [l Hrun]].
      rewrite Hrun. cbn [out trace].
      destruct (Nat.eq_dec fuel (List.length (fst (fst (turn mw pool s)))))
        as [Hall|Hless].
      * destruct (turn_slot mw i pool s O) as [g [Hg _]].
        exists g. split; [|congruence].
        rewrite Hall, firstn_all, <- Hg.
        unfold slot_trace at 1, slot_run.
        destruct (nth_error (snd (fst (turn mw pool s))) i) as [[t|r]|];
          rewrite ?run_zero_trace; now rewrite app_nil_r.
      * exists O. split; [|congruence].
        assert (Hquiet : project i (firstn fuel (fst (fst (turn mw pool s)))) = []).
        { destruct (turn_events pool s) as [H|[j [T [e H]]]]; rewrite H in *;
            cbn [List.length] in *; destruct fuel as [|[|fuel]];
            try reflexivity; lia. }
        rewrite Hquiet. unfold slot_trace, slot_run.
        destruct (nth_error pool i) as [[t|r]|]; rewrite ?run_zero_trace;
          reflexivity.
    + replace fuel
        with (S (List.length (fst (fst (turn mw pool s))))
              + (fuel - S (List.length (fst (fst (turn mw pool s))))))%nat
        by lia.
      rewrite (gathering_turn mw pool _ s Hr).
      destruct (IH (fuel - S (List.length (fst (fst (turn mw pool s)))))%nat
                  ltac:(lia) (snd (fst (turn mw pool s))) (snd (turn mw pool s)))
        as [g' [Hg' He']].
      destruct (turn_slot mw i pool s g') as [g [Hg He]].
      exists g. unfold after. cbn [out trace]. split.
      * now rewrite project_app, Hg'.
      * intros Hout. apply He, He', Hout.
Qed.

End Gathering.

(** ** [gather] is over once every task has ended *)

Section Liveness.

Variable mw : main_world.








End Liveness.

Section Progress.

Variable mw : main_world.



End Progress.

Section Fairness.

Variable mw : main_world.


End Fairness.

Section Returns.

Variable mw : main_world.




End Returns.

(** ** Failures of wallet tasks *)

Lemma is_a_choice (value : string) (choices : list string) :
  In value choices -> existsb (String.eqb value) choices = true.
Proof.
  intros H. apply existsb_exists. exists value. split; [exact H|].
  apply String.eqb_refl.
Qed.

Lemma getitem_key {B : Type} (d : list (string * B)) (key : string) (v : B) :
  getitem d key = Some v -> In key (keys d).
Proof.
  induction d as [|[k x] d IH]; [discriminate|].
  cbn [getitem keys map fst]. destruct (String.eqb k key) eqn:Hk.
  - intros _. left. now apply String.eqb_eq.
  - intros H. right. now apply IH.
Qed.

Lemma pool_of_nth (AMOUNT_TO_SWAP : Q) (tasks : list Args.t) (i : nat) :
  nth_error (pool_of AMOUNT_TO_SWAP tasks) i
  = match nth_error tasks i with
    | Some c => Some (Pending (chain_to_chain AMOUNT_TO_SWAP c))
    | None => None
    end.
Proof.
  unfold pool_of. rewrite !nth_error_map. now destruct (nth_error tasks i).
Qed.


Section MainRun.

Variables polygon avalanche bsc fantom : Chain.t.
Variables usdc usdt : Token.t.
Variable PRIVATE_KEYS : list string.
Variable AMOUNT_TO_SWAP : Q.
Variable mw : main_world.

(** With a known mode, [main] writes its first record and waits for
    [gather]. *)
Lemma main_run (key name : string) (fuel : nat) :
  getitem mode_mapping key = Some name ->
  run_main polygon avalanche bsc fantom usdc usdt PRIVATE_KEYS AMOUNT_TO_SWAP
    mw (S fuel) (Some key)
  = after [occ (main_logger INFO ("Bridging " ++ name ++ "."))]
      (run (answer_main mw) fuel
         (gathering
            (pool_of AMOUNT_TO_SWAP
               (build_tasks polygon avalanche bsc fantom usdc usdt PRIVATE_KEYS
                  name)))
         initial).
Proof.
  intros Hmode. unfold run_main, main, parse_args.
  rewrite (is_a_choice key _ (getitem_key _ _ _ Hmode)).
  rewrite run_ret_bind. cbn [mode]. rewrite Hmode.
  rewrite run_trigger_bind. cbn [answer_main]. reflexivity.
Qed.

End MainRun.


(** Three wallets, the second of which fails at the submission while the
    other two succeed: the run of [main] returns and the final record is
    written once; each task has called [send_token_chain_to_chain] once, the
    first and the third have written their two success records and the
    second none; run alone, the second task raises. *)
Example three_wallets_second_fails :
  out (Sample.run_main Sample.three 400 (Some "pf")) = Returned tt /\
  count is_finished_record (trace (Sample.run_main Sample.three 400 (Some "pf")))
  = 1%nat /\
  map (fun i => count is_send
                  (project i (trace (Sample.run_main Sample.three 400 (Some "pf")))))
    [O; 1%nat; 2%nat]
  = [1%nat; 1%nat; 1%nat] /\
  map (fun i => count is_report
                  (project i (trace (Sample.run_main Sample.three 400 (Some "pf")))))
    [O; 1%nat; 2%nat]
  = [2%nat; O; 2%nat] /\
  map (fun c => out (run_task Sample.AMOUNT_TO_SWAP Sample.failing_send 100 c))
    (firstn 1 (skipn 1 (Sample.tasks "polygon-fantom")))
  = [Raised (Error "revert")] /\
  map (fun c => out (run_task Sample.AMOUNT_TO_SWAP (Sample.funded_at 0) 100 c))
    (Sample.tasks "polygon-fantom")
  = [Returned tt; Returned tt; Returned tt].
Proof. repeat split; vm_compute; reflexivity. Qed.

(** * Further properties *)

(** ** How a wallet task ends *)

Section TaskOutcome.

Variable AMOUNT_TO_SWAP : Q.
Variable w : world.
Variable c : Args.t.

Lemma submit_ends_as (address : string) (amount_to_swap min_amount : Z) :
  forall fuel q,
    (6 <= fuel)%nat ->
    out (run (answer w) fuel (submit c address amount_to_swap min_amount) q)
    = submit_outcome w c address amount_to_swap min_amount.
Proof.
  intros fuel q Hf. unfold submit, submit_outcome.
  call_with fuel. destruct (w_decimals w) as [err|decimals]; [reflexivity|].
  cbn [out].
  call_with fuel. destruct (w_divide w amount_to_swap decimals) as [err|shown];
    [reflexivity|].
  cbn [out].
  call_with fuel.
  call_with fuel.
  destruct (w_send w (bridge_request c address amount_to_swap min_amount))
    as [err|hash]; [reflexivity|].
  cbn [out].
  call_with fuel.
  destruct fuel as [|fuel]; [exfalso; lia|].
  rewrite run_trigger; cbn [answer out]. reflexivity.
Qed.

Lemma wait_ends_as (address : string) (amount_to_swap min_amount : Z) :
  forall n q balance fuel,
    truthy balance = false ->
    stops_at w q n ->
    (4 * n + 10 <= fuel)%nat ->
    out (run (answer w) fuel
           (waiting c address amount_to_swap min_amount balance (Z.of_nat q)) q)
    = wait_outcome w c address amount_to_swap min_amount (q + n).
Proof.
  induction n as [|n IH]; intros q balance fuel Hv Hstop Hf; unfold waiting;
    rewrite run_iter_bind; unfold wait_step; rewrite Hv; cbn [negb]; assoc;
    call_with fuel; assoc.
  - assert (Hquery : forall fuel', (8 <= fuel')%nat ->
      out (run (answer w) fuel'
             (ITree.bind
                (ITree.trigger (is_balance_updated address (Args.token c)
                                  (Args.token_from_chain_contract c)))
                (fun x =>
                   ITree.bind (Ret (inl (x, Z.of_nat q + 1)))
                     (fun lr : pyval * Z + unit =>
                        match lr with
                        | inl l =>
                            ITree.bind
                              (Tau (ITree.iter
                                      (wait_step address (Args.from_chain_name c)
                                         (Args.token c)
                                         (Args.token_from_chain_contract c)) l))
                              (fun _ => submit c address amount_to_swap min_amount)
                        | inr _ => submit c address amount_to_swap min_amount
                        end))) q)
      = wait_outcome w c address amount_to_swap min_amount (q + 0)).
    { intros fuel' Hf'. call_with fuel'. unfold wait_outcome.
      destruct Hstop as [_ Hstop]. rewrite Nat.add_0_r in *.
      destruct (w_balance w q) as [err|v]; [reflexivity|].
      cbn [out]. rewrite run_ret_bind.
      destruct fuel' as [|fuel']; [exfalso; lia|].
      rewrite run_tau_bind.
      fold (waiting c address amount_to_swap min_amount v (Z.of_nat q + 1)).
      rewrite waiting_ready by (now apply Hstop).
      apply submit_ends_as. lia. }
    destruct (Z.of_nat q mod 3 =? 0).
    + call_with fuel. assoc. apply Hquery. lia.
    + rewrite run_ret_bind. assoc. apply Hquery. lia.
  - assert (Hquery : forall fuel', (4 * n + 12 <= fuel')%nat ->
      out (run (answer w) fuel'
             (ITree.bind
                (ITree.trigger (is_balance_updated address (Args.token c)
                                  (Args.token_from_chain_contract c)))
                (fun x =>
                   ITree.bind (Ret (inl (x, Z.of_nat q + 1)))
                     (fun lr : pyval * Z + unit =>
                        match lr with
                        | inl l =>
                            ITree.bind
                              (Tau (ITree.iter
                                      (wait_step address (Args.from_chain_name c)
                                         (Args.token c)
                                         (Args.token_from_chain_contract c)) l))
                              (fun _ => submit c address amount_to_swap min_amount)
                        | inr _ => submit c address amount_to_swap min_amount
                        end))) q)
      = wait_outcome w c address amount_to_swap min_amount (q + S n)).
    { intros fuel' Hf'. call_with fuel'.
      destruct (proj1 Hstop O) as [v [Hq Hfalse]]; [lia|].
      rewrite Nat.add_0_r in Hq. rewrite Hq.
      cbn [out]. rewrite run_ret_bind.
      destruct fuel' as [|fuel']; [exfalso; lia|].
      rewrite run_tau_bind.
      replace (Z.of_nat q + 1) with (Z.of_nat (S q)) by lia.
      fold (waiting c address amount_to_swap min_amount v (Z.of_nat (S q))).
      rewrite <- Nat.add_succ_comm.
      apply IH; [exact Hfalse| |lia].
      now apply stops_at_next. }
    destruct (Z.of_nat q mod 3 =? 0).
    + call_with fuel. assoc. apply Hquery. lia.
    + rewrite run_ret_bind. assoc. apply Hquery. lia.
Qed.

Lemma delay_ends_as (address : string) (amount_to_swap min_amount : Z) :
  forall n fuel,
    stops_at w O n ->
    (4 * n + 414 <= fuel)%nat ->
    out (run (answer w) fuel
           (delay_wait_and_submit c address amount_to_swap min_amount) O)
    = wait_outcome w c address amount_to_swap min_amount n.
Proof.
  intros n fuel Hstop Hf. unfold delay_wait_and_submit.
  call_with fuel. rewrite randint_1_200. fold (start_delay_of w). cbn [out].
  call_with fuel. call_with fuel.
  pose proof (start_delay_range w) as Hd.
  assert (Hlen : (List.length (range (start_delay_of w)) <= 200)%nat)
    by (rewrite range_length; lia).
  revert Hlen. generalize (range (start_delay_of w)) as l.
  intros l Hlen.
  assert (Hgo : (2 * List.length l + 4 * n + 11 <= fuel)%nat) by lia.
  clear Hf Hlen. revert fuel Hgo.
  induction l as [|x l IH]; intros fuel Hgo; cbn [for_each List.length] in *.
  - rewrite run_ret_bind. call_with fuel.
    apply (wait_ends_as address amount_to_swap min_amount n O PyNone);
      [reflexivity|exact Hstop|lia].
  - repeat assoc. call_with fuel. call_with fuel. apply IH. lia.
Qed.

(** With enough fuel a wallet task ends as it is due to. *)
Lemma task_ends_as :
  forall n fuel,
    stops_at w O n ->
    (4 * n + 416 <= fuel)%nat ->
    out (run_task AMOUNT_TO_SWAP w fuel c) = task_outcome w c n.
Proof.
  intros n fuel Hstop Hf. unfold run_task, chain_to_chain, task_outcome.
  call_with fuel. destruct (w_address w (Args.wallet c)) as [err|address];
    [reflexivity|].
  cbn [out].
  call_with fuel. destruct (w_amounts w) as [err|[amount_to_swap min_amount]];
    [reflexivity|].
  cbn [out]. apply (delay_ends_as address amount_to_swap min_amount n);
    [exact Hstop|lia].
Qed.

(** The events of a run that has ended are the due ones. *)
Lemma task_trace (fuel : nat) :
  out (run_task AMOUNT_TO_SWAP w fuel c) <> Timeout ->
  trace (run_task AMOUNT_TO_SWAP w fuel c) = task_events AMOUNT_TO_SWAP w c fuel.
Proof.
  apply follows_ended, task_follows, Nat.le_refl.
Qed.

End TaskOutcome.

(** ** Events that a part of a task does not contain *)

Lemma count_none {A : Type} (p : A -> bool) (l : list A) :
  (forall x, In x l -> p x = false) -> count p l = O.
Proof.
  unfold count. induction l as [|y l IH]; intros H; [reflexivity|].
  cbn. rewrite (H y (or_introl eq_refl)). apply IH. intros x Hx. apply H. now right.
Qed.

Lemma delay_events_none (p : sigT taskE -> bool) (w : world) (address : string) :
  p (occ (random_randint 1 200)) = false ->
  (forall msg, p (occ (logger INFO msg)) = false) ->
  (forall total desc bar_format, p (occ (tqdm_enter total desc bar_format)) = false) ->
  p (occ (asyncio_sleep 1)) = false ->
  p (occ (pbar_update 1)) = false ->
  p (occ tqdm_exit) = false ->
  count p (delay_events w address) = O.
Proof.
  intros H1 H2 H3 H4 H5 H6. unfold delay_events.
  rewrite !count_cons, count_app, count_cons, delay_sleeps_count by assumption.
  now rewrite H1, H2, H3, H6.
Qed.

Lemma poll_events_none (p : sigT taskE -> bool) (c : Args.t) (address : string)
    (q : nat) :
  p (occ (asyncio_sleep 30)) = false ->
  (forall msg, p (occ (logger INFO msg)) = false) ->
  (forall a t ct, p (occ (is_balance_updated a t ct)) = false) ->
  count p (poll_events c address q) = O.
Proof.
  intros H1 H2 H3. unfold poll_events.
  destruct (Z.of_nat q mod 3 =? 0); cbn [app]; rewrite !count_cons;
    now rewrite H1, ?H2, H3.
Qed.

Lemma polls_none (p : sigT taskE -> bool) (c : Args.t) (address : string)
    (q n : nat) :
  p (occ (asyncio_sleep 30)) = false ->
  (forall msg, p (occ (logger INFO msg)) = false) ->
  (forall a t ct, p (occ (is_balance_updated a t ct)) = false) ->
  count p (polls c address q n) = O.
Proof.
  intros H1 H2 H3. unfold polls. revert q.
  induction n as [|n IH]; intros q; [reflexivity|].
  cbn [seq map List.concat]. now rewrite count_app, poll_events_none, IH.
Qed.

(** The polls up to the one of index [q + n]. *)
Lemma polls_last (c : Args.t) (address : string) (q n : nat) :
  polls c address q (S n) = (polls c address q n ++ poll_events c address (q + n))%list.
Proof.
  unfold polls. rewrite seq_S, map_app, concat_app. cbn [map List.concat].
  now rewrite app_nil_r.
Qed.

Lemma poll_events_last (c : Args.t) (address : string) (q : nat) :
  exists pre,
    poll_events c address q
    = (pre ++ [occ (is_balance_updated address (Args.token c)
                      (Args.token_from_chain_contract c))])%list /\
    count is_query pre = O.
Proof.
  unfold poll_events. destruct (Z.of_nat q mod 3 =? 0).
  - eexists [_; _]. split; reflexivity.
  - eexists [_]. split; reflexivity.
Qed.

(** What a wallet task is due to perform when the query of index [n] is
    the first that does not return a falsy value, and raises. *)
Lemma task_events_raised (AMOUNT_TO_SWAP : Q) (w : world) (c : Args.t)
    (n k : nat) (address : string) (amount_to_swap min_amount : Z) (err : error) :
  w_address w (Args.wallet c) = inr address ->
  w_amounts w = inr (amount_to_swap, min_amount) ->
  (forall i, (i < n)%nat -> exists v, w_balance w i = inr v /\ truthy v = false) ->
  w_balance w n = inl err ->
  (n < k)%nat ->
  task_events AMOUNT_TO_SWAP w c k =
  (occ (wallet_public_address (Args.wallet c)) ::
   occ (get_correct_amount_and_min_amount (Args.token_from_chain_contract c)
          AMOUNT_TO_SWAP) ::
   delay_events w address ++ polls c address O (S n))%list.
Proof.
  intros Ha Hm Hfalse Hn Hk. unfold task_events. rewrite Ha, Hm.
  do 3 f_equal.
  rewrite (wait_events_unseen w c address amount_to_swap min_amount n k O)
    by (trivial; lia).
  destruct (k - n)%nat as [|k'] eqn:Hkn; [lia|].
  cbn [wait_events Nat.add]. rewrite Hn, app_nil_r. now rewrite polls_last.
Qed.

(** ** A failure before the startup delay *)

(** X1.  If [wallet_public_address] raises, or it returns and
    [get_correct_amount_and_min_amount] raises, the wallet task ends at once
    with that exception: the run consists of these calls only, so that no
    delay is drawn, nothing is slept or logged, and no balance query and no
    submission are made. *)
Theorem X1_failure_before_the_delay (AMOUNT_TO_SWAP : Q) (w : world) (c : Args.t)
    (err : error) :
  w_address w (Args.wallet c) = inl err \/
  (exists address,
     w_address w (Args.wallet c) = inr address /\ w_amounts w = inl err) ->
  forall fuel,
    (2 <= fuel)%nat ->
    out (run_task AMOUNT_TO_SWAP w fuel c) = Raised err /\
    prefix (trace (run_task AMOUNT_TO_SWAP w fuel c))
      [occ (wallet_public_address (Args.wallet c));
       occ (get_correct_amount_and_min_amount (Args.token_from_chain_contract c)
              AMOUNT_TO_SWAP)] /\
    total_sleep (trace (run_task AMOUNT_TO_SWAP w fuel c)) = 0.
Proof.
  intros H fuel Hf. unfold run_task, chain_to_chain.
  call_with fuel. destruct H as [Ha|[address [Ha Hm]]]; rewrite Ha.
  - cbn [out trace]. repeat split. now exists [occ
      (get_correct_amount_and_min_amount (Args.token_from_chain_contract c)
         AMOUNT_TO_SWAP)].
  - call_with fuel. rewrite Hm. cbn [out trace]. repeat split. apply prefix_refl.
Qed.

(** X1 at a wallet whose key is refused. *)
Lemma X1_failure_before_the_delay_witness :
  out (run_task Sample.AMOUNT_TO_SWAP Cases.bad_key 2 Sample.args)
  = Raised (Error "invalid key") /\
  prefix (trace (run_task Sample.AMOUNT_TO_SWAP Cases.bad_key 2 Sample.args))
    [occ (wallet_public_address (Args.wallet Sample.args));
     occ (get_correct_amount_and_min_amount
            (Args.token_from_chain_contract Sample.args) Sample.AMOUNT_TO_SWAP)] /\
  total_sleep (trace (run_task Sample.AMOUNT_TO_SWAP Cases.bad_key 2 Sample.args))
  = 0.
Proof.
  apply (X1_failure_before_the_delay Sample.AMOUNT_TO_SWAP Cases.bad_key
           Sample.args (Error "invalid key")).
  - left. reflexivity.
  - lia.
Defined.

(** ** A failure of a balance query *)

(** X2.  If the balance query returns a falsy value on its first [n] calls
    and raises on the next one, the wallet task ends with that exception
    (nothing in the loop catches it or tries again): the run has made
    [n + 1] balance queries, the last event being the one that raised, and
    neither reads the decimals of the token nor submits anything. *)
Theorem X2_failed_query_ends_the_task (AMOUNT_TO_SWAP : Q) (w : world)
    (c : Args.t) (n : nat) (address : string) (amount_to_swap min_amount : Z)
    (err : error) :
  w_address w (Args.wallet c) = inr address ->
  w_amounts w = inr (amount_to_swap, min_amount) ->
  (forall i, (i < n)%nat -> exists v, w_balance w i = inr v /\ truthy v = false) ->
  w_balance w n = inl err ->
  forall fuel,
    (4 * n + 416 <= fuel)%nat ->
    out (run_task AMOUNT_TO_SWAP w fuel c) = Raised err /\
    count is_query (trace (run_task AMOUNT_TO_SWAP w fuel c)) = S n /\
    count is_decimals (trace (run_task AMOUNT_TO_SWAP w fuel c)) = O /\
    count is_send (trace (run_task AMOUNT_TO_SWAP w fuel c)) = O /\
    exists pre,
      trace (run_task AMOUNT_TO_SWAP w fuel c)
      = (pre ++ [occ (is_balance_updated address (Args.token c)
                        (Args.token_from_chain_contract c))])%list.
Proof.
  intros Ha Hm Hfalse Hn fuel Hf.
  assert (Hstop : stops_at w O n).
  { split; [exact Hfalse|]. cbn. intros v Hv. congruence. }
  pose proof (task_ends_as AMOUNT_TO_SWAP w c n fuel Hstop Hf) as Hout.
  unfold task_outcome, wait_outcome in Hout. rewrite Ha, Hm, Hn in Hout.
  split; [exact Hout|].
  rewrite (task_trace AMOUNT_TO_SWAP w c fuel) by congruence.
  rewrite (task_events_raised AMOUNT_TO_SWAP w c n fuel address amount_to_swap
             min_amount err) by (trivial; lia).
  split; [|split; [|split]].
  - rewrite !count_cons, count_app, delay_queries, polls_queries. reflexivity.
  - rewrite !count_cons, count_app, delay_events_none, polls_none;
      try reflexivity; intros; reflexivity.
  - rewrite !count_cons, count_app, delay_sends, polls_sends. reflexivity.
  - rewrite polls_last. cbn [Nat.add].
    destruct (poll_events_last c address n) as [pre [Hpre _]]. rewrite Hpre.
    exists (occ (wallet_public_address (Args.wallet c)) ::
            occ (get_correct_amount_and_min_amount
                   (Args.token_from_chain_contract c) AMOUNT_TO_SWAP) ::
            delay_events w address ++ polls c address O n ++ pre)%list.
    cbn [app]. rewrite <- !app_assoc. reflexivity.
Qed.

(** X2 at a wallet whose third balance query raises. *)
Lemma X2_failed_query_ends_the_task_witness :
  out (run_task Sample.AMOUNT_TO_SWAP (Cases.failing_query 2) 424 Sample.args)
  = Raised (Error "rpc") /\
  count is_query
    (trace (run_task Sample.AMOUNT_TO_SWAP (Cases.failing_query 2) 424 Sample.args))
  = 3%nat /\
  count is_decimals
    (trace (run_task Sample.AMOUNT_TO_SWAP (Cases.failing_query 2) 424 Sample.args))
  = O /\
  count is_send
    (trace (run_task Sample.AMOUNT_TO_SWAP (Cases.failing_query 2) 424 Sample.args))
  = O /\
  exists pre,
    trace (run_task Sample.AMOUNT_TO_SWAP (Cases.failing_query 2) 424 Sample.args)
    = (pre ++ [occ (is_balance_updated "0xkey1" (Args.token Sample.args)
                      (Args.token_from_chain_contract Sample.args))])%list.
Proof.
  apply (X2_failed_query_ends_the_task Sample.AMOUNT_TO_SWAP
           (Cases.failing_query 2) Sample.args 2 "0xkey1" 10000000 9950000
           (Error "rpc")).
  - reflexivity.
  - reflexivity.
  - intros i Hi. exists (PyInt 0).
    destruct i as [|[|i]]; [split; reflexivity..|lia].
  - reflexivity.
  - lia.
Defined.

(** ** After the loop *)

Section AfterTheLoop.

Variable AMOUNT_TO_SWAP : Q.
Variable w : world.
Variable c : Args.t.
Variable n : nat.
Variable address : string.
Variables amount_to_swap min_amount : Z.

Hypothesis Haddress : w_address w (Args.wallet c) = inr address.
Hypothesis Hamounts : w_amounts w = inr (amount_to_swap, min_amount).
Hypothesis Hfalse :
  forall i, (i < n)%nat -> exists v, w_balance w i = inr v /\ truthy v = false.
Hypothesis Htrue : exists v, w_balance w n = inr v /\ truthy v = true.

(** The run of a task whose balance is seen on the query of index [n]. *)
Lemma seen_run (fuel : nat) :
  (4 * n + 416 <= fuel)%nat ->
  out (run_task AMOUNT_TO_SWAP w fuel c)
  = submit_outcome w c address amount_to_swap min_amount /\
  trace (run_task AMOUNT_TO_SWAP w fuel c)
  = ((occ (wallet_public_address (Args.wallet c)) ::
      occ (get_correct_amount_and_min_amount (Args.token_from_chain_contract c)
             AMOUNT_TO_SWAP) ::
      delay_events w address ++ polls c address O (S n)) ++
     submit_events w c address amount_to_swap min_amount)%list.
Proof.
  intros Hf.
  pose proof (task_ends AMOUNT_TO_SWAP w c n fuel
                (stops_at_seen w n Hfalse Htrue) Hf) as Hends.
  pose proof (task_ends_as AMOUNT_TO_SWAP w c n fuel
                (stops_at_seen w n Hfalse Htrue) Hf) as Hout.
  unfold task_outcome, wait_outcome in Hout. rewrite Haddress, Hamounts in Hout.
  destruct Htrue as [v [Hv Hv']]. rewrite Hv in Hout.
  split; [exact Hout|].
  rewrite (task_trace AMOUNT_TO_SWAP w c fuel Hends).
  rewrite (task_events_seen AMOUNT_TO_SWAP w c n fuel address amount_to_swap
             min_amount Haddress Hamounts Hfalse (ex_intro _ v (conj Hv Hv'))
             ltac:(lia)).
  cbn [app]. now rewrite <- app_assoc.
Qed.

(** What precedes the events of lines 76 to 111 has no submission and no
    success record. *)
Lemma before_submit_quiet :
  count is_send
    (occ (wallet_public_address (Args.wallet c)) ::
     occ (get_correct_amount_and_min_amount (Args.token_from_chain_contract c)
            AMOUNT_TO_SWAP) ::
     delay_events w address ++ polls c address O (S n))%list = O /\
  count is_report
    (occ (wallet_public_address (Args.wallet c)) ::
     occ (get_correct_amount_and_min_amount (Args.token_from_chain_contract c)
            AMOUNT_TO_SWAP) ::
     delay_events w address ++ polls c address O (S n))%list = O.
Proof.
  split.
  - rewrite !count_cons, count_app, delay_sends, polls_sends. reflexivity.
  - rewrite !count_cons, count_app, delay_events_none, polls_none;
      try reflexivity; intros; reflexivity.
Qed.

End AfterTheLoop.

(** X3.  If, once the balance is seen, the decimals of the token cannot be
    read, or the amount cannot be divided by the power of ten, the wallet
    task ends with that exception while it builds the BRIDGING record, and
    the bridge transaction is never submitted. *)
Theorem X3_no_record_no_submission (AMOUNT_TO_SWAP : Q) (w : world) (c : Args.t)
    (n : nat) (address : string) (amount_to_swap min_amount : Z) (err : error) :
  w_address w (Args.wallet c) = inr address ->
  w_amounts w = inr (amount_to_swap, min_amount) ->
  (forall i, (i < n)%nat -> exists v, w_balance w i = inr v /\ truthy v = false) ->
  (exists v, w_balance w n = inr v /\ truthy v = true) ->
  w_decimals w = inl err \/
  (exists decimals,
     w_decimals w = inr decimals /\
     w_divide w amount_to_swap decimals = inl err) ->
  forall fuel,
    (4 * n + 416 <= fuel)%nat ->
    out (run_task AMOUNT_TO_SWAP w fuel c) = Raised err /\
    count is_query (trace (run_task AMOUNT_TO_SWAP w fuel c)) = S n /\
    count is_send (trace (run_task AMOUNT_TO_SWAP w fuel c)) = O.
Proof.
  intros Ha Hm Hfalse Htrue Hfail fuel Hf.
  destruct (seen_run AMOUNT_TO_SWAP w c n address amount_to_swap min_amount
              Ha Hm Hfalse Htrue fuel Hf) as [Hout Htrace].
  destruct (before_submit_quiet AMOUNT_TO_SWAP w c n address) as [Hsend _].
  rewrite Hout, Htrace, !(count_app _ (_ :: _)), Hsend.
  rewrite !count_cons, count_app, delay_queries, polls_queries.
  unfold submit_outcome, submit_events.
  destruct Hfail as [Hd|[decimals [Hd Hs]]]; rewrite Hd, ?Hs;
    (split; [reflexivity|split; [cbn; lia|reflexivity]]).
Qed.

(** X3 at a wallet whose token does not give its decimals. *)
Lemma X3_no_record_no_submission_witness :
  out (run_task Sample.AMOUNT_TO_SWAP Cases.no_decimals 416 Sample.args)
  = Raised (Error "decimals") /\
  count is_query
    (trace (run_task Sample.AMOUNT_TO_SWAP Cases.no_decimals 416 Sample.args))
  = 1%nat /\
  count is_send
    (trace (run_task Sample.AMOUNT_TO_SWAP Cases.no_decimals 416 Sample.args))
  = O.
Proof.
  apply (X3_no_record_no_submission Sample.AMOUNT_TO_SWAP Cases.no_decimals
           Sample.args 0 "0xkey1" 10000000 9950000 (Error "decimals")).
  - reflexivity.
  - reflexivity.
  - intros i Hi. lia.
  - exists (PyBool true). split; reflexivity.
  - left. reflexivity.
  - lia.
Defined.

(** X4.  If [send_token_chain_to_chain] raises, the wallet task ends with
    that exception right after the one call it made: nothing is submitted
    again and no success record is written. *)
Theorem X4_failed_submission (AMOUNT_TO_SWAP : Q) (w : world) (c : Args.t)
    (n : nat) (address : string) (amount_to_swap min_amount decimals : Z)
    (shown : string) (err : error) :
  w_address w (Args.wallet c) = inr address ->
  w_amounts w = inr (amount_to_swap, min_amount) ->
  (forall i, (i < n)%nat -> exists v, w_balance w i = inr v /\ truthy v = false) ->
  (exists v, w_balance w n = inr v /\ truthy v = true) ->
  w_decimals w = inr decimals ->
  w_divide w amount_to_swap decimals = inr shown ->
  w_send w (bridge_request c address amount_to_swap min_amount) = inl err ->
  forall fuel,
    (4 * n + 416 <= fuel)%nat ->
    out (run_task AMOUNT_TO_SWAP w fuel c) = Raised err /\
    count is_send (trace (run_task AMOUNT_TO_SWAP w fuel c)) = 1%nat /\
    count is_report (trace (run_task AMOUNT_TO_SWAP w fuel c)) = O /\
    exists pre,
      trace (run_task AMOUNT_TO_SWAP w fuel c)
      = (pre ++ [occ (send_token_chain_to_chain
                        (bridge_request c address amount_to_swap min_amount))])%list.
Proof.
  intros Ha Hm Hfalse Htrue Hd Hs Hsend fuel Hf.
  destruct (seen_run AMOUNT_TO_SWAP w c n address amount_to_swap min_amount
              Ha Hm Hfalse Htrue fuel Hf) as [Hout Htrace].
  destruct (before_submit_quiet AMOUNT_TO_SWAP w c n address) as [Hsent Hreport].
  rewrite Hout, Htrace, !(count_app _ (_ :: _)), Hsent, Hreport.
  unfold submit_outcome, submit_events. rewrite Hd, Hs, Hsend.
  split; [reflexivity|]. split; [reflexivity|]. split; [reflexivity|].
  exists ((occ (wallet_public_address (Args.wallet c)) ::
           occ (get_correct_amount_and_min_amount
                  (Args.token_from_chain_contract c) AMOUNT_TO_SWAP) ::
           delay_events w address ++ polls c address O (S n)) ++
          [occ (get_token_decimals (Args.token_from_chain_contract c));
           occ (true_divide amount_to_swap decimals);
           occ (logger INFO (msg_bridging c address shown))])%list.
  rewrite <- app_assoc. reflexivity.
Qed.

(** X4 at the wallet of [Sample.failing_send]. *)
Lemma X4_failed_submission_witness :
  out (run_task Sample.AMOUNT_TO_SWAP Sample.failing_send 416 Sample.args)
  = Raised (Error "revert") /\
  count is_send
    (trace (run_task Sample.AMOUNT_TO_SWAP Sample.failing_send 416 Sample.args))
  = 1%nat /\
  count is_report
    (trace (run_task Sample.AMOUNT_TO_SWAP Sample.failing_send 416 Sample.args))
  = O /\
  exists pre,
    trace (run_task Sample.AMOUNT_TO_SWAP Sample.failing_send 416 Sample.args)
    = (pre ++ [occ (send_token_chain_to_chain
                      (bridge_request Sample.args "0xkey1" 10000000 9950000))])%list.
Proof.
  apply (X4_failed_submission Sample.AMOUNT_TO_SWAP Sample.failing_send
           Sample.args 0 "0xkey1" 10000000 9950000 6 "10.0" (Error "revert")).
  - reflexivity.
  - reflexivity.
  - intros i Hi. lia.
  - exists (PyBool true). split; reflexivity.
  - reflexivity.
  - reflexivity.
  - reflexivity.
  - lia.
Defined.

(** X5.  If every collaborator returns and the balance is seen, the wallet
    task returns, and its run ends with the one submission followed by the
    two success records, which carry the explorer of the source chain and
    the hash that the submission returned; before them nothing is submitted
    and no success record is written. *)
Theorem X5_success_is_reported (AMOUNT_TO_SWAP : Q) (w : world) (c : Args.t)
    (n : nat) (address : string) (amount_to_swap min_amount decimals : Z)
    (shown hash : string) :
  w_address w (Args.wallet c) = inr address ->
  w_amounts w = inr (amount_to_swap, min_amount) ->
  (forall i, (i < n)%nat -> exists v, w_balance w i = inr v /\ truthy v = false) ->
  (exists v, w_balance w n = inr v /\ truthy v = true) ->
  w_decimals w = inr decimals ->
  w_divide w amount_to_swap decimals = inr shown ->
  w_send w (bridge_request c address amount_to_swap min_amount) = inr hash ->
  forall fuel,
    (4 * n + 416 <= fuel)%nat ->
    out (run_task AMOUNT_TO_SWAP w fuel c) = Returned tt /\
    exists pre,
      trace (run_task AMOUNT_TO_SWAP w fuel c)
      = (pre ++
         [occ (send_token_chain_to_chain
                 (bridge_request c address amount_to_swap min_amount));
          occ (logger SUCCESS
                 (Args.from_chain_name c ++ " | " ++ address
                    ++ " | Transaction: https://" ++ Args.from_chain_explorer c
                    ++ "/tx/" ++ hash));
          occ (logger SUCCESS
                 ("LAYERZEROSCAN | " ++ address
                    ++ " | Transaction: https://layerzeroscan.com/tx/" ++ hash))])%list /\
      count is_send pre = O /\
      count is_report pre = O.
Proof.
  intros Ha Hm Hfalse Htrue Hd Hs Hsend fuel Hf.
  destruct (seen_run AMOUNT_TO_SWAP w c n address amount_to_swap min_amount
              Ha Hm Hfalse Htrue fuel Hf) as [Hout Htrace].
  destruct (before_submit_quiet AMOUNT_TO_SWAP w c n address) as [Hsent Hreport].
  rewrite Hout, Htrace.
  unfold submit_outcome, submit_events. rewrite Hd, Hs, Hsend.
  split; [reflexivity|].
  exists ((occ (wallet_public_address (Args.wallet c)) ::
           occ (get_correct_amount_and_min_amount
                  (Args.token_from_chain_contract c) AMOUNT_TO_SWAP) ::
           delay_events w address ++ polls c address O (S n)) ++
          [occ (get_token_decimals (Args.token_from_chain_contract c));
           occ (true_divide amount_to_swap decimals);
           occ (logger INFO (msg_bridging c address shown))])%list.
  split; [|split].
  - rewrite <- app_assoc. reflexivity.
  - rewrite (count_app _ (_ :: _)), Hsent. reflexivity.
  - rewrite (count_app _ (_ :: _)), Hreport. reflexivity.
Qed.

(** X5 at a wallet whose balance is seen on the third query. *)
Lemma X5_success_is_reported_witness :
  out (run_task Sample.AMOUNT_TO_SWAP (Sample.funded_at 2) 424 Sample.args)
  = Returned tt /\
  exists pre,
    trace (run_task Sample.AMOUNT_TO_SWAP (Sample.funded_at 2) 424 Sample.args)
    = (pre ++
       [occ (send_token_chain_to_chain
               (bridge_request Sample.args "0xkey1" 10000000 9950000));
        occ (logger SUCCESS
               (Args.from_chain_name Sample.args ++ " | " ++ "0xkey1"
                  ++ " | Transaction: https://"
                  ++ Args.from_chain_explorer Sample.args
                  ++ "/tx/" ++ "0xhash"));
        occ (logger SUCCESS
               ("LAYERZEROSCAN | " ++ "0xkey1"
                  ++ " | Transaction: https://layerzeroscan.com/tx/"
                  ++ "0xhash"))])%list /\
    count is_send pre = O /\
    count is_report pre = O.
Proof.
  apply (X5_success_is_reported Sample.AMOUNT_TO_SWAP (Sample.funded_at 2)
           Sample.args 2 "0xkey1" 10000000 9950000 6 "10.0" "0xhash").
  - reflexivity.
  - reflexivity.
  - intros i Hi. exists (PyBool false).
    destruct i as [|[|i]]; [split; reflexivity..|lia].
  - exists (PyBool true). split; reflexivity.
  - reflexivity.
  - reflexivity.
  - reflexivity.
  - lia.
Defined.

(** ** The balance record *)

Lemma prefix_cons_inv {A : Type} (x : A) (l full : list A) :
  prefix l (x :: full) -> l = [] \/ exists l', l = x :: l' /\ prefix l' full.
Proof.
  intros [rest H]. destruct l as [|y l]; [now left|right].
  cbn in H. injection H as -> H. exists l. split; [reflexivity|now exists rest].
Qed.

Lemma prefix_nil_inv {A : Type} (l : list A) : prefix l [] -> l = [].
Proof.
  intros [rest H]. symmetry in H. now apply app_eq_nil in H.
Qed.

Lemma prefix_app_inv {A : Type} (l l1 l2 : list A) :
  prefix l (l1 ++ l2) ->
  prefix l l1 \/ exists l', l = (l1 ++ l')%list /\ prefix l' l2.
Proof.
  revert l. induction l1 as [|x l1 IH]; intros l H.
  - right. exists l. split; [reflexivity|exact H].
  - cbn [app] in H. destruct (prefix_cons_inv x l _ H) as [->|[l' [-> H']]].
    + left. apply prefix_nil.
    + destruct (IH l' H') as [Hp|[l'' [-> Hp]]].
      * left. now apply prefix_cons.
      * right. exists l''. split; [reflexivity|exact Hp].
Qed.

Lemma records_due_S (q m : nat) :
  records_due q (S m)
  = Nat.add (if Z.of_nat q mod 3 =? 0 then 1%nat else O) (records_due (S q) m).
Proof.
  unfold records_due. cbn [seq].
  exact (count_cons (fun i => Z.of_nat i mod 3 =? 0) q (seq (S q) m)).
Qed.

Lemma records_due_end (q m : nat) :
  records_due q (S m)
  = Nat.add (records_due q m) (if Z.of_nat (q + m) mod 3 =? 0 then 1%nat else O).
Proof.
  unfold records_due. rewrite seq_S, count_app. f_equal.
  unfold count. cbn [filter]. destruct (Z.of_nat (q + m) mod 3 =? 0); reflexivity.
Qed.

Lemma records_due_mono (q m : nat) : (records_due q m <= records_due q (S m))%nat.
Proof. rewrite records_due_end. lia. Qed.

(** Every third poll from the first on writes the record. *)
Lemma records_due_third (m : nat) : records_due O m = ((m + 2) / 3)%nat.
Proof.
  induction m as [|m IH]; [reflexivity|].
  rewrite records_due_end, IH. cbn [Nat.add].
  apply Nat2Z.inj.
  rewrite Nat2Z.inj_add, !Nat2Z.inj_div, Nat2Z.inj_succ, Nat2Z.inj_add.
  change (Z.of_nat 3) with 3. change (Z.of_nat 2) with 2.
  destruct (Z.eqb_spec (Z.of_nat m mod 3) 0) as [H|H];
    cbn [Z.of_nat]; Z.div_mod_to_equations; lia.
Qed.

Lemma is_balance_record_balance (address from_chain_name token : string) :
  is_balance_record (occ (logger INFO (msg_balance address from_chain_name token)))
  = true.
Proof. cbn. now destruct (address ++ _)%string. Qed.

(** Count the events of a list that is written out. *)
Ltac tally :=
  rewrite ?count_cons, ?is_balance_record_balance; cbn -[records_due]; lia.

Section Cadence.

Variable AMOUNT_TO_SWAP : Q.
Variable w : world.
Variable c : Args.t.

Lemma poll_records (address : string) (q : nat) :
  count is_balance_record (poll_events c address q)
  = if Z.of_nat q mod 3 =? 0 then 1%nat else O.
Proof.
  unfold poll_events. destruct (Z.of_nat q mod 3 =? 0); cbn [app];
    rewrite !count_cons, ?is_balance_record_balance; reflexivity.
Qed.

Lemma delay_records (address : string) :
  count is_balance_record (delay_events w address) = O.
Proof.
  unfold delay_events.
  rewrite !count_cons, count_app, count_cons, delay_sleeps_count; reflexivity.
Qed.

Lemma submit_records (address : string) (amount_to_swap min_amount : Z) :
  count is_balance_record (submit_events w c address amount_to_swap min_amount) = O.
Proof.
  unfold submit_events.
  destruct (w_decimals w) as [?|decimals]; [reflexivity|].
  destruct (w_divide w amount_to_swap decimals); [reflexivity|].
  destruct (w_send w _); reflexivity.
Qed.

(** The records of a prefix of one poll. *)
Lemma poll_prefix (address : string) (q : nat) (l : list (sigT taskE)) :
  prefix l (poll_events c address q) ->
  (records_due q (count is_query l) <= count is_balance_record l
   <= records_due q (S (count is_query l)))%nat.
Proof.
  intros H. pose proof (records_due_mono q 1) as Hmono.
  pose proof (records_due_S q O) as H1.
  change (records_due (S q) 0) with O in H1.
  assert (H0 : records_due q 0 = O) by reflexivity.
  unfold poll_events in H.
  destruct (Z.of_nat q mod 3 =? 0) eqn:Ht; cbn [app] in H.
  - destruct (prefix_cons_inv _ _ _ H) as [->|[l1 [-> Hp1]]]; [tally|].
    destruct (prefix_cons_inv _ _ _ Hp1) as [->|[l2 [-> Hp2]]]; [tally|].
    destruct (prefix_cons_inv _ _ _ Hp2) as [->|[l3 [-> Hp3]]]; [tally|].
    apply prefix_nil_inv in Hp3. subst l3. tally.
  - destruct (prefix_cons_inv _ _ _ H) as [->|[l1 [-> Hp1]]]; [tally|].
    destruct (prefix_cons_inv _ _ _ Hp1) as [->|[l2 [-> Hp2]]]; [tally|].
    apply prefix_nil_inv in Hp2. subst l2. tally.
Qed.

End Cadence.

Section CadenceOfRuns.

Variable AMOUNT_TO_SWAP : Q.
Variable w : world.
Variable c : Args.t.

Lemma quiet_prefix (l full : list (sigT taskE)) :
  prefix l full ->
  count is_query full = O ->
  count is_balance_record full = O ->
  count is_query l = O /\ count is_balance_record l = O.
Proof.
  intros H Hq Hb.
  pose proof (count_prefix is_query l full H).
  pose proof (count_prefix is_balance_record l full H). lia.
Qed.

(** In a prefix of the polls from the one of index [q] on, the record has
    been written for every third query made, and at most once more. *)
Lemma wait_prefix (address : string) (amount_to_swap min_amount : Z) :
  forall k q l,
    prefix l (wait_events w c address amount_to_swap min_amount k q) ->
    (records_due q (count is_query l) <= count is_balance_record l
     <= records_due q (S (count is_query l)))%nat.
Proof.
  induction k as [|k IH]; intros q l H; cbn [wait_events] in H.
  - apply prefix_nil_inv in H. subst l.
    pose proof (records_due_mono q 0). cbn in *. lia.
  - destruct (prefix_app_inv _ _ _ H) as [Hp|[l' [-> Hp]]];
      [now apply (poll_prefix c address)|].
    rewrite !count_app, poll_queries, poll_records. cbn [Nat.add].
    rewrite (records_due_S q (count is_query l')),
      (records_due_S q (S (count is_query l'))).
    assert (Hrest : (records_due (S q) (count is_query l')
                     <= count is_balance_record l'
                     <= records_due (S q) (S (count is_query l')))%nat).
    { destruct (w_balance w q) as [err|v].
      - apply prefix_nil_inv in Hp. subst l'.
        pose proof (records_due_mono (S q) 0). cbn in *. lia.
      - destruct (truthy v).
        + destruct (quiet_prefix l' _ Hp
                      (submit_queries w c address amount_to_swap min_amount)
                      (submit_records w c address amount_to_swap min_amount))
            as [-> ->].
          pose proof (records_due_mono (S q) 0). cbn in *. lia.
        + now apply IH. }
    destruct (Z.of_nat q mod 3 =? 0); lia.
Qed.

(** In all of them, for every third query exactly. *)
Lemma wait_records (address : string) (amount_to_swap min_amount : Z) :
  forall k q,
    count is_balance_record (wait_events w c address amount_to_swap min_amount k q)
    = records_due q
        (count is_query (wait_events w c address amount_to_swap min_amount k q)).
Proof.
  induction k as [|k IH]; intros q; cbn [wait_events]; [reflexivity|].
  rewrite !count_app, poll_queries, poll_records. cbn [Nat.add].
  rewrite records_due_S. f_equal.
  destruct (w_balance w q) as [err|v]; [reflexivity|].
  destruct (truthy v).
  - now rewrite submit_queries, submit_records.
  - apply IH.
Qed.

Lemma head_quiet (address : string) :
  count is_query (head_events AMOUNT_TO_SWAP w c address) = O /\
  count is_balance_record (head_events AMOUNT_TO_SWAP w c address) = O.
Proof.
  unfold head_events. rewrite !count_cons, delay_queries, delay_records.
  split; reflexivity.
Qed.

Lemma task_prefix_records (k : nat) (l : list (sigT taskE)) :
  prefix l (task_events AMOUNT_TO_SWAP w c k) ->
  (records_due O (count is_query l) <= count is_balance_record l
   <= records_due O (S (count is_query l)))%nat.
Proof.
  intros H.
  assert (Hquiet : count is_query l = O -> count is_balance_record l = O ->
            (records_due O (count is_query l) <= count is_balance_record l
             <= records_due O (S (count is_query l)))%nat).
  { intros -> ->. cbn. lia. }
  destruct (task_events_cases AMOUNT_TO_SWAP w c k)
    as [Hk|[Hk|[address [amount_to_swap [min_amount [_ [_ Hk]]]]]]];
    rewrite Hk in H.
  - destruct (quiet_prefix l _ H eq_refl eq_refl). now apply Hquiet.
  - destruct (quiet_prefix l _ H eq_refl eq_refl). now apply Hquiet.
  - destruct (head_quiet address) as [Hq Hb].
    destruct (prefix_app_inv _ _ _ H) as [Hp|[l' [-> Hp]]].
    + destruct (quiet_prefix l _ Hp Hq Hb). now apply Hquiet.
    + rewrite !count_app, Hq, Hb. cbn [Nat.add].
      now apply (wait_prefix address amount_to_swap min_amount k O).
Qed.

Lemma task_records (k : nat) :
  count is_balance_record (task_events AMOUNT_TO_SWAP w c k)
  = records_due O (count is_query (task_events AMOUNT_TO_SWAP w c k)).
Proof.
  destruct (task_events_cases AMOUNT_TO_SWAP w c k)
    as [Hk|[Hk|[address [amount_to_swap [min_amount [_ [_ Hk]]]]]]];
    rewrite Hk; try reflexivity.
  destruct (head_quiet address) as [Hq Hb].
  rewrite !count_app, Hq, Hb. cbn [Nat.add]. apply wait_records.
Qed.

End CadenceOfRuns.

(** X6.  The BALANCE record is written on the polls whose counter is a
    multiple of three, the first included: in every run of a wallet task,
    when [m] balance queries have been made the record has been written
    [(m + 2) / 3] times, or once more when the record of the next poll has
    been written and its query not yet made; and exactly [(m + 2) / 3] times
    in a run that has ended. *)
Theorem X6_balance_record_every_third_poll (AMOUNT_TO_SWAP : Q) (w : world)
    (c : Args.t) (fuel : nat) :
  ((count is_query (trace (run_task AMOUNT_TO_SWAP w fuel c)) + 2) / 3
   <= count is_balance_record (trace (run_task AMOUNT_TO_SWAP w fuel c))
   <= (count is_query (trace (run_task AMOUNT_TO_SWAP w fuel c)) + 3) / 3)%nat /\
  (out (run_task AMOUNT_TO_SWAP w fuel c) <> Timeout ->
   count is_balance_record (trace (run_task AMOUNT_TO_SWAP w fuel c))
   = ((count is_query (trace (run_task AMOUNT_TO_SWAP w fuel c)) + 2) / 3)%nat).
Proof.
  split.
  - pose proof (task_prefix_records AMOUNT_TO_SWAP w c fuel _
                  (follows_prefix _ _
                     (task_follows AMOUNT_TO_SWAP w c fuel fuel (Nat.le_refl fuel))))
      as H.
    rewrite !records_due_third in H.
    replace (count is_query (trace (run_task AMOUNT_TO_SWAP w fuel c)) + 3)%nat
      with (S (count is_query (trace (run_task AMOUNT_TO_SWAP w fuel c))) + 2)%nat
      by lia.
    exact H.
  - intros Hout. rewrite (task_trace AMOUNT_TO_SWAP w c fuel Hout).
    rewrite task_records. apply records_due_third.
Qed.

(** A wallet whose balance is seen on the eighth query: eight queries and
    three records, before the queries of index 0, 3 and 6. *)
Example balance_records_of_eight_polls :
  count is_query
    (trace (run_task Sample.AMOUNT_TO_SWAP (Sample.funded_at 7) 500 Sample.args))
  = 8%nat /\
  count is_balance_record
    (trace (run_task Sample.AMOUNT_TO_SWAP (Sample.funded_at 7) 500 Sample.args))
  = 3%nat.
Proof. split; vm_compute; reflexivity. Qed.

(** ** The time slept before a submission *)

Lemma total_sleep_none (l : list (sigT taskE)) :
  (forall y, In y l -> slept y = None) -> total_sleep l = 0.
Proof.
  induction l as [|x l IH]; intros H; [reflexivity|].
  cbn [total_sleep fold_right]. fold (total_sleep l).
  rewrite (H x (or_introl eq_refl)). apply IH. intros y Hy. apply H. now right.
Qed.

Section SleepFacts.

Variable AMOUNT_TO_SWAP : Q.
Variable w : world.
Variable c : Args.t.

Lemma poll_sleep (address : string) (q : nat) :
  total_sleep (poll_events c address q) = 30.
Proof. unfold poll_events. now destruct (Z.of_nat q mod 3 =? 0). Qed.

Lemma submit_not_sleep (address : string) (amount_to_swap min_amount : Z)
    (x : sigT taskE) :
  In x (submit_events w c address amount_to_swap min_amount) ->
  slept x = None /\ is_query x = false.
Proof.
  unfold submit_events. intros H.
  destruct H as [<-|H]; [split; reflexivity|].
  destruct (w_decimals w) as [?|decimals]; [contradiction|].
  destruct H as [<-|H]; [split; reflexivity|].
  destruct (w_divide w amount_to_swap decimals) as [?|shown]; [contradiction|].
  do 2 (destruct H as [<-|H]; [split; reflexivity|]).
  destruct (w_send w _) as [?|hash]; [contradiction|].
  repeat (destruct H as [<-|H]; [split; reflexivity|]). contradiction.
Qed.

(** Before a submission the loop has slept 30 time units for each balance
    query, and has made one at least. *)
Lemma wait_sleeps (address : string) (amount_to_swap min_amount : Z)
    (x : sigT taskE) (post : list (sigT taskE)) :
  forall k q pre,
    wait_events w c address amount_to_swap min_amount k q = (pre ++ x :: post)%list ->
    is_send x = true ->
    total_sleep pre = 30 * Z.of_nat (count is_query pre) /\
    (1 <= count is_query pre)%nat.
Proof.
  induction k as [|k IH]; intros q pre H Hx; cbn [wait_events] in H;
    [destruct pre; discriminate|].
  apply (split_skip is_send) in H; [|intros y Hy|exact Hx].
  - destruct H as [pre' [-> H]].
    rewrite total_sleep_app, count_app, poll_sleep, poll_queries.
    destruct (w_balance w q) as [err|v]; [destruct pre'; discriminate|].
    destruct (truthy v).
    + assert (Hin : forall y, In y pre' ->
                In y (submit_events w c address amount_to_swap min_amount)).
      { intros y Hy. rewrite H. apply in_or_app. now left. }
      rewrite (total_sleep_none pre'), (count_none is_query pre').
      * split; [reflexivity|cbn; lia].
      * intros y Hy.
        now destruct (submit_not_sleep address amount_to_swap min_amount y (Hin y Hy)).
      * intros y Hy.
        now destruct (submit_not_sleep address amount_to_swap min_amount y (Hin y Hy)).
    + destruct (IH (S q) pre' H Hx) as [Ht Hc]. rewrite Ht. split; lia.
  - apply (poll_sent c address q) in Hy. unfold is_send. now rewrite Hy.
Qed.

Lemma head_sleep (address : string) :
  total_sleep (head_events AMOUNT_TO_SWAP w c address) = start_delay_of w.
Proof.
  unfold head_events, delay_events.
  rewrite !app_comm_cons, total_sleep_app.
  change (total_sleep [occ tqdm_exit]) with 0.
  cbn [total_sleep fold_right slept occ].
  fold (total_sleep
          (flat_map (fun _ : Z => [occ (asyncio_sleep 1); occ (pbar_update 1)])
             (range (start_delay_of w)))).
  rewrite delay_sleeps_total, range_length.
  pose proof (start_delay_range w). lia.
Qed.

Lemma task_sleeps (k : nat) (pre post : list (sigT taskE)) (x : sigT taskE) :
  task_events AMOUNT_TO_SWAP w c k = (pre ++ x :: post)%list ->
  is_send x = true ->
  total_sleep pre = start_delay_of w + 30 * Z.of_nat (count is_query pre) /\
  (1 <= count is_query pre)%nat.
Proof.
  intros H Hx.
  destruct (task_events_cases AMOUNT_TO_SWAP w c k)
    as [Hk|[Hk|[address [amount_to_swap [min_amount [_ [_ Hk]]]]]]];
    rewrite Hk in H.
  - exfalso. assert (Hin : In x [occ (wallet_public_address (Args.wallet c))])
      by (rewrite H; apply in_elt).
    destruct Hin as [<-|[]]. discriminate.
  - exfalso.
    assert (Hin : In x [occ (wallet_public_address (Args.wallet c));
                        occ (get_correct_amount_and_min_amount
                               (Args.token_from_chain_contract c) AMOUNT_TO_SWAP)])
      by (rewrite H; apply in_elt).
    destruct Hin as [<-|[<-|[]]]; discriminate.
  - apply (split_skip is_send) in H;
      [|intros y Hy; now apply (head_not_send AMOUNT_TO_SWAP w c address)|exact Hx].
    destruct H as [pre' [-> H]].
    destruct (wait_sleeps address amount_to_swap min_amount x post k O pre' H Hx)
      as [Ht Hc].
    destruct (head_quiet AMOUNT_TO_SWAP w c address) as [Hq _].
    rewrite total_sleep_app, count_app, head_sleep, Hq, Ht. split; lia.
Qed.

End SleepFacts.

(** X7.  In every run of a wallet task, when [send_token_chain_to_chain] is
    called the task has slept, in all, the startup delay it drew plus 30
    time units for each balance query it made, of which there is one at
    least: 31 time units or more. *)
Theorem X7_time_slept_before_submission (AMOUNT_TO_SWAP : Q) (w : world)
    (c : Args.t) (fuel : nat) (pre post : list (sigT taskE)) (x : sigT taskE) :
  trace (run_task AMOUNT_TO_SWAP w fuel c) = (pre ++ x :: post)%list ->
  is_send x = true ->
  total_sleep pre = start_delay_of w + 30 * Z.of_nat (count is_query pre) /\
  (1 <= count is_query pre)%nat /\
  31 <= total_sleep pre.
Proof.
  intros H Hx.
  destruct (prefix_split _ _ pre post x
              (follows_prefix _ _
                 (task_follows AMOUNT_TO_SWAP w c fuel fuel (Nat.le_refl fuel))) H)
    as [post' Hfull].
  destruct (task_sleeps AMOUNT_TO_SWAP w c fuel pre post' x Hfull Hx) as [Ht Hc].
  pose proof (start_delay_range w). repeat split; lia.
Qed.

(** X7 at a wallet whose balance is seen at once and whose startup delay
    is 3: the submission is the nineteenth event, after 33 time units. *)
Lemma X7_time_slept_before_submission_witness :
  total_sleep
    (firstn 18
       (trace (run_task Sample.AMOUNT_TO_SWAP (Sample.funded_at 0) 500 Sample.args)))
  = start_delay_of (Sample.funded_at 0)
    + 30 * Z.of_nat
             (count is_query
                (firstn 18
                   (trace (run_task Sample.AMOUNT_TO_SWAP (Sample.funded_at 0) 500
                             Sample.args)))) /\
  (1 <= count is_query
          (firstn 18
             (trace (run_task Sample.AMOUNT_TO_SWAP (Sample.funded_at 0) 500
                       Sample.args))))%nat /\
  31 <= total_sleep
          (firstn 18
             (trace (run_task Sample.AMOUNT_TO_SWAP (Sample.funded_at 0) 500
                       Sample.args))).
Proof.
  apply (X7_time_slept_before_submission Sample.AMOUNT_TO_SWAP
           (Sample.funded_at 0) Sample.args 500 _
           (skipn 19
              (trace (run_task Sample.AMOUNT_TO_SWAP (Sample.funded_at 0) 500
                        Sample.args)))
           (occ (send_token_chain_to_chain
                   (bridge_request Sample.args "0xkey1" 10000000 9950000)))).
  - vm_compute. reflexivity.
  - reflexivity.
Defined.

(** ** Whose balance and which token *)

(** An event of a list that is written out is about the task. *)
Ltac own :=
  split;
  [ intros ? ? ? Hq; cbn in Hq; try discriminate Hq;
    injection Hq as <- <- <-; split; trivial
  | intros ? Hc; cbn in Hc; try discriminate Hc;
    injection Hc as <-; reflexivity ].

Section Own.

Variable AMOUNT_TO_SWAP : Q.
Variable w : world.
Variable c : Args.t.

Lemma delay_about (address : string) (x : sigT taskE) :
  In x (delay_events w address) -> about w c x.
Proof.
  unfold delay_events. intros H.
  do 3 (destruct H as [<-|H]; [own|]).
  apply in_app_or in H. destruct H as [H|H].
  - apply in_flat_map in H. destruct H as [_ [_ H]].
    repeat (destruct H as [<-|H]; [own|]). contradiction.
  - destruct H as [<-|H]; [own|contradiction].
Qed.

Lemma wait_about (address : string) (amount_to_swap min_amount : Z)
    (x : sigT taskE) :
  w_address w (Args.wallet c) = inr address ->
  forall k q,
    In x (wait_events w c address amount_to_swap min_amount k q) -> about w c x.
Proof.
  intros Ha. induction k as [|k IH]; intros q H; [contradiction|].
  cbn [wait_events] in H. apply in_app_or in H. destruct H as [H|H].
  - unfold poll_events in H. destruct (Z.of_nat q mod 3 =? 0); cbn [app] in H;
      repeat (destruct H as [<-|H]; [own|]); contradiction.
  - destruct (w_balance w q) as [?|v]; [contradiction|].
    destruct (truthy v); [|now apply (IH (S q))].
    unfold submit_events in H.
    destruct H as [<-|H]; [own|].
    destruct (w_decimals w) as [?|decimals]; [contradiction|].
    destruct H as [<-|H]; [own|].
    destruct (w_divide w amount_to_swap decimals) as [?|shown]; [contradiction|].
    do 2 (destruct H as [<-|H]; [own|]).
    destruct (w_send w _) as [?|hash]; [contradiction|].
    repeat (destruct H as [<-|H]; [own|]). contradiction.
Qed.

Lemma task_about (k : nat) (x : sigT taskE) :
  In x (task_events AMOUNT_TO_SWAP w c k) -> about w c x.
Proof.
  intros H.
  destruct (task_events_cases AMOUNT_TO_SWAP w c k)
    as [Hk|[Hk|[address [amount_to_swap [min_amount [Ha [_ Hk]]]]]]];
    rewrite Hk in H.
  - destruct H as [<-|[]]. own.
  - destruct H as [<-|[<-|[]]]; own.
  - apply in_app_or in H. destruct H as [H|H].
    + unfold head_events in H.
      do 2 (destruct H as [<-|H]; [own|]).
      now apply (delay_about address).
    + now apply (wait_about address amount_to_swap min_amount x Ha k O).
Qed.

End Own.

(** X8.  In every run of a wallet task, every balance query asks for the
    address that [wallet_public_address] returned for the wallet of the
    task and for the token of the task, and every call that is given a token
    contract (the computation of the amounts, the balance queries, the
    reading of the decimals, the submission) is given the token contract of
    the task: no call is about another wallet or another token. *)
Theorem X8_calls_are_about_the_task (AMOUNT_TO_SWAP : Q) (w : world) (c : Args.t)
    (fuel : nat) :
  Forall (about w c) (trace (run_task AMOUNT_TO_SWAP w fuel c)).
Proof.
  apply Forall_forall. intros x Hx.
  apply (task_about AMOUNT_TO_SWAP w c fuel).
  apply (prefix_In _ _ x
           (follows_prefix _ _
              (task_follows AMOUNT_TO_SWAP w c fuel fuel (Nat.le_refl fuel))) Hx).
Qed.

(** ** What leaves [main] *)


Section MainFacts.

Variables polygon avalanche bsc fantom : Chain.t.
Variables usdc usdt : Token.t.
Variable PRIVATE_KEYS : list string.
Variable AMOUNT_TO_SWAP : Q.
Variable mw : main_world.

(** Without fuel nothing happens. *)
Lemma main_zero (key name : string) :
  getitem mode_mapping key = Some name ->
  run_main polygon avalanche bsc fantom usdc usdt PRIVATE_KEYS AMOUNT_TO_SWAP
    mw O (Some key)
  = Result [] initial Timeout O.
Proof.
  intros Hname. unfold run_main, main, parse_args.
  rewrite (is_a_choice key _ (getitem_key _ _ _ Hname)).
  rewrite run_ret_bind. cbn [mode]. rewrite Hname.
  now rewrite run_zero_trigger_bind.
Qed.

(** With a known mode no exception leaves [main]. *)
Lemma main_known_safe (key name : string) (fuel : nat) (x : exn) :
  getitem mode_mapping key = Some name ->
  out (run_main polygon avalanche bsc fantom usdc usdt PRIVATE_KEYS AMOUNT_TO_SWAP
         mw fuel (Some key)) <> Raised x.
Proof.
  intros Hname. destruct fuel as [|fuel].
  - rewrite (main_zero key name Hname). discriminate.
  - rewrite (main_run polygon avalanche bsc fantom usdc usdt PRIVATE_KEYS
               AMOUNT_TO_SWAP mw key name fuel Hname).
    unfold after. cbn [out].
    apply (gathering_outcome mw fuel
             (pool_of AMOUNT_TO_SWAP
                (build_tasks polygon avalanche bsc fantom usdc usdt
                   PRIVATE_KEYS name)) initial).
Qed.

(** Without a mode, or with an unknown one, [main] stops before the event
    loop has anything to do. *)
Lemma main_unknown (value : string) (fuel : nat) (x : exn) :
  ~ In value (keys mode_mapping) ->
  out (run_main polygon avalanche bsc fantom usdc usdt PRIVATE_KEYS AMOUNT_TO_SWAP
         mw fuel (Some value)) = Raised x ->
  x = SystemExit 2 /\
  count is_loop_event
    (trace (run_main polygon avalanche bsc fantom usdc usdt PRIVATE_KEYS
              AMOUNT_TO_SWAP mw fuel (Some value))) = O.
Proof.
  intros Hvalue. unfold run_main, main, parse_args.
  rewrite (not_a_choice value _ Hvalue). assoc.
  destruct fuel as [|fuel]; [rewrite run_zero_trigger_bind; discriminate|].
  rewrite run_trigger_bind. cbn [answer_main]. assoc.
  destruct fuel as [|fuel]; [rewrite run_zero_trigger_bind; discriminate|].
  rewrite run_trigger_bind. cbn [answer_main out trace].
  intros H. injection H as <-. split; reflexivity.
Qed.

Lemma main_no_mode (fuel : nat) (x : exn) :
  out (run_main polygon avalanche bsc fantom usdc usdt PRIVATE_KEYS AMOUNT_TO_SWAP
         mw fuel None) = Raised x ->
  x = SystemExit 2 /\
  count is_loop_event
    (trace (run_main polygon avalanche bsc fantom usdc usdt PRIVATE_KEYS
              AMOUNT_TO_SWAP mw fuel None)) = O.
Proof.
  unfold run_main, main, parse_args. rewrite run_ret_bind. cbn [mode].
  destruct fuel as [|fuel]; [rewrite run_zero_trigger_bind; discriminate|].
  rewrite run_trigger_bind. cbn [answer_main].
  destruct fuel as [|fuel]; [rewrite run_zero_trigger_bind; discriminate|].
  rewrite run_trigger_bind. cbn [answer_main out trace].
  intros H. injection H as <-. split; reflexivity.
Qed.

End MainFacts.

(** ** No wallet *)

(** X10.  With a known mode and an empty list of private keys, [main]
    builds no task: it writes the two records, the first and the last, and
    returns, and the event loop is never asked to run anything. *)
Theorem X10_no_wallet_nothing_to_do (polygon avalanche bsc fantom : Chain.t)
    (usdc usdt : Token.t) (AMOUNT_TO_SWAP : Q) (mw : main_world)
    (key name : string) (fuel : nat) :
  getitem mode_mapping key = Some name ->
  trace (run_main polygon avalanche bsc fantom usdc usdt [] AMOUNT_TO_SWAP mw
           (S (S fuel)) (Some key))
  = [occ (main_logger INFO ("Bridging " ++ name ++ "."));
     occ (main_logger SUCCESS "*** FINISHED ***")] /\
  out (run_main polygon avalanche bsc fantom usdc usdt [] AMOUNT_TO_SWAP mw
         (S (S fuel)) (Some key))
  = Returned tt.
Proof.
  intros Hname.
  rewrite (main_run polygon avalanche bsc fantom usdc usdt [] AMOUNT_TO_SWAP mw
             key name (S fuel) Hname).
  change (pool_of AMOUNT_TO_SWAP
            (build_tasks polygon avalanche bsc fantom usdc usdt [] name))
    with (@nil slot).
  rewrite (gathering_done mw [] [] (S fuel) initial eq_refl).
  unfold finish, after. rewrite run_trigger. cbn [answer_main trace out app].
  split; reflexivity.
Qed.

(** X10 at the mode [pf]. *)
Lemma X10_no_wallet_nothing_to_do_witness :
  trace (Cases.run_main_empty Sample.three 2 (Some "pf"))
  = [occ (main_logger INFO ("Bridging " ++ "polygon-fantom" ++ "."));
     occ (main_logger SUCCESS "*** FINISHED ***")] /\
  out (Cases.run_main_empty Sample.three 2 (Some "pf")) = Returned tt.
Proof.
  apply (X10_no_wallet_nothing_to_do Sample.polygon Sample.avalanche Sample.bsc
           Sample.fantom Sample.usdc Sample.usdt Sample.AMOUNT_TO_SWAP
           Sample.three "pf" "polygon-fantom" 0).
  reflexivity.
Defined.

(** ** The records of [main] *)

Section Shape.

Variable mw : main_world.

Lemma turn_events_loop (pool : list slot) (s : main_state) (n : nat) :
  Forall (fun x => is_loop_event x = true) (firstn n (fst (fst (turn mw pool s)))).
Proof.
  destruct (turn_events mw pool s) as [H|[j [T [e H]]]]; rewrite H;
    destruct n as [|[|[|n]]]; cbn [firstn]; repeat constructor.
Qed.

(** While [gather] waits only the event loop acts, and the final record
    comes last. *)
Lemma gathering_shape :
  forall fuel pool s,
    exists middle,
      Forall (fun x => is_loop_event x = true) middle /\
      trace (run (answer_main mw) fuel (gathering pool) s)
      = (middle ++
         match out (run (answer_main mw) fuel (gathering pool) s) with
         | Returned _ => [occ (main_logger SUCCESS "*** FINISHED ***")]
         | _ => []
         end)%list.
Proof.
  induction fuel as [fuel IH] using lt_wf_ind. intros pool s.
  destruct (results pool) as [rs|] eqn:Hr.
  - rewrite (gathering_done mw pool rs fuel s Hr). unfold finish.
    exists []. split; [constructor|].
    destruct fuel as [|fuel].
    + rewrite run_unfold. reflexivity.
    + rewrite run_trigger. reflexivity.
  - destruct (Nat.le_gt_cases fuel (List.length (fst (fst (turn mw pool s)))))
      as [Hshort|Hlong].
    + destruct (gathering_short mw pool fuel s Hr Hshort) as [s' [l Hrun]].
      rewrite Hrun. cbn [out trace].
      exists (firstn fuel (fst (fst (turn mw pool s)))).
      split; [apply turn_events_loop|now rewrite app_nil_r].
    + replace fuel
        with (S (List.length (fst (fst (turn mw pool s))))
              + (fuel - S (List.length (fst (fst (turn mw pool s))))))%nat
        by lia.
      rewrite (gathering_turn mw pool _ s Hr).
      destruct (IH (fuel - S (List.length (fst (fst (turn mw pool s)))))%nat
                  ltac:(lia) (snd (fst (turn mw pool s))) (snd (turn mw pool s)))
        as [middle [Hloop Htrace]].
      exists (fst (fst (turn mw pool s)) ++ middle)%list.
      unfold after. cbn [out trace]. split.
      * apply Forall_app. split; [|exact Hloop].
        rewrite <- (firstn_all (fst (fst (turn mw pool s)))).
        apply turn_events_loop.
      * rewrite Htrace at 1. now rewrite app_assoc.
Qed.

End Shape.

(** X11.  In a run of [main] with a known mode the Bridging record, which
    names the mode, is the first event; after it come only turns of the
    event loop and what the wallet tasks do; and the final record is written
    last, when the run returns, and not otherwise. *)
Theorem X11_first_and_last_record (polygon avalanche bsc fantom : Chain.t)
    (usdc usdt : Token.t) (PRIVATE_KEYS : list string) (AMOUNT_TO_SWAP : Q)
    (mw : main_world) (key name : string) (fuel : nat) :
  getitem mode_mapping key = Some name ->
  exists middle,
    Forall (fun x => is_loop_event x = true) middle /\
    trace (run_main polygon avalanche bsc fantom usdc usdt PRIVATE_KEYS
             AMOUNT_TO_SWAP mw (S fuel) (Some key))
    = (occ (main_logger INFO ("Bridging " ++ name ++ ".")) ::
       middle ++
       match out (run_main polygon avalanche bsc fantom usdc usdt PRIVATE_KEYS
                    AMOUNT_TO_SWAP mw (S fuel) (Some key)) with
       | Returned _ => [occ (main_logger SUCCESS "*** FINISHED ***")]
       | _ => []
       end)%list.
Proof.
  intros Hname.
  rewrite (main_run polygon avalanche bsc fantom usdc usdt PRIVATE_KEYS
             AMOUNT_TO_SWAP mw key name fuel Hname).
  destruct (gathering_shape mw fuel
              (pool_of AMOUNT_TO_SWAP
                 (build_tasks polygon avalanche bsc fantom usdc usdt
                    PRIVATE_KEYS name)) initial) as [middle [Hloop Htrace]].
  exists middle. split; [exact Hloop|].
  unfold after. cbn [out trace app]. now rewrite Htrace at 1.
Qed.

(** X11 at the three wallets of [Sample.three]. *)
Lemma X11_first_and_last_record_witness :
  exists middle,
    Forall (fun x => is_loop_event x = true) middle /\
    trace (Sample.run_main Sample.three (S 399) (Some "pf"))
    = (occ (main_logger INFO ("Bridging " ++ "polygon-fantom" ++ ".")) ::
       middle ++
       match out (Sample.run_main Sample.three (S 399) (Some "pf")) with
       | Returned _ => [occ (main_logger SUCCESS "*** FINISHED ***")]
       | _ => []
       end)%list.
Proof.
  apply (X11_first_and_last_record Sample.polygon Sample.avalanche Sample.bsc
           Sample.fantom Sample.usdc Sample.usdt Sample.PRIVATE_KEYS
           Sample.AMOUNT_TO_SWAP Sample.three "pf" "polygon-fantom" 399).
  reflexivity.
Defined.

(** ** A wallet that never sees its balance *)




(** ** One submission per private key *)

Section KnownModes.

Variables polygon avalanche bsc fantom : Chain.t.
Variables usdc usdt : Token.t.
Variable PRIVATE_KEYS : list string.

(** One arm of [match mode] for every private key. *)
Ltac arm H src dst :=
  injection H as <-; exists src, dst;
  split; [discriminate|];
  split; [reflexivity|];
  apply build_tasks_map; reflexivity.

(** With a known mode the tasks are the routes between the two chains that
    the mode names, one for each private key, in order. *)
Lemma known_mode_tasks (key name : string) :
  getitem mode_mapping key = Some name ->
  exists src dst,
    src <> dst /\
    name = mode_name src dst /\
    build_tasks polygon avalanche bsc fantom usdc usdt PRIVATE_KEYS name
    = map (route polygon avalanche bsc fantom usdc usdt src dst) PRIVATE_KEYS.
Proof.
  intros H. cbn [getitem mode_mapping] in H.
  destruct (String.eqb "pf" key); [arm H Polygon Fantom|].
  destruct (String.eqb "pa" key); [arm H Polygon Avalanche|].
  destruct (String.eqb "pb" key); [arm H Polygon Bsc|].
  destruct (String.eqb "fp" key); [arm H Fantom Polygon|].
  destruct (String.eqb "fa" key); [arm H Fantom Avalanche|].
  destruct (String.eqb "fb" key); [arm H Fantom Bsc|].
  destruct (String.eqb "ap" key); [arm H Avalanche Polygon|].
  destruct (String.eqb "af" key); [arm H Avalanche Fantom|].
  destruct (String.eqb "ab" key); [arm H Avalanche Bsc|].
  destruct (String.eqb "bp" key); [arm H Bsc Polygon|].
  destruct (String.eqb "bf" key); [arm H Bsc Fantom|].
  destruct (String.eqb "ba" key); [arm H Bsc Avalanche|].
  discriminate.
Qed.

(** The task of index [i] is the task of the private key of index [i]. *)
Lemma known_mode_wallet (key name : string) (i : nat) (c : Args.t) :
  getitem mode_mapping key = Some name ->
  nth_error (build_tasks polygon avalanche bsc fantom usdc usdt PRIVATE_KEYS name) i
  = Some c ->
  nth_error PRIVATE_KEYS i = Some (Args.wallet c).
Proof.
  intros Hname Hc.
  destruct (known_mode_tasks key name Hname) as [src [dst [_ [_ Htasks]]]].
  rewrite Htasks, nth_error_map in Hc.
  destruct (nth_error PRIVATE_KEYS i) as [wallet|]; [|discriminate].
  cbn in Hc. injection Hc as <-. reflexivity.
Qed.

End KnownModes.

(** X13.  In every run of [main] with a known mode, the task of index [i]
    calls [send_token_chain_to_chain] at most once, and does so with the
    private key of index [i] of the configuration; and nothing is done on
    behalf of an index beyond the list of private keys.  So each private key
    signs one submission at most, a key listed twice having a task for each
    of its places. *)
Theorem X13_one_submission_per_key (polygon avalanche bsc fantom : Chain.t)
    (usdc usdt : Token.t) (PRIVATE_KEYS : list string) (AMOUNT_TO_SWAP : Q)
    (mw : main_world) (key name : string) (fuel i : nat) :
  getitem mode_mapping key = Some name ->
  (count is_send
     (project i
        (trace (run_main polygon avalanche bsc fantom usdc usdt PRIVATE_KEYS
                  AMOUNT_TO_SWAP mw fuel (Some key)))) <= 1)%nat /\
  (forall x call,
     In x (project i
             (trace (run_main polygon avalanche bsc fantom usdc usdt PRIVATE_KEYS
                       AMOUNT_TO_SWAP mw fuel (Some key)))) ->
     sent x = Some call ->
     nth_error PRIVATE_KEYS i = Some (Send.wallet call)) /\
  ((List.length PRIVATE_KEYS <= i)%nat ->
   project i
     (trace (run_main polygon avalanche bsc fantom usdc usdt PRIVATE_KEYS
               AMOUNT_TO_SWAP mw fuel (Some key))) = []).
Proof.
  intros Hname. destruct fuel as [|fuel].
  - rewrite (main_zero polygon avalanche bsc fantom usdc usdt PRIVATE_KEYS
               AMOUNT_TO_SWAP mw key name Hname).
    cbn [trace project flat_map]. split; [cbn; lia|]. split; [contradiction|trivial].
  - rewrite (main_run polygon avalanche bsc fantom usdc usdt PRIVATE_KEYS
               AMOUNT_TO_SWAP mw key name fuel Hname).
    unfold after. cbn [trace]. rewrite project_app.
    change (project i [occ (main_logger INFO ("Bridging " ++ name ++ "."))])
      with (@nil (sigT taskE)).
    cbn [app].
    destruct (gathering_alone mw i fuel
                (pool_of AMOUNT_TO_SWAP
                   (build_tasks polygon avalanche bsc fantom usdc usdt
                      PRIVATE_KEYS name)) initial) as [g [Hg _]].
    rewrite Hg, pool_of_nth.
    destruct (nth_error
                (build_tasks polygon avalanche bsc fantom usdc usdt PRIVATE_KEYS
                   name) i) as [c|] eqn:Hc.
    + unfold slot_trace, slot_run. cbn [queries initial].
      fold (run_task AMOUNT_TO_SWAP (w_task mw i) g c).
      pose proof (follows_prefix _ _
                    (task_follows AMOUNT_TO_SWAP (w_task mw i) c g g
                       (Nat.le_refl g))) as Hpre.
      split; [|split].
      * pose proof (count_prefix is_send _ _ Hpre).
        pose proof (task_sends AMOUNT_TO_SWAP (w_task mw i) c g). lia.
      * intros x call Hx Hcall.
        destruct (task_sent AMOUNT_TO_SWAP (w_task mw i) c g x call
                    (prefix_In _ _ x Hpre Hx) Hcall)
          as [address [amount_to_swap [min_amount [_ [_ ->]]]]].
        cbn [bridge_request Send.wallet].
        apply (known_mode_wallet polygon avalanche bsc fantom usdc usdt
                 PRIVATE_KEYS key name i c Hname Hc).
      * intros Hi. exfalso.
        pose proof (known_mode_wallet polygon avalanche bsc fantom usdc usdt
                      PRIVATE_KEYS key name i c Hname Hc) as Hk.
        apply nth_error_None in Hi. congruence.
    + unfold slot_trace, slot_run.
      split; [cbn; lia|]. split; [contradiction|trivial].
Qed.

(** X13 at the first of the three wallets of [Sample.three]. *)
Lemma X13_one_submission_per_key_witness :
  (count is_send
     (project 0 (trace (Sample.run_main Sample.three 400 (Some "pf")))) <= 1)%nat /\
  (forall x call,
     In x (project 0 (trace (Sample.run_main Sample.three 400 (Some "pf")))) ->
     sent x = Some call ->
     nth_error Sample.PRIVATE_KEYS 0 = Some (Send.wallet call)) /\
  ((List.length Sample.PRIVATE_KEYS <= 0)%nat ->
   project 0 (trace (Sample.run_main Sample.three 400 (Some "pf"))) = []).
Proof.
  apply (X13_one_submission_per_key Sample.polygon Sample.avalanche Sample.bsc
           Sample.fantom Sample.usdc Sample.usdt Sample.PRIVATE_KEYS
           Sample.AMOUNT_TO_SWAP Sample.three "pf" "polygon-fantom" 400 0).
  reflexivity.
Defined.

(** ** The modes and the pairs of chains *)

(** X14.  Every ordered pair of two different chains among the four has a
    mode code: the mode it maps to is named after the two chains, and with
    it [main] builds, for each private key, the route from the first to the
    second.  No code maps to a mode from a chain to itself. *)
Theorem X14_every_pair_has_a_mode (polygon avalanche bsc fantom : Chain.t)
    (usdc usdt : Token.t) (PRIVATE_KEYS : list string) (src dst : chain) :
  src <> dst ->
  (exists key,
     In key (keys mode_mapping) /\
     getitem mode_mapping key = Some (mode_name src dst) /\
     build_tasks polygon avalanche bsc fantom usdc usdt PRIVATE_KEYS
       (mode_name src dst)
     = map (route polygon avalanche bsc fantom usdc usdt src dst) PRIVATE_KEYS) /\
  (forall key, getitem mode_mapping key <> Some (mode_name src src)).
Proof.
  intros Hd. split.
  - assert (Hkey : forall key,
              In key (keys mode_mapping) ->
              getitem mode_mapping key = Some (mode_name src dst) ->
              (forall wallet tasks,
                 append_task polygon avalanche bsc fantom usdc usdt
                   (mode_name src dst) wallet tasks
                 = (tasks ++ [route polygon avalanche bsc fantom usdc usdt src dst
                                wallet])%list) ->
              exists key,
                In key (keys mode_mapping) /\
                getitem mode_mapping key = Some (mode_name src dst) /\
                build_tasks polygon avalanche bsc fantom usdc usdt PRIVATE_KEYS
                  (mode_name src dst)
                = map (route polygon avalanche bsc fantom usdc usdt src dst)
                    PRIVATE_KEYS).
    { intros key Hin Hget Harm. exists key. split; [exact Hin|].
      split; [exact Hget|]. now apply build_tasks_map. }
    destruct src, dst; try (exfalso; apply Hd; reflexivity).
    + apply (Hkey "pa"); [cbn; tauto|reflexivity|reflexivity].
    + apply (Hkey "pb"); [cbn; tauto|reflexivity|reflexivity].
    + apply (Hkey "pf"); [cbn; tauto|reflexivity|reflexivity].
    + apply (Hkey "ap"); [cbn; tauto|reflexivity|reflexivity].
    + apply (Hkey "ab"); [cbn; tauto|reflexivity|reflexivity].
    + apply (Hkey "af"); [cbn; tauto|reflexivity|reflexivity].
    + apply (Hkey "bp"); [cbn; tauto|reflexivity|reflexivity].
    + apply (Hkey "ba"); [cbn; tauto|reflexivity|reflexivity].
    + apply (Hkey "bf"); [cbn; tauto|reflexivity|reflexivity].
    + apply (Hkey "fp"); [cbn; tauto|reflexivity|reflexivity].
    + apply (Hkey "fa"); [cbn; tauto|reflexivity|reflexivity].
    + apply (Hkey "fb"); [cbn; tauto|reflexivity|reflexivity].
  - intros key H. cbn [getitem mode_mapping] in H.
    repeat (destruct (String.eqb _ key);
            [destruct src; cbv in H; discriminate H|]).
    discriminate H.
Qed.

(** X14 at the pair of Polygon and BSC. *)
Lemma X14_every_pair_has_a_mode_witness :
  (exists key,
     In key (keys mode_mapping) /\
     getitem mode_mapping key = Some (mode_name Polygon Bsc) /\
     Sample.tasks (mode_name Polygon Bsc)
     = map (route Sample.polygon Sample.avalanche Sample.bsc Sample.fantom
              Sample.usdc Sample.usdt Polygon Bsc) Sample.PRIVATE_KEYS) /\
  (forall key, getitem mode_mapping key <> Some (mode_name Polygon Polygon)).
Proof.
  apply (X14_every_pair_has_a_mode Sample.polygon Sample.avalanche Sample.bsc
           Sample.fantom Sample.usdc Sample.usdt Sample.PRIVATE_KEYS Polygon Bsc).
  discriminate.
Defined.

(** * The program *)

(** ** A command line without a mode *)


Section NoMode.

Variables polygon avalanche bsc fantom : Chain.t.
Variables usdc usdt : Token.t.
Variable PRIVATE_KEYS : list string.
Variable AMOUNT_TO_SWAP : Q.
Variable mw : main_world.

Lemma bare_run (fuel : nat) :
  run_program polygon avalanche bsc fantom usdc usdt PRIVATE_KEYS AMOUNT_TO_SWAP
    mw (S (S fuel)) Bare
  = Result [occ (print stdout "Error: the --mode argument is required");
            occ (raise (SystemExit 2))] initial (Raised (SystemExit 2)) fuel.
Proof.
  unfold run_program, main_on, parse_invocation, parse_args, after_parse_args.
  rewrite run_ret_bind. cbn [mode].
  rewrite run_trigger_bind. cbn [answer_loop].
  rewrite run_trigger_bind. cbn [answer_loop]. reflexivity.
Qed.

Lemma help_run (fuel : nat) :
  run_program polygon avalanche bsc fantom usdc usdt PRIVATE_KEYS AMOUNT_TO_SWAP
    mw (S (S fuel)) Help
  = Result [occ (print stdout "usage: [-h] [--mode MODE]");
            occ (raise (SystemExit 0))] initial (Raised (SystemExit 0)) fuel.
Proof.
  unfold run_program, main_on, parse_invocation.
  assoc. rewrite run_trigger_bind. cbn [answer_loop].
  assoc. rewrite run_trigger_bind. cbn [answer_loop]. reflexivity.
Qed.

Lemma unrecognized_run (words : string) (fuel : nat) :
  run_program polygon avalanche bsc fantom usdc usdt PRIVATE_KEYS AMOUNT_TO_SWAP
    mw (S (S fuel)) (Unrecognized words)
  = Result [occ (print stderr ("error: unrecognized arguments: " ++ words));
            occ (raise (SystemExit 2))] initial (Raised (SystemExit 2)) fuel.
Proof.
  unfold run_program, main_on, parse_invocation.
  assoc. rewrite run_trigger_bind. cbn [answer_loop].
  assoc. rewrite run_trigger_bind. cbn [answer_loop]. reflexivity.
Qed.

(** With less fuel the run is a part of these. *)
Lemma no_mode_quiet (inv : invocation) (fuel : nat) :
  (forall value, inv <> WithMode value) ->
  count is_loop_event
    (trace (run_program polygon avalanche bsc fantom usdc usdt PRIVATE_KEYS
              AMOUNT_TO_SWAP mw fuel inv)) = O.
Proof.
  intros Hinv.
  destruct fuel as [|[|fuel]].
  - unfold run_program. now rewrite run_zero_trace.
  - destruct inv as [|value| |words]; [|now destruct (Hinv value)| |];
      unfold run_program, main_on, parse_invocation, parse_args, after_parse_args;
      rewrite ?run_ret_bind; cbn [mode]; try assoc;
      rewrite run_trigger_bind; cbn [answer_loop]; try assoc;
      rewrite run_zero_trigger_bind; reflexivity.
  - destruct inv as [|value| |words]; [|now destruct (Hinv value)| |].
    + now rewrite bare_run.
    + now rewrite help_run.
    + now rewrite unrecognized_run.
Qed.

End NoMode.

(** C5, as the code has it.  Invoked with no argument at all, the program
    prints the error message of line 143 ([print] writes it on standard
    output) and exits with status 2.  With no [--mode] but with [-h] or
    [--help] the parser prints its help and exits with status 0, and with
    arguments that the parser does not know the parser writes its error on
    standard error and exits with status 2.  On none of these command lines
    does the event loop run anything: no task is resumed and no call of a
    task reaches the world, whatever the fuel. *)
Theorem C5_no_mode_no_network_call (polygon avalanche bsc fantom : Chain.t)
    (usdc usdt : Token.t) (PRIVATE_KEYS : list string) (AMOUNT_TO_SWAP : Q)
    (mw : main_world) (fuel : nat) :
  (trace (run_program polygon avalanche bsc fantom usdc usdt PRIVATE_KEYS
            AMOUNT_TO_SWAP mw (S (S fuel)) Bare)
   = [occ (print stdout "Error: the --mode argument is required");
      occ (raise (SystemExit 2))] /\
   out (run_program polygon avalanche bsc fantom usdc usdt PRIVATE_KEYS
          AMOUNT_TO_SWAP mw (S (S fuel)) Bare)
   = Raised (SystemExit 2)) /\
  (trace (run_program polygon avalanche bsc fantom usdc usdt PRIVATE_KEYS
            AMOUNT_TO_SWAP mw (S (S fuel)) Help)
   = [occ (print stdout "usage: [-h] [--mode MODE]");
      occ (raise (SystemExit 0))] /\
   out (run_program polygon avalanche bsc fantom usdc usdt PRIVATE_KEYS
          AMOUNT_TO_SWAP mw (S (S fuel)) Help)
   = Raised (SystemExit 0)) /\
  (forall words,
     trace (run_program polygon avalanche bsc fantom usdc usdt PRIVATE_KEYS
              AMOUNT_TO_SWAP mw (S (S fuel)) (Unrecognized words))
     = [occ (print stderr ("error: unrecognized arguments: " ++ words));
        occ (raise (SystemExit 2))] /\
     out (run_program polygon avalanche bsc fantom usdc usdt PRIVATE_KEYS
            AMOUNT_TO_SWAP mw (S (S fuel)) (Unrecognized words))
     = Raised (SystemExit 2)) /\
  (forall inv any_fuel,
     (forall value, inv <> WithMode value) ->
     count is_loop_event
       (trace (run_program polygon avalanche bsc fantom usdc usdt PRIVATE_KEYS
                 AMOUNT_TO_SWAP mw any_fuel inv)) = O).
Proof.
  split; [rewrite bare_run; split; reflexivity|].
  split; [rewrite help_run; split; reflexivity|].
  split; [intros words; rewrite unrecognized_run; split; reflexivity|].
  intros inv any_fuel. apply no_mode_quiet.
Qed.

(** C5, as stated, fails twice.  Without any argument the message is
    printed once, on standard output, and nothing is printed on standard
    error.  And a command line that has no [--mode] but asks for help ends
    with status 0, not 2. *)
Lemma C5_stdout_and_help_exits_0 :
  count (is_print_to stderr) (trace (Program.run_program Sample.three 10 Bare)) = O /\
  count (is_print_to stdout) (trace (Program.run_program Sample.three 10 Bare))
  = 1%nat /\
  out (Program.run_program Sample.three 10 Bare) = Raised (SystemExit 2) /\
  out (Program.run_program Sample.three 10 Help) = Raised (SystemExit 0).
Proof. repeat split; vm_compute; reflexivity. Qed.

(** ** Runs of a loop, and runs that have ended *)

Section MoreRunFacts.

Context {E : Type -> Type} {St X : Type}.
Variable handler : forall T, E T -> St -> St * (X + T).




End MoreRunFacts.

(** ** The two worlds of [main] *)


(** ** [gather] under the event loop, one turn at a time *)

Section Collect.

Variable mw : main_world.





End Collect.

(** ** What [gather] keeps of each task *)


Section Finals.

Variable mw : main_world.



End Finals.

(** ** What [gather] does under the event loop *)

Section Collected.

Variable mw : main_world.






End Collected.

(** ** The program with a known mode *)

Section ProgramRun.

Variables polygon avalanche bsc fantom : Chain.t.
Variables usdc usdt : Token.t.
Variable PRIVATE_KEYS : list string.
Variable AMOUNT_TO_SWAP : Q.
Variable mw : main_world.




End ProgramRun.

Section ProgramFacts.

Variables polygon avalanche bsc fantom : Chain.t.
Variables usdc usdt : Token.t.
Variable PRIVATE_KEYS : list string.
Variable AMOUNT_TO_SWAP : Q.
Variable mw : main_world.
Variables key name : string.
Hypothesis known : getitem mode_mapping key = Some name.

Local Abbreviation tasks :=
  (build_tasks polygon avalanche bsc fantom usdc usdt PRIVATE_KEYS name).

Local Abbreviation program fuel :=
  (run_program polygon avalanche bsc fantom usdc usdt PRIVATE_KEYS AMOUNT_TO_SWAP
     mw fuel (WithMode key)).

Local Abbreviation gathered fuel :=
  (run (answer_loop mw) fuel (gather (map (chain_to_chain AMOUNT_TO_SWAP) tasks))
     initial).







End ProgramFacts.

(** ** Failures of wallet tasks under the event loop *)



(** Three wallets, the second of which fails at the submission with an
    ordinary exception: [gather] returns the exception as the second
    entry. *)
Example three_wallets_gathered :
  out (run (answer_loop Sample.three) 400
         (gather (map (chain_to_chain Sample.AMOUNT_TO_SWAP)
                    (Sample.tasks "polygon-fantom")))
         initial)
  = Returned [inr tt; inl (Error "revert"); inr tt].
Proof. vm_compute. reflexivity. Qed.


(** ** What leaves the program *)

Section Leaves.

Variables polygon avalanche bsc fantom : Chain.t.
Variables usdc usdt : Token.t.
Variable PRIVATE_KEYS : list string.
Variable AMOUNT_TO_SWAP : Q.
Variable mw : main_world.



End Leaves.


